(** * The user registration request controller of EdgeNet's head node

    A shallow embedding of
    [pkg/controller/v1alpha/userregistrationrequest/handler.go]:
    the reconciliation handlers [ObjectCreated] and [ObjectUpdated], the
    duplicate check [checkUsernameEmailAddress], the helpers
    [setOwnerReferences] and [generateRandomString], and the goroutines of
    [runApprovalTimeout].

    The handlers talk to the Kubernetes API through two typed clientsets.
    They are embedded as programs of a state monad over a model of the
    cluster; every call to a collaborator is recorded, in program order, in
    a trace.  [runApprovalTimeout] is embedded as a transition system over
    its channels, its timer and its two goroutines. *)

From Stdlib Require Import ZArith String Ascii List Bool Lia.
From stdpp Require Import base option strings pretty gmap list.

Import ListNotations.
Local Open Scope string_scope.
Local Open Scope Z_scope.
Local Open Scope list_scope.

(** ** API objects *)

(** [metav1.Time] and [time.Duration] count nanoseconds. *)
Definition Time := Z.
Definition Hour : Z := 3600 * 1000000000.

Record OwnerReference := {
  or_APIVersion : string;
  or_Kind : string;
  or_Name : string;
  or_UID : string;
  (* *bool in Go: nil is None *)
  or_Controller : option bool;
  or_BlockOwnerDeletion : option bool
}.

Record ObjectMeta := {
  Name : string;
  Namespace : string;
  UID : string;
  (* map[string]string; the nil map reads like the empty one *)
  Labels : gmap string string;
  OwnerReferences : list OwnerReference
}.

Definition zeroMeta : ObjectMeta :=
  {| Name := ""; Namespace := ""; UID := ""; Labels := ∅; OwnerReferences := [] |}.

Record NamespaceObj := { ns_Meta : ObjectMeta }.

Record SiteStatus := { site_Enabled : bool }.
Record Site := { site_Meta : ObjectMeta; site_Status : SiteStatus }.

Record UserSpec := {
  user_Bio : string;
  user_Email : string;
  user_FirstName : string;
  user_LastName : string;
  user_Password : string;
  user_Roles : list string;
  user_URL : string
}.
Record User := { user_Meta : ObjectMeta; user_Spec : UserSpec }.

Record URRSpec := {
  Bio : string;
  Email : string;
  FirstName : string;
  LastName : string;
  Password : string;
  Roles : list string;
  URL : string
}.
Record URRStatus := {
  Approved : bool;
  (* *metav1.Time *)
  Expires : option Time
}.
Record UserRegistrationRequest := {
  Meta : ObjectMeta;
  Spec : URRSpec;
  Status : URRStatus
}.

Record EmailVerificationSpec := { ev_Kind : string; ev_Identifier : string }.
Record EmailVerification := { ev_Meta : ObjectMeta; ev_Spec : EmailVerificationSpec }.

Record Secret := { secret_Meta : ObjectMeta }.

(** Zero values, as [&T{}] allocates them. *)
Definition zeroNamespace : NamespaceObj := {| ns_Meta := zeroMeta |}.
Definition zeroSite : Site :=
  {| site_Meta := zeroMeta; site_Status := {| site_Enabled := false |} |}.
Definition zeroUserSpec : UserSpec :=
  {| user_Bio := ""; user_Email := ""; user_FirstName := ""; user_LastName := "";
     user_Password := ""; user_Roles := []; user_URL := "" |}.
Definition zeroUser : User := {| user_Meta := zeroMeta; user_Spec := zeroUserSpec |}.
Definition zeroURR : UserRegistrationRequest :=
  {| Meta := zeroMeta;
     Spec := {| Bio := ""; Email := ""; FirstName := ""; LastName := "";
                Password := ""; Roles := []; URL := "" |};
     Status := {| Approved := false; Expires := None |} |}.
Definition zeroEmailVerification : EmailVerification :=
  {| ev_Meta := zeroMeta; ev_Spec := {| ev_Kind := ""; ev_Identifier := "" |} |}.
Definition zeroSecret : Secret := {| secret_Meta := zeroMeta |}.

(** Field updates ([x.F = v] in Go). *)
Definition setName (n : string) (m : ObjectMeta) : ObjectMeta :=
  {| Name := n; Namespace := Namespace m; UID := UID m; Labels := Labels m;
     OwnerReferences := OwnerReferences m |}.
Definition setUID (u : string) (m : ObjectMeta) : ObjectMeta :=
  {| Name := Name m; Namespace := Namespace m; UID := u; Labels := Labels m;
     OwnerReferences := OwnerReferences m |}.
Definition setNamespace (n : string) (m : ObjectMeta) : ObjectMeta :=
  {| Name := Name m; Namespace := n; UID := UID m; Labels := Labels m;
     OwnerReferences := OwnerReferences m |}.
Definition setOwnerRefs (l : list OwnerReference) (m : ObjectMeta) : ObjectMeta :=
  {| Name := Name m; Namespace := Namespace m; UID := UID m; Labels := Labels m;
     OwnerReferences := l |}.

Definition setPassword (p : string) (u : UserRegistrationRequest) : UserRegistrationRequest :=
  {| Meta := Meta u;
     Spec := {| Bio := Bio (Spec u); Email := Email (Spec u);
                FirstName := FirstName (Spec u); LastName := LastName (Spec u);
                Password := p; Roles := Roles (Spec u); URL := URL (Spec u) |};
     Status := Status u |}.
Definition setStatus (s : URRStatus) (u : UserRegistrationRequest) : UserRegistrationRequest :=
  {| Meta := Meta u; Spec := Spec u; Status := s |}.

(** [m[k]] on a Go map: the zero value when the key is absent. *)
Definition label (m : ObjectMeta) (k : string) : string := default "" (Labels m !! k).

(** The payload of a notification is an [interface{}]: a value with a
    dynamic type, or nil. *)
Inductive Object :=
| PtrUserRegistrationRequest (u : UserRegistrationRequest)
| PtrUser (u : User)
| PtrSite (s : Site)
| PtrSecret (s : Secret)
| PtrEmailVerification (e : EmailVerification)
| NilInterface.

(** ** The API server as the clientsets show it *)

Inductive Error := NotFound | AlreadyExists | InvalidName | Unavailable.

(** Go's [(result, err)]. *)
Definition Result (A : Type) : Type := A * option Error.

Record Cluster := {
  Namespaces : list NamespaceObj;
  Sites : list Site;
  Users : list User;
  UserRegistrationRequests : list UserRegistrationRequest;
  Secrets : list Secret;
  EmailVerifications : list EmailVerification;
  (* the next UID the server hands out *)
  uidCounter : nat
}.

(** What [mailer.Send] is given. *)
Record VerifyContentData := {
  cd_Site : string;
  cd_Username : string;
  cd_Name : string;
  cd_Email : list string;
  cd_Code : string
}.

(** The calls a handler makes to its collaborators, with their arguments. *)
Inductive Call :=
| Namespaces_Get (name : string)
| Sites_Get (name : string)
| Users_List (ns : string) (fieldSelector : option string)
| Users_Create (ns : string) (u : User)
| UserRegistrationRequests_List (ns : string)
| UserRegistrationRequests_Update (ns : string) (u : UserRegistrationRequest)
| UserRegistrationRequests_UpdateStatus (ns : string) (u : UserRegistrationRequest)
| UserRegistrationRequests_Delete (ns : string) (name : string)
| EmailVerifications_Create (ns : string) (e : EmailVerification)
| Secrets_Get (ns : string) (name : string)
| Secrets_Update (ns : string) (s : Secret)
| registration_CreateSecretByPassword (u : UserRegistrationRequest)
| mailer_Send (template : string) (data : VerifyContentData)
(* a goroutine is started on a pointer: the object behind it, as it is at
   the [go] statement *)
| go_runApprovalTimeout (u : UserRegistrationRequest)
(* the handler assigns to a field of the object it has handed to the
   goroutine: the object as the assignment leaves it *)
| shared_assign (u : UserRegistrationRequest).

(** What surrounds one run of a handler: the clock, which calls the API
    server fails for reasons of its own, the numbers [rand.Intn] draws from,
    and the group and version under which the API types are registered
    (a constant of the apis package). *)
Record Env := {
  now : Time;
  unavailable : Call -> bool;
  draws : nat -> nat;
  SchemeGroupVersion : string
}.

(** ** The model of the cluster

    Modelled from the spec: the resource store behind the two clientsets
    (create, update and delete of typed resources by namespace and name,
    get of a single resource, list with a field selector), which is no part
    of the controller.  What a client returns with an error is how the
    typed clients ([kubernetes.Clientset] and the generated
    [versioned.Clientset]) are written: they allocate the result before
    they send a request and decode into it on success only, so a failed
    [Get], [List], [Create] or [Update] returns a pointer to the zero value
    together with the error, never nil.  A request for the empty resource
    name is refused by the client.  [FieldSelector: "metadata.name==n"] is
    carried as [Some n].  An object travels to the server and back as
    JSON, in which a [metav1.Time] is written in RFC 3339 with whole
    seconds: what is stored of a time, and what is returned of it, is the
    time cut to the second.  Garbage collection along owner references is
    the server's business and not part of the model. *)
Module Store.

Definition Second : Z := 1000000000.

(** A time as its RFC 3339 form keeps it. *)
Definition wholeSeconds (t : Time) : Time := t / Second * Second.

Definition onWireStatus (s : URRStatus) : URRStatus :=
  {| Approved := Approved s; Expires := option_map wholeSeconds (Expires s) |}.

(** A request as its JSON form keeps it. *)
Definition onWire (u : UserRegistrationRequest) : UserRegistrationRequest :=
  setStatus (onWireStatus (Status u)) u.

Definition inNamespace (ns : string) (m : ObjectMeta) : bool :=
  String.eqb ns "" || String.eqb (Namespace m) ns.

Definition hasKey (ns name : string) (m : ObjectMeta) : bool :=
  String.eqb (Namespace m) ns && String.eqb (Name m) name.

Definition matchesSelector (sel : option string) (m : ObjectMeta) : bool :=
  match sel with
  | None => true
  | Some n => String.eqb (Name m) n
  end.

Definition freshUID (cl : Cluster) : string := "uid-" +:+ pretty (uidCounter cl).

Definition getNamespace (name : string) (cl : Cluster) : Result NamespaceObj :=
  if String.eqb name "" then (zeroNamespace, Some InvalidName)
  else match find (fun n => String.eqb (Name (ns_Meta n)) name) (Namespaces cl) with
       | Some n => (n, None)
       | None => (zeroNamespace, Some NotFound)
       end.

(* sites are cluster-scoped *)
Definition getSite (name : string) (cl : Cluster) : Result Site :=
  if String.eqb name "" then (zeroSite, Some InvalidName)
  else match find (fun s => String.eqb (Name (site_Meta s)) name) (Sites cl) with
       | Some s => (s, None)
       | None => (zeroSite, Some NotFound)
       end.

Definition listUsers (ns : string) (sel : option string) (cl : Cluster) : Result (list User) :=
  (List.filter (fun u => inNamespace ns (user_Meta u) && matchesSelector sel (user_Meta u))
          (Users cl), None).

Definition listURRs (ns : string) (cl : Cluster) : Result (list UserRegistrationRequest) :=
  (List.filter (fun u => inNamespace ns (Meta u)) (UserRegistrationRequests cl), None).

Definition getSecret (ns name : string) (cl : Cluster) : Result Secret :=
  if String.eqb name "" then (zeroSecret, Some InvalidName)
  else match find (fun s => hasKey ns name (secret_Meta s)) (Secrets cl) with
       | Some s => (s, None)
       | None => (zeroSecret, Some NotFound)
       end.

Definition withURRs (l : list UserRegistrationRequest) (cl : Cluster) : Cluster :=
  {| Namespaces := Namespaces cl; Sites := Sites cl; Users := Users cl;
     UserRegistrationRequests := l; Secrets := Secrets cl;
     EmailVerifications := EmailVerifications cl; uidCounter := uidCounter cl |}.

Definition withSecrets (l : list Secret) (cl : Cluster) : Cluster :=
  {| Namespaces := Namespaces cl; Sites := Sites cl; Users := Users cl;
     UserRegistrationRequests := UserRegistrationRequests cl; Secrets := l;
     EmailVerifications := EmailVerifications cl; uidCounter := uidCounter cl |}.

Definition addUser (u : User) (cl : Cluster) : Cluster :=
  {| Namespaces := Namespaces cl; Sites := Sites cl; Users := Users cl ++ [u];
     UserRegistrationRequests := UserRegistrationRequests cl; Secrets := Secrets cl;
     EmailVerifications := EmailVerifications cl; uidCounter := S (uidCounter cl) |}.

Definition addEmailVerification (e : EmailVerification) (cl : Cluster) : Cluster :=
  {| Namespaces := Namespaces cl; Sites := Sites cl; Users := Users cl;
     UserRegistrationRequests := UserRegistrationRequests cl; Secrets := Secrets cl;
     EmailVerifications := EmailVerifications cl ++ [e]; uidCounter := S (uidCounter cl) |}.

Definition existsURR (ns name : string) (cl : Cluster) : bool :=
  existsb (fun u => hasKey ns name (Meta u)) (UserRegistrationRequests cl).

Definition deleteURR (ns name : string) (cl : Cluster) : Result unit * Cluster :=
  if existsURR ns name cl then
    ((tt, None),
     withURRs (List.filter (fun u => negb (hasKey ns name (Meta u)))
                           (UserRegistrationRequests cl)) cl)
  else ((tt, Some NotFound), cl).

Definition updateURR (ns : string) (u : UserRegistrationRequest) (cl : Cluster)
  : Result UserRegistrationRequest * Cluster :=
  if String.eqb (Name (Meta u)) "" then ((zeroURR, Some InvalidName), cl)
  else if existsURR ns (Name (Meta u)) cl then
    ((onWire u, None),
     withURRs (map (fun v => if hasKey ns (Name (Meta u)) (Meta v) then onWire u else v)
                   (UserRegistrationRequests cl)) cl)
  else ((zeroURR, Some NotFound), cl).

(* the status subresource: the stored object takes the given status *)
Definition updateStatusURR (ns : string) (u : UserRegistrationRequest) (cl : Cluster)
  : Result UserRegistrationRequest * Cluster :=
  if String.eqb (Name (Meta u)) "" then ((zeroURR, Some InvalidName), cl)
  else match find (fun v => hasKey ns (Name (Meta u)) (Meta v)) (UserRegistrationRequests cl) with
       | Some v =>
           ((setStatus (onWireStatus (Status u)) v, None),
            withURRs (map (fun v => if hasKey ns (Name (Meta u)) (Meta v)
                                    then setStatus (onWireStatus (Status u)) v else v)
                          (UserRegistrationRequests cl)) cl)
       | None => ((zeroURR, Some NotFound), cl)
       end.

Definition createUser (ns : string) (u : User) (cl : Cluster) : Result User * Cluster :=
  if String.eqb (Name (user_Meta u)) "" then ((zeroUser, Some InvalidName), cl)
  else if existsb (fun v => hasKey ns (Name (user_Meta u)) (user_Meta v)) (Users cl)
  then ((zeroUser, Some AlreadyExists), cl)
  else
    let u' := {| user_Meta := setUID (freshUID cl) (setNamespace ns (user_Meta u));
                 user_Spec := user_Spec u |} in
    ((u', None), addUser u' cl).

Definition createEmailVerification (ns : string) (e : EmailVerification) (cl : Cluster)
  : Result EmailVerification * Cluster :=
  if String.eqb (Name (ev_Meta e)) "" then ((zeroEmailVerification, Some InvalidName), cl)
  else if existsb (fun v => hasKey ns (Name (ev_Meta e)) (ev_Meta v)) (EmailVerifications cl)
  then ((zeroEmailVerification, Some AlreadyExists), cl)
  else
    let e' := {| ev_Meta := setUID (freshUID cl) (setNamespace ns (ev_Meta e));
                 ev_Spec := ev_Spec e |} in
    ((e', None), addEmailVerification e' cl).

Definition updateSecret (ns : string) (s : Secret) (cl : Cluster) : Result Secret * Cluster :=
  if String.eqb (Name (secret_Meta s)) "" then ((zeroSecret, Some InvalidName), cl)
  else if existsb (fun v => hasKey ns (Name (secret_Meta s)) (secret_Meta v)) (Secrets cl)
  then ((s, None),
        withSecrets (map (fun v => if hasKey ns (Name (secret_Meta s)) (secret_Meta v)
                                   then s else v) (Secrets cl)) cl)
  else ((zeroSecret, Some NotFound), cl).

End Store.

(** [metav1.NewControllerRef]: a controlling reference that blocks the
    deletion of the owner. *)
Definition NewControllerRef (owner : ObjectMeta) (groupVersion kind : string) : OwnerReference :=
  {| or_APIVersion := groupVersion; or_Kind := kind;
     or_Name := Name owner; or_UID := UID owner;
     or_Controller := Some true; or_BlockOwnerDeletion := Some true |}.

Definition setController (b : bool) (r : OwnerReference) : OwnerReference :=
  {| or_APIVersion := or_APIVersion r; or_Kind := or_Kind r; or_Name := or_Name r;
     or_UID := or_UID r; or_Controller := Some b;
     or_BlockOwnerDeletion := or_BlockOwnerDeletion r |}.

(** ** Handlers as programs over the cluster *)

(** A call and the error it returned, nil being [None]. *)
Definition Event : Type := Call * option Error.

Record World := {
  cluster : Cluster;
  (* the calls made so far, oldest first *)
  trace : list Event
}.

Definition M (A : Type) : Type := World -> A * World.

Definition ret {A} (a : A) : M A := fun w => (a, w).
Definition bind {A B} (m : M A) (k : A -> M B) : M B :=
  fun w => let (a, w') := m w in k a w'.

Declare Scope handler_scope.
Delimit Scope handler_scope with handler.
Notation "x <- c1 ;; c2" := (bind c1 (fun x => c2))
  (at level 100, c1 at next level, right associativity) : handler_scope.
Notation "c1 ;; c2" := (bind c1 (fun _ => c2))
  (at level 100, right associativity) : handler_scope.
Local Open Scope handler_scope.

Definition record (c : Call) (e : option Error) (w : World) : World :=
  {| cluster := cluster w; trace := trace w ++ [(c, e)] |}.

(** Go's [x, _ := f()] and [_, err := f()]. *)
Definition dropErr {A} (m : M (Result A)) : M A := bind m (fun r => ret (fst r)).
Definition onlyErr {A} (m : M (Result A)) : M (option Error) := bind m (fun r => ret (snd r)).

(** How a handler ends. *)
Inductive Outcome := Returned | Panicked.

Section Handler.

Variable env : Env.

(** A call that only reads. *)
Definition query {A} (c : Call) (zero : A) (f : Cluster -> Result A) : M (Result A) :=
  fun w =>
    let r := if unavailable env c then (zero, Some Unavailable) else f (cluster w) in
    (r, record c (snd r) w).

(** A call that writes. *)
Definition command {A} (c : Call) (zero : A) (f : Cluster -> Result A * Cluster)
  : M (Result A) :=
  fun w =>
    if unavailable env c then ((zero, Some Unavailable), record c (Some Unavailable) w)
    else let (r, cl) := f (cluster w) in
         (r, {| cluster := cl; trace := trace w ++ [(c, snd r)] |}).

(** Something started or handed over: a goroutine, a mail. *)
Definition emit (c : Call) : M unit := fun w => (tt, record c None w).

Definition Namespaces_Get_ (name : string) :=
  query (Namespaces_Get name) zeroNamespace (Store.getNamespace name).
Definition Sites_Get_ (name : string) :=
  query (Sites_Get name) zeroSite (Store.getSite name).
Definition Users_List_ (ns : string) (sel : option string) :=
  query (Users_List ns sel) [] (Store.listUsers ns sel).
Definition UserRegistrationRequests_List_ (ns : string) :=
  query (UserRegistrationRequests_List ns) [] (Store.listURRs ns).
Definition Secrets_Get_ (ns name : string) :=
  query (Secrets_Get ns name) zeroSecret (Store.getSecret ns name).
Definition UserRegistrationRequests_Delete_ (ns name : string) :=
  command (UserRegistrationRequests_Delete ns name) tt (Store.deleteURR ns name).
Definition UserRegistrationRequests_Update_ (ns : string) (u : UserRegistrationRequest) :=
  command (UserRegistrationRequests_Update ns u) zeroURR (Store.updateURR ns u).
Definition UserRegistrationRequests_UpdateStatus_ (ns : string) (u : UserRegistrationRequest) :=
  command (UserRegistrationRequests_UpdateStatus ns u) zeroURR (Store.updateStatusURR ns u).
Definition Users_Create_ (ns : string) (u : User) :=
  command (Users_Create ns u) zeroUser (Store.createUser ns u).
Definition EmailVerifications_Create_ (ns : string) (e : EmailVerification) :=
  command (EmailVerifications_Create ns e) zeroEmailVerification
          (Store.createEmailVerification ns e).
Definition Secrets_Update_ (ns : string) (s : Secret) :=
  command (Secrets_Update ns s) zeroSecret (Store.updateSecret ns s).

(** Modelled from the spec: [registration.CreateSecretByPassword], of the
    package [headnode/pkg/registration].  It creates the password secret,
    named [<request-name>-pass], in the namespace of the request, with
    the request as a non-controlling owner, and returns the reference to
    it.  Nothing is created when a secret of that name exists or the
    server refuses; the function returns no error. *)
Definition CreateSecretByPassword (u : UserRegistrationRequest) : M string :=
  fun w =>
    let c := registration_CreateSecretByPassword u in
    let name := Name (Meta u) +:+ "-pass" in
    let ns := Namespace (Meta u) in
    let owner := setController false
                   (NewControllerRef (Meta u) (SchemeGroupVersion env) "UserRegistrationRequest") in
    let s := {| secret_Meta := setOwnerRefs [owner] (setNamespace ns (setName name zeroMeta)) |} in
    if unavailable env c
       || existsb (fun v => Store.hasKey ns name (secret_Meta v)) (Secrets (cluster w))
    then (name, record c None w)
    else (name, {| cluster := Store.withSecrets (Secrets (cluster w) ++ [s]) (cluster w);
                   trace := trace w ++ [(c, None)] |}).

(** [checkUsernameEmailAddress] *)
Definition checkUsernameEmailAddress (URRCopy : UserRegistrationRequest) : M bool :=
  (* To check username on the users resource *)
  userRaw <- dropErr (Users_List_ (Namespace (Meta URRCopy)) (Some (Name (Meta URRCopy)))) ;;
  exist <- (if Nat.eqb (length userRaw) 0 then
              (* To check email address *)
              userRaw <- dropErr (Users_List_ "" None) ;;
              ret (existsb (fun userRow =>
                              String.eqb (user_Email (user_Spec userRow)) (Email (Spec URRCopy)))
                           userRaw)
            else ret true) ;;
  if negb exist then
    URRRaw <- dropErr (UserRegistrationRequests_List_ "") ;;
    ret (existsb (fun URRRow =>
                    String.eqb (Email (Spec URRRow)) (Email (Spec URRCopy))
                    && negb (String.eqb (UID (Meta URRRow)) (UID (Meta URRCopy))))
                 URRRaw)
  else ret exist.

(** [setOwnerReferences] *)
Definition setOwnerReferences (URRCopy : UserRegistrationRequest) : list OwnerReference :=
  let ownerReferences := [] in
  let newNamespaceRef :=
    NewControllerRef (Meta URRCopy) (SchemeGroupVersion env) "UserRegistrationRequest" in
  let takeControl := false in
  let newNamespaceRef := setController takeControl newNamespaceRef in
  ownerReferences ++ [newNamespaceRef].

Definition letter : list ascii :=
  list_ascii_of_string "abcdefghijklmnopqrstuvwxyz0123456789".

(** [rand.Intn n], for the [i]-th draw after seeding. *)
Definition Intn (i n : nat) : nat := (draws env i mod n)%nat.

(** [generateRandomString] *)
Definition generateRandomString (n : nat) : string :=
  let b := map (fun i => nth (Intn i (length letter)) letter "000"%char) (seq 0 n) in
  string_of_list_ascii b.

(** [ObjectCreated].  The type assertion of [obj] to a pointer to a
    [UserRegistrationRequest] has no comma-ok form: any other dynamic
    type, and nil, panics.  The goroutine is handed the pointer
    [URRCopyUpdated], and the handler goes on assigning to the status of
    the object behind it: the trace shows that object as it is at the [go]
    statement and as each of the two assignments leaves it.  The goroutine
    reads the object when it gets to run, so what it finds is one of
    these.  The deferred [UpdateStatus] has its receiver and its argument,
    the same pointer, evaluated at the [defer] statement and runs when the
    handler returns, on the object as it is then. *)
Definition ObjectCreated (obj : Object) : M Outcome :=
  match obj with
  | PtrUserRegistrationRequest u =>
      (* Create a copy of the user registration request object *)
      let URRCopy := u in
      (* Check if the email address is already taken *)
      exist <- checkUsernameEmailAddress URRCopy ;;
      if exist then
        (* If it is already taken, remove the user registration request object *)
        (UserRegistrationRequests_Delete_ (Namespace (Meta URRCopy)) (Name (Meta URRCopy)) ;;
         ret Returned)
      else
        (* Find the site from the namespace in which the object is *)
        URROwnerNamespace <- dropErr (Namespaces_Get_ (Namespace (Meta URRCopy))) ;;
        URROwnerSite <- dropErr (Sites_Get_ (label (ns_Meta URROwnerNamespace) "site-name")) ;;
        (* Check if the site is active *)
        if site_Enabled (site_Status URROwnerSite) then
          match Expires (Status URRCopy) with
          | None =>
              (* Create a user-specific secret to keep the password safe *)
              passwordSecret <- CreateSecretByPassword URRCopy ;;
              (* Update the password field as the secret's name for later use *)
              let URRCopy := setPassword passwordSecret URRCopy in
              URRCopyUpdated <- dropErr (UserRegistrationRequests_Update_
                                           (Namespace (Meta URRCopy)) URRCopy) ;;
              (* Run timeout goroutine *)
              emit (go_runApprovalTimeout URRCopyUpdated) ;;
              let deferredNamespace := Namespace (Meta URRCopyUpdated) in
              (* [URRCopyUpdated.Status.Approved = false], on the object the
                 goroutine holds *)
              let URRCopyUpdated :=
                setStatus {| Approved := false;
                             Expires := Expires (Status URRCopyUpdated) |}
                          URRCopyUpdated in
              emit (shared_assign URRCopyUpdated) ;;
              (* Set the approval timeout which is 72 hours *)
              let URRCopyUpdated :=
                setStatus {| Approved := Approved (Status URRCopyUpdated);
                             Expires := Some (now env + 72 * Hour) |}
                          URRCopyUpdated in
              emit (shared_assign URRCopyUpdated) ;;
              let URROwnerReferences := setOwnerReferences URRCopyUpdated in
              let emailVerificationCode := "bs" +:+ generateRandomString 16 in
              let emailVerification :=
                {| ev_Meta := setName emailVerificationCode
                                      (setOwnerRefs URROwnerReferences zeroMeta);
                   ev_Spec := {| ev_Kind := "User";
                                 ev_Identifier := Name (Meta URRCopy) |} |} in
              err <- onlyErr (EmailVerifications_Create_
                                (Namespace (Meta URRCopy)) emailVerification) ;;
              (match err with
               | None =>
                   (* Set the HTML template variables *)
                   let contentData :=
                     {| cd_Site := label (ns_Meta URROwnerNamespace) "site-name";
                        cd_Username := Name (Meta URRCopyUpdated);
                        cd_Name := FirstName (Spec URRCopyUpdated) +:+ " "
                                   +:+ LastName (Spec URRCopyUpdated);
                        cd_Email := [Email (Spec URRCopyUpdated)];
                        cd_Code := emailVerificationCode |} in
                   emit (mailer_Send "user-email-verification" contentData)
               | Some _ => ret tt
               end) ;;
              (* the deferred call *)
              UserRegistrationRequests_UpdateStatus_ deferredNamespace URRCopyUpdated ;;
              ret Returned
          | Some _ =>
              emit (go_runApprovalTimeout URRCopy) ;;
              ret Returned
          end
        else
          (UserRegistrationRequests_Delete_ (Namespace (Meta URRCopy)) (Name (Meta URRCopy)) ;;
           ret Returned)
  | _ => ret Panicked
  end.

(** [ObjectUpdated] *)
Definition ObjectUpdated (obj : Object) : M Outcome :=
  match obj with
  | PtrUserRegistrationRequest u =>
      let URRCopy := u in
      URROwnerNamespace <- dropErr (Namespaces_Get_ (Namespace (Meta URRCopy))) ;;
      URROwnerSite <- dropErr (Sites_Get_ (label (ns_Meta URROwnerNamespace) "site-name")) ;;
      if site_Enabled (site_Status URROwnerSite) then
        (* Check whether the request for user registration approved *)
        if Approved (Status URRCopy) then
          (* Check again if the email address is already taken *)
          exist <- checkUsernameEmailAddress URRCopy ;;
          (if negb exist then
             (* Create a user on site *)
             let user :=
               {| user_Meta := setName (Name (Meta URRCopy)) zeroMeta;
                  user_Spec := {| user_Bio := Bio (Spec URRCopy);
                                  user_Email := Email (Spec URRCopy);
                                  user_FirstName := FirstName (Spec URRCopy);
                                  user_LastName := LastName (Spec URRCopy);
                                  user_Password := Password (Spec URRCopy);
                                  user_Roles := Roles (Spec URRCopy);
                                  user_URL := URL (Spec URRCopy) |} |} in
             userCreated <- dropErr (Users_Create_ (Namespace (Meta URRCopy)) user) ;;
             (* Add the user created as an owner reference to password secret
                since the user registration object will be removed *)
             passwordSecret <- dropErr (Secrets_Get_ (Namespace (Meta URRCopy))
                                                     (Name (Meta URRCopy) +:+ "-pass")) ;;
             let newSecretRef :=
               NewControllerRef (user_Meta userCreated) (SchemeGroupVersion env) "User" in
             let takeControl := false in
             let newSecretRef := setController takeControl newSecretRef in
             let passwordSecret :=
               {| secret_Meta :=
                    setOwnerRefs (OwnerReferences (secret_Meta passwordSecret) ++ [newSecretRef])
                                 (secret_Meta passwordSecret) |} in
             Secrets_Update_ (Namespace (Meta URRCopy)) passwordSecret ;;
             ret tt
           else ret tt) ;;
          UserRegistrationRequests_Delete_ (Namespace (Meta URRCopy)) (Name (Meta URRCopy)) ;;
          ret Returned
        else ret Returned
      else
        (UserRegistrationRequests_Delete_ (Namespace (Meta URRCopy)) (Name (Meta URRCopy)) ;;
         ret Returned)
  | _ => ret Panicked
  end.

(** [ObjectDeleted]: a log line, nothing else; the payload is not looked
    at. *)
Definition ObjectDeleted (obj : Object) : M Outcome := ret Returned.

End Handler.

(** A program run from a given state of the cluster: what it returns, the
    calls it makes, and the cluster it leaves. *)
Definition run {A} (m : M A) (cl : Cluster) : A * World :=
  m {| cluster := cl; trace := [] |}.
Definition result {A} (m : M A) (cl : Cluster) : A := fst (run m cl).
Definition calls {A} (m : M A) (cl : Cluster) : list Event := trace (snd (run m cl)).
Definition after {A} (m : M A) (cl : Cluster) : Cluster := cluster (snd (run m cl)).

(** A program is lawful when it only appends to the trace and never reads
    it. *)
Definition lawful {A} (m : M A) : Prop :=
  forall w, m w = (result m (cluster w),
                   {| cluster := after m (cluster w);
                      trace := trace w ++ calls m (cluster w) |}).

(** The calls that change the cluster, start a goroutine, assign to the
    object a goroutine was handed or send a mail, as opposed to those that
    read. *)
Definition reads (c : Call) : bool :=
  match c with
  | Namespaces_Get _ | Sites_Get _ | Users_List _ _
  | UserRegistrationRequests_List _ | Secrets_Get _ _ => true
  | _ => false
  end.
Definition effects (t : list Event) : list Event :=
  List.filter (fun e => negb (reads (fst e))) t.

(** The lookups that resolve the site of a request. *)
Definition siteLookup (c : Call) : bool :=
  match c with
  | Namespaces_Get _ | Sites_Get _ => true
  | _ => false
  end.

(** The listings of the Uniqueness Validator. *)
Definition listing (c : Call) : bool :=
  match c with
  | Users_List _ _ | UserRegistrationRequests_List _ => true
  | _ => false
  end.

(** The calls of the Verification Spawner. *)
Definition spawner (c : Call) : bool :=
  match c with
  | EmailVerifications_Create _ _ | mailer_Send _ _ => true
  | _ => false
  end.

Definition spawned (t : list Event) : list Event :=
  List.filter (fun e => spawner (fst e)) t.

(** The provisioning of an approval: the account and the hand-over of the
    password secret. *)
Definition provisioning (c : Call) : bool :=
  match c with
  | Users_Create _ _ | Secrets_Get _ _ | Secrets_Update _ _ => true
  | _ => false
  end.
Definition provisioned (t : list Event) : list Event :=
  List.filter (fun e => provisioning (fst e)) t.

(** The writes of the request and the start of its supervisor. *)
Definition supervision (c : Call) : bool :=
  match c with
  | UserRegistrationRequests_Update _ _ | UserRegistrationRequests_UpdateStatus _ _
  | go_runApprovalTimeout _ => true
  | _ => false
  end.
Definition supervising (t : list Event) : list Event :=
  List.filter (fun e => supervision (fst e)) t.



Definition failed (e : Event) : bool :=
  match snd e with
  | Some _ => true
  | None => false
  end.

Section Observations.

Variable env : Env.

(** The verdict of the Uniqueness Validator. *)
Definition IsDuplicate (u : UserRegistrationRequest) (cl : Cluster) : bool :=
  result (checkUsernameEmailAddress env u) cl.

(** The two lookups on which both handlers branch: the namespace of the
    request, then the site its [site-name] label names.  Errors are
    dropped as the handlers drop them. *)
Definition resolveSite (u : UserRegistrationRequest) : M Site :=
  URROwnerNamespace <- dropErr (Namespaces_Get_ env (Namespace (Meta u))) ;;
  dropErr (Sites_Get_ env (label (ns_Meta URROwnerNamespace) "site-name")).

Definition siteEnabled (u : UserRegistrationRequest) (cl : Cluster) : bool :=
  site_Enabled (site_Status (result (resolveSite u) cl)).

(** Whether one of the two lookups returned an error. *)
Definition resolutionFails (u : UserRegistrationRequest) (cl : Cluster) : bool :=
  existsb failed (calls (resolveSite u) cl).

End Observations.

(** ** [runApprovalTimeout]

    Two goroutines: the one that runs the select loop, and the one that
    ranges over the events of the watch.  They share three channels of
    capacity one, the variable [timeout] and the watch.  A schedule decides
    who moves next, how time passes, and which ready case a select takes
    (Go chooses among the ready cases at random). *)
Module runApprovalTimeout.

(** A [chan bool] of capacity one on which only [true] is sent. *)
Record Chan := { buffered : bool; closed : bool }.
Definition make : Chan := {| buffered := false; closed := false |}.
Definition close (c : Chan) : Chan := {| buffered := buffered c; closed := true |}.

(** One event of [watchURR.ResultChan()]. *)
Record WatchEvent := { Type_ : string; Object_ : Object }.

(** The watch: the events it will still deliver, and whether [Stop] was
    called, which closes the result channel. *)
Record Watch := { pending : list WatchEvent; stopped : bool }.

Inductive ChanName := registrationApproved | timeoutRenewed | terminated.

(** Where the goroutine of the watch stands. *)
Inductive Watcher :=
| NotStarted
| Ranging
(* at a send statement; afterwards the loop continues or breaks *)
| Sending (ch : ChanName) (continue : bool)
| Exited
| WatcherPanicked.

Inductive Terminal := APPROVED | EXPIRED | EXTERNALLY_DELETED.

(** Where the select loop stands.  The channel operands of a select are
    evaluated once, on entry: a select that is waiting keeps the timer it
    found in [timeout] then. *)
Inductive Main :=
| Looping
| Selecting (timer : option Time)
| Finished (t : Terminal)
| MainPanicked.

Record State := {
  clock : Time;
  chan_registrationApproved : Chan;
  chan_timeoutRenewed : Chan;
  chan_terminated : Chan;
  (* [var timeout <-chan time.Time]: nil, or a timer and when it fires *)
  timeout : option Time;
  (* nil when [Watch] returned an error *)
  watchURR : option Watch;
  watcher : Watcher;
  main : Main;
  (* the requests deleted so far: namespace and name *)
  deletions : list (string * string)
}.

Inductive Case := case_registrationApproved | case_timeoutRenewed | case_timeout | case_terminated.

Inductive Action :=
(* time passes *)
| Tick (d : N)
(* the goroutine of the watch makes its next move *)
| WatcherStep
(* the loop enters its select *)
| Enter
(* the select takes a case that is ready *)
| Fire (c : Case).

Definition Until (clock t : Time) : Z := t - clock.
Definition After (clock : Time) (d : Z) : Time := clock + d.

Definition fired (timer : option Time) (clock : Time) : bool :=
  match timer with
  | Some t => t <=? clock
  | None => false
  end.

Definition chan (n : ChanName) (s : State) : Chan :=
  match n with
  | registrationApproved => chan_registrationApproved s
  | timeoutRenewed => chan_timeoutRenewed s
  | terminated => chan_terminated s
  end.

Definition setChan (n : ChanName) (c : Chan) (s : State) : State :=
  {| clock := clock s;
     chan_registrationApproved :=
       match n with registrationApproved => c | _ => chan_registrationApproved s end;
     chan_timeoutRenewed :=
       match n with timeoutRenewed => c | _ => chan_timeoutRenewed s end;
     chan_terminated :=
       match n with terminated => c | _ => chan_terminated s end;
     timeout := timeout s; watchURR := watchURR s; watcher := watcher s;
     main := main s; deletions := deletions s |}.

Definition setClock (t : Time) (s : State) : State :=
  {| clock := t; chan_registrationApproved := chan_registrationApproved s;
     chan_timeoutRenewed := chan_timeoutRenewed s; chan_terminated := chan_terminated s;
     timeout := timeout s; watchURR := watchURR s; watcher := watcher s;
     main := main s; deletions := deletions s |}.

Definition setTimeout (t : option Time) (s : State) : State :=
  {| clock := clock s; chan_registrationApproved := chan_registrationApproved s;
     chan_timeoutRenewed := chan_timeoutRenewed s; chan_terminated := chan_terminated s;
     timeout := t; watchURR := watchURR s; watcher := watcher s;
     main := main s; deletions := deletions s |}.

Definition setWatch (w : option Watch) (s : State) : State :=
  {| clock := clock s; chan_registrationApproved := chan_registrationApproved s;
     chan_timeoutRenewed := chan_timeoutRenewed s; chan_terminated := chan_terminated s;
     timeout := timeout s; watchURR := w; watcher := watcher s;
     main := main s; deletions := deletions s |}.

Definition setWatcher (g : Watcher) (s : State) : State :=
  {| clock := clock s; chan_registrationApproved := chan_registrationApproved s;
     chan_timeoutRenewed := chan_timeoutRenewed s; chan_terminated := chan_terminated s;
     timeout := timeout s; watchURR := watchURR s; watcher := g;
     main := main s; deletions := deletions s |}.

Definition setMain (m : Main) (s : State) : State :=
  {| clock := clock s; chan_registrationApproved := chan_registrationApproved s;
     chan_timeoutRenewed := chan_timeoutRenewed s; chan_terminated := chan_terminated s;
     timeout := timeout s; watchURR := watchURR s; watcher := watcher s;
     main := m; deletions := deletions s |}.

Definition addDeletion (d : string * string) (s : State) : State :=
  {| clock := clock s; chan_registrationApproved := chan_registrationApproved s;
     chan_timeoutRenewed := chan_timeoutRenewed s; chan_terminated := chan_terminated s;
     timeout := timeout s; watchURR := watchURR s; watcher := watcher s;
     main := main s; deletions := deletions s ++ [d] |}.

(** [closeChannels] *)
Definition closeChannels (s : State) : State :=
  setChan terminated (close (chan_terminated s))
    (setChan timeoutRenewed (close (chan_timeoutRenewed s))
       (setChan registrationApproved (close (chan_registrationApproved s)) s)).

(** [<-ch] on a channel that holds a value. *)
Definition receive (n : ChanName) (s : State) : State :=
  setChan n {| buffered := false; closed := closed (chan n s) |} s.

(** [watchURR.Stop()]: a method call on an interface value, which panics
    on nil. *)
Definition Stop (s : State) : option State :=
  match watchURR s with
  | Some w => Some (setWatch (Some {| pending := pending w; stopped := true |}) s)
  | None => None
  end.

Definition panicked (s : State) : bool :=
  match main s, watcher s with
  | MainPanicked, _ | _, WatcherPanicked => true
  | _, _ => false
  end.

Section Run.

(** The request the supervisor was started for. *)
Variable URRCopy : UserRegistrationRequest.

(** The state in which the select loop is reached.  [watchResult] is
    what [Watch] returned: the watch, or nil with an error. *)
Definition start (t0 : Time) (watchResult : option (list WatchEvent)) : State :=
  let timeout :=
    match Expires (Status URRCopy) with
    | Some e => Some (After t0 (Until t0 e))
    | None => None
    end in
  {| clock := t0;
     chan_registrationApproved := make;
     chan_timeoutRenewed := make;
     chan_terminated := make;
     timeout := match watchResult with
                | Some _ => timeout
                (* In case of any malfunction of watching, there is a
                   timeout at 72 hours *)
                | None => Some (After t0 (72 * Hour))
                end;
     watchURR := match watchResult with
                 | Some evs => Some {| pending := evs; stopped := false |}
                 | None => None
                 end;
     watcher := match watchResult with Some _ => Ranging | None => NotStarted end;
     main := Looping;
     deletions := [] |}.

(** The body of the for-range over the events, up to its send. *)
Definition observe (ev : WatchEvent) (s : State) : State :=
  match Object_ ev with
  | PtrUserRegistrationRequest updatedURR =>
      if String.eqb (Type_ ev) "DELETED" then setWatcher (Sending terminated true) s
      else if Approved (Status updatedURR) then
        setWatcher (Sending registrationApproved false) s
      else
        match Expires (Status updatedURR) with
        | Some e =>
            let s := setTimeout (Some (After (clock s) (Until (clock s) e))) s in
            (* Check whether expiration date updated *)
            match Expires (Status URRCopy) with
            | Some e0 =>
                if negb (e0 =? e) then setWatcher (Sending timeoutRenewed true) s
                else s
            | None => setWatcher (Sending timeoutRenewed true) s
            end
        | None => s
        end
  | _ => s
  end.

Definition watcherStep (s : State) : option State :=
  match watcher s with
  | Ranging =>
      match watchURR s with
      | Some w =>
          if stopped w then Some (setWatcher Exited s)
          else match pending w with
               | ev :: rest =>
                   Some (observe ev (setWatch (Some {| pending := rest; stopped := false |}) s))
               | [] => None
               end
      | None => None
      end
  | Sending n continue =>
      if closed (chan n s) then Some (setWatcher WatcherPanicked s)
      else if buffered (chan n s) then None
      else Some (setWatcher (if continue then Ranging else Exited)
                            (setChan n {| buffered := true; closed := false |} s))
  | _ => None
  end.

Definition ready (c : Case) (timer : option Time) (s : State) : bool :=
  match c with
  | case_registrationApproved => buffered (chan_registrationApproved s)
  | case_timeoutRenewed => buffered (chan_timeoutRenewed s)
  | case_timeout => fired timer (clock s)
  | case_terminated => buffered (chan_terminated s)
  end.

(** The body of the case taken. *)
Definition fire (c : Case) (s : State) : State :=
  match c with
  | case_registrationApproved =>
      match Stop (receive registrationApproved s) with
      | Some s => setMain (Finished APPROVED) (closeChannels s)
      | None => setMain MainPanicked (receive registrationApproved s)
      end
  | case_timeoutRenewed => setMain Looping (receive timeoutRenewed s)
  | case_timeout =>
      match Stop s with
      | Some s =>
          setMain (Finished EXPIRED)
            (closeChannels
               (addDeletion (Namespace (Meta URRCopy), Name (Meta URRCopy)) s))
      | None => setMain MainPanicked s
      end
  | case_terminated =>
      match Stop (receive terminated s) with
      | Some s => setMain (Finished EXTERNALLY_DELETED) (closeChannels s)
      | None => setMain MainPanicked (receive terminated s)
      end
  end.

(** One move; [None] when the move is not possible in [s].  A panic
    ends the process: nothing moves afterwards. *)
Definition step (s : State) (a : Action) : option State :=
  match a with
  | Tick d => Some (setClock (clock s + Z.of_N d) s)
  | WatcherStep => if panicked s then None else watcherStep s
  | Enter =>
      match main s with
      | Looping => if panicked s then None else Some (setMain (Selecting (timeout s)) s)
      | _ => None
      end
  | Fire c =>
      match main s with
      | Selecting timer =>
          if panicked s then None
          else if ready c timer s then Some (fire c s) else None
      | _ => None
      end
  end.

Fixpoint run (s : State) (schedule : list Action) : option State :=
  match schedule with
  | [] => Some s
  | a :: rest =>
      match step s a with
      | Some s' => run s' rest
      | None => None
      end
  end.

End Run.

(** What holds of every state of a supervisor whose watch was
    established: the loop does not panic; until it finishes nothing is
    deleted, no channel is closed and the goroutine of the watch has not
    panicked; once it has finished the watch is stopped, and something was
    deleted only if it finished as [EXPIRED]. *)
Definition watching (s : State) : Prop :=
  match watchURR s with
  | None => False
  | Some w =>
      match main s with
      | MainPanicked => False
      | Finished t => stopped w = true /\ (t <> EXPIRED -> deletions s = [])
      | Looping | Selecting _ =>
          deletions s = [] /\ watcher s <> WatcherPanicked /\
          closed (chan_registrationApproved s) = false /\
          closed (chan_timeoutRenewed s) = false /\
          closed (chan_terminated s) = false
      end
  end.

(** What holds of every state of a supervisor whose watch could not be
    established: there is no watch and no goroutine for it, so no channel
    ever holds a value; nothing is deleted and the loop never finishes. *)
Definition degraded (s : State) : Prop :=
  watchURR s = None /\ watcher s = NotStarted /\ deletions s = [] /\
  buffered (chan_registrationApproved s) = false /\
  buffered (chan_timeoutRenewed s) = false /\
  buffered (chan_terminated s) = false /\
  match main s with
  | Finished _ => False
  | _ => True
  end.

End runApprovalTimeout.

(** ** A small cluster to run the code on *)
Module Fixture.

Definition meta (ns name uid : string) : ObjectMeta :=
  {| Name := name; Namespace := ns; UID := uid; Labels := ∅; OwnerReferences := [] |}.

(** Site [a], enabled, and its namespace [site-a]; site [b], disabled,
    and its namespace [site-b]. *)
Definition namespaceOf (site uid : string) : NamespaceObj :=
  {| ns_Meta := {| Name := "site-" +:+ site; Namespace := ""; UID := uid;
                   Labels := {[ "site-name" := site ]}; OwnerReferences := [] |} |}.
Definition siteA : Site :=
  {| site_Meta := meta "" "a" "s-a"; site_Status := {| site_Enabled := true |} |}.
Definition siteB : Site :=
  {| site_Meta := meta "" "b" "s-b"; site_Status := {| site_Enabled := false |} |}.

Definition request (ns name uid email : string) : UserRegistrationRequest :=
  {| Meta := meta ns name uid;
     Spec := {| Bio := ""; Email := email; FirstName := "Alice"; LastName := "Liddell";
                Password := ""; Roles := ["Admin"]; URL := "" |};
     Status := {| Approved := false; Expires := None |} |}.

Definition account (ns name uid email : string) : User :=
  {| user_Meta := meta ns name uid;
     user_Spec := {| user_Bio := ""; user_Email := email; user_FirstName := "Alice";
                     user_LastName := "Liddell"; user_Password := name +:+ "-pass";
                     user_Roles := []; user_URL := "" |} |}.

(** A server that answers every call; the draws of [rand.Intn] count up. *)
Definition env0 : Env :=
  {| now := 1000; unavailable := fun _ => false; draws := fun i => i;
     SchemeGroupVersion := "apps.edgenet.io/v1alpha" |}.

(** The same, but reads of namespaces fail. *)
Definition envNoNamespaces : Env :=
  {| now := 1000;
     unavailable := fun c => match c with Namespaces_Get _ => true | _ => false end;
     draws := fun i => i;
     SchemeGroupVersion := "apps.edgenet.io/v1alpha" |}.


(** The request of [alice] for site [a], as the signup leaves it. *)
Definition alice : UserRegistrationRequest := request "site-a" "alice" "r-1" "alice@a.org".

Definition cluster0 : Cluster :=
  {| Namespaces := [namespaceOf "a" "n-a"; namespaceOf "b" "n-b"];
     Sites := [siteA; siteB];
     Users := [];
     UserRegistrationRequests := [alice];
     Secrets := [];
     EmailVerifications := [];
     uidCounter := 0 |}.

(** A request for the disabled site [b]. *)
Definition bob : UserRegistrationRequest := request "site-b" "bob" "r-2" "bob@b.org".

Definition withRequests (l : list UserRegistrationRequest) (cl : Cluster) : Cluster :=
  Store.withURRs l cl.

Definition withUsers (l : list User) (cl : Cluster) : Cluster :=
  {| Namespaces := Namespaces cl; Sites := Sites cl; Users := l;
     UserRegistrationRequests := UserRegistrationRequests cl; Secrets := Secrets cl;
     EmailVerifications := EmailVerifications cl; uidCounter := uidCounter cl |}.

(** The request of [alice] once admitted, as the handler leaves it behind
    the pointer it has handed to the supervisor: the secret reference and
    the deadline are set. *)
Definition alicePending : UserRegistrationRequest :=
  setStatus {| Approved := false; Expires := Some 259200000001000 |}
            (setPassword "alice-pass" alice).

(** The cluster once [alice] is admitted, and once an administrator has
    approved the request. *)
Definition clusterAdmitted : Cluster :=
  after (ObjectCreated env0 (PtrUserRegistrationRequest alice)) cluster0.
Definition aliceApproved : UserRegistrationRequest :=
  setStatus {| Approved := true; Expires := Some 259200000001000 |}
            (setPassword "alice-pass" alice).
Definition clusterApproved : Cluster := withRequests [aliceApproved] clusterAdmitted.

(** The account the approval of [alice] asks the server to create, and the
    password secret as the approval writes it back. *)
Definition aliceAccount : User :=
  {| user_Meta := meta "" "alice" "";
     user_Spec := {| user_Bio := ""; user_Email := "alice@a.org"; user_FirstName := "Alice";
                     user_LastName := "Liddell"; user_Password := "alice-pass";
                     user_Roles := ["Admin"]; user_URL := "" |} |}.
Definition ownerRef (kind name uid : string) : OwnerReference :=
  {| or_APIVersion := "apps.edgenet.io/v1alpha"; or_Kind := kind; or_Name := name;
     or_UID := uid; or_Controller := Some false; or_BlockOwnerDeletion := Some true |}.
Definition alicePassHandedOver : Secret :=
  {| secret_Meta :=
       {| Name := "alice-pass"; Namespace := "site-a"; UID := ""; Labels := ∅;
          OwnerReferences := [ownerRef "UserRegistrationRequest" "alice" "r-1";
                              ownerRef "User" "alice" "uid-1"] |} |}.

(** The same with an account [alice] in the namespace of the other site,
    under another email address. *)
Definition clusterAliceElsewhere : Cluster :=
  withUsers [account "site-b" "alice" "u-9" "alice@b.org"] cluster0.
Definition clusterAliceElsewhereApproved : Cluster :=
  withRequests [aliceApproved]
    (after (ObjectCreated env0 (PtrUserRegistrationRequest alice)) clusterAliceElsewhere).

(** The watch delivers the approval of [alice]. *)
Definition approval : runApprovalTimeout.WatchEvent :=
  {| runApprovalTimeout.Type_ := "MODIFIED";
     runApprovalTimeout.Object_ := PtrUserRegistrationRequest aliceApproved |}.


(** Both requests pending. *)
Definition clusterAB : Cluster := withRequests [alice; bob] cluster0.

(** Both requests pending, and an account [bob] in the namespace of
    site [b]. *)
Definition clusterABWithBob : Cluster :=
  withUsers [account "site-b" "bob" "u-2" "bobby@b.org"] clusterAB.

(** The request of [alice] pending, and an account [alice] in the
    namespace of site [a]. *)
Definition clusterWithAlice : Cluster :=
  withUsers [account "site-a" "alice" "u-1" "al@a.org"] cluster0.

End Fixture.

(** ** Collisions, as the validator looks for them *)

Section Collisions.

Variable u : UserRegistrationRequest.

(** An account that the listing by name returns: of the namespace of the
    request, all namespaces if that is empty, and under its name. *)
Definition sameName (a : User) : bool :=
  Store.inNamespace (Namespace (Meta u)) (user_Meta a)
  && String.eqb (Name (user_Meta a)) (Name (Meta u)).

Definition sameEmail (a : User) : bool :=
  String.eqb (user_Email (user_Spec a)) (Email (Spec u)).

(** Another request under the same email address. *)
Definition rivalRequest (r : UserRegistrationRequest) : bool :=
  String.eqb (Email (Spec r)) (Email (Spec u))
  && negb (String.eqb (UID (Meta r)) (UID (Meta u))).

End Collisions.

(** A program that leaves an observation of the cluster as it was. *)
Definition keeps {A X} (f : Cluster -> X) (m : M A) : Prop :=
  forall cl, f (after m cl) = f cl.

(** The requests other than the one under a given namespace and name. *)
Definition otherRequests (ns name : string) (cl : Cluster) : list UserRegistrationRequest :=
  List.filter (fun r => negb (Store.hasKey ns name (Meta r))) (UserRegistrationRequests cl).

(** A lowercase letter or a digit, by its code. *)
Definition lowerAlphanumeric (c : ascii) : bool :=
  let n := nat_of_ascii c in
  ((97 <=? n) && (n <=? 122) || (48 <=? n) && (n <=? 57))%nat.

(** ** More that holds of the states of a supervisor *)

Section Supervised.

Import runApprovalTimeout.

(** The request the supervisor was started for. *)
Variable URRCopy : UserRegistrationRequest.

(** The deletions made so far, against where the loop stands: one, of
    the request the supervisor was started for, once the loop has finished
    as [EXPIRED]; none otherwise. *)
Definition accounted (s : State) : Prop :=
  match main s with
  | Finished EXPIRED => deletions s = [(Namespace (Meta URRCopy), Name (Meta URRCopy))]
  | _ => deletions s = []
  end.

(** A loop that has finished has closed the three channels. *)
Definition shutDown (s : State) : Prop :=
  match main s with
  | Finished _ =>
      closed (chan_registrationApproved s) = true /\
      closed (chan_timeoutRenewed s) = true /\
      closed (chan_terminated s) = true
  | _ => True
  end.

(** An event that brings no deadline: its object is no request, or a
    request whose [status.expires] is nil. *)
Definition bringsNoDeadline (ev : WatchEvent) : Prop :=
  forall r, Object_ ev = PtrUserRegistrationRequest r -> Expires (Status r) = None.

(** No timer is armed, the select waits on none, and no event to come
    brings a deadline. *)
Definition unarmed (s : State) : Prop :=
  timeout s = None /\ deletions s = [] /\
  match main s with
  | Selecting timer => timer = None
  | Finished EXPIRED => False
  | _ => True
  end /\
  match watchURR s with
  | Some w => Forall bringsNoDeadline (pending w)
  | None => True
  end.

End Supervised.

(** ** More scenarios *)
Module Scenario.

(** A server that answers no listing. *)
Definition envNoListings : Env :=
  {| now := 1000;
     unavailable := fun c => listing c;
     draws := fun i => i;
     SchemeGroupVersion := "apps.edgenet.io/v1alpha" |}.

(** A server that refuses to create accounts. *)
Definition envNoAccounts : Env :=
  {| now := 1000;
     unavailable := fun c => match c with Users_Create _ _ => true | _ => false end;
     draws := fun i => i;
     SchemeGroupVersion := "apps.edgenet.io/v1alpha" |}.

(** The request of [alice] approved, while an account of the other site
    has taken her email address. *)
Definition clusterApprovedTaken : Cluster :=
  Fixture.withUsers [Fixture.account "site-b" "al" "u-3" "alice@a.org"]
                    Fixture.clusterApproved.

(** The request of [alice] with the name of its password secret, no
    deadline yet: what the supervisor is started on at admission. *)
Definition aliceWritten : UserRegistrationRequest := setPassword "alice-pass" Fixture.alice.

(** The watch delivers the creation of that request, the deletion of the
    approved request, and the renewal of the deadline by an hour. *)
Definition added : runApprovalTimeout.WatchEvent :=
  {| runApprovalTimeout.Type_ := "ADDED";
     runApprovalTimeout.Object_ := PtrUserRegistrationRequest aliceWritten |}.

(** 72 hours, as a number of nanoseconds. *)
Definition threeDays : N := 259200000000000.

(** The supervisor of [alicePending], started at 1000: the approval was
    observed but not yet signalled when the deadline fired and the loop
    took the timeout. *)
Definition unsent : runApprovalTimeout.State :=
  {| runApprovalTimeout.clock := 259200000001000;
     runApprovalTimeout.chan_registrationApproved :=
       {| runApprovalTimeout.buffered := false; runApprovalTimeout.closed := true |};
     runApprovalTimeout.chan_timeoutRenewed :=
       {| runApprovalTimeout.buffered := false; runApprovalTimeout.closed := true |};
     runApprovalTimeout.chan_terminated :=
       {| runApprovalTimeout.buffered := false; runApprovalTimeout.closed := true |};
     runApprovalTimeout.timeout := Some 259200000001000;
     runApprovalTimeout.watchURR :=
       Some {| runApprovalTimeout.pending := []; runApprovalTimeout.stopped := true |};
     runApprovalTimeout.watcher :=
       runApprovalTimeout.Sending runApprovalTimeout.registrationApproved false;
     runApprovalTimeout.main := runApprovalTimeout.Finished runApprovalTimeout.EXPIRED;
     runApprovalTimeout.deletions := [("site-a", "alice")] |}.

(** The supervisor of [aliceWritten], started at 1000, 72 hours later:
    the one event of the watch was observed, the select waits on no
    timer. *)
Definition idle : runApprovalTimeout.State :=
  {| runApprovalTimeout.clock := 259200000001000;
     runApprovalTimeout.chan_registrationApproved := runApprovalTimeout.make;
     runApprovalTimeout.chan_timeoutRenewed := runApprovalTimeout.make;
     runApprovalTimeout.chan_terminated := runApprovalTimeout.make;
     runApprovalTimeout.timeout := None;
     runApprovalTimeout.watchURR :=
       Some {| runApprovalTimeout.pending := []; runApprovalTimeout.stopped := false |};
     runApprovalTimeout.watcher := runApprovalTimeout.Ranging;
     runApprovalTimeout.main := runApprovalTimeout.Selecting None;
     runApprovalTimeout.deletions := [] |}.

End Scenario.

(** * What the code guarantees *)

(** ** The type assertion *)

(** ** Programs compose *)

Lemma lawful_ret {A} (a : A) : lawful (ret a).
Proof. intros [cl t]. unfold ret, result, calls, after, run; cbn. now rewrite app_nil_r. Qed.

Section Bind.

Context {A B : Type} (m : M A) (k : A -> M B).
Hypothesis lawful_k : forall a, lawful (k a).

Lemma run_bind cl :
  run (bind m k) cl =
    (result (k (result m cl)) (after m cl),
     {| cluster := after (k (result m cl)) (after m cl);
        trace := calls m cl ++ calls (k (result m cl)) (after m cl) |}).
Proof.
  unfold result, calls, after, run, bind.
  destruct (m {| cluster := cl; trace := [] |}) as [a [cl1 t1]]. cbn.
  now rewrite (lawful_k a {| cluster := cl1; trace := t1 |}).
Qed.

Lemma result_bind cl : result (bind m k) cl = result (k (result m cl)) (after m cl).
Proof. unfold result at 1. now rewrite run_bind. Qed.

Lemma calls_bind cl :
  calls (bind m k) cl = calls m cl ++ calls (k (result m cl)) (after m cl).
Proof. unfold calls at 1. now rewrite run_bind. Qed.

Lemma after_bind cl : after (bind m k) cl = after (k (result m cl)) (after m cl).
Proof. unfold after at 1. now rewrite run_bind. Qed.

End Bind.

Lemma lawful_bind {A B} (m : M A) (k : A -> M B) :
  lawful m -> (forall a, lawful (k a)) -> lawful (bind m k).
Proof.
  intros Hm Hk [cl t].
  rewrite (result_bind m k Hk), (calls_bind m k Hk), (after_bind m k Hk).
  unfold bind at 1. rewrite Hm. cbn [cluster trace]. rewrite Hk. cbn [cluster trace].
  now rewrite app_assoc.
Qed.

Lemma lawful_query {A} env c (z : A) f : lawful (query env c z f).
Proof. intros [cl t]. reflexivity. Qed.

Lemma lawful_command {A} env c (z : A) f : lawful (command env c z f).
Proof.
  intros [cl t]. unfold result, calls, after, run, command, record; cbn.
  destruct (unavailable env c); [reflexivity|]. now destruct (f cl).
Qed.

Lemma lawful_emit c : lawful (emit c).
Proof. intros [cl t]. reflexivity. Qed.

Lemma lawful_CreateSecretByPassword env u : lawful (CreateSecretByPassword env u).
Proof.
  intros [cl t]. unfold result, calls, after, run, CreateSecretByPassword, record; cbn.
  now destruct (_ || _).
Qed.

Lemma lawful_dropErr {A} (m : M (Result A)) : lawful m -> lawful (dropErr m).
Proof. intros. apply lawful_bind; [assumption | intros; apply lawful_ret]. Qed.

Lemma lawful_onlyErr {A} (m : M (Result A)) : lawful m -> lawful (onlyErr m).
Proof. intros. apply lawful_bind; [assumption | intros; apply lawful_ret]. Qed.

Create HintDb lawful.
#[export] Hint Resolve lawful_ret lawful_query lawful_command lawful_emit
  lawful_CreateSecretByPassword lawful_dropErr lawful_onlyErr : lawful.

Create HintDb api.
#[export] Hint Unfold Namespaces_Get_ Sites_Get_ Users_List_ UserRegistrationRequests_List_
  Secrets_Get_ UserRegistrationRequests_Delete_ UserRegistrationRequests_Update_
  UserRegistrationRequests_UpdateStatus_ Users_Create_ EmailVerifications_Create_
  Secrets_Update_ : api.

(** Lawfulness of a program made of calls, binds and branches. *)
Ltac lawfulness :=
  autounfold with api;
  repeat first
    [ progress auto with lawful
    | apply lawful_bind; [| intros ]
    | match goal with
      | |- lawful (if ?b then _ else _) => destruct b
      | |- lawful (match ?o with Some _ => _ | None => _ end) => destruct o
      end ].

Lemma lawful_checkUsernameEmailAddress env u : lawful (checkUsernameEmailAddress env u).
Proof. unfold checkUsernameEmailAddress. lawfulness. Qed.

Lemma lawful_resolveSite env u : lawful (resolveSite env u).
Proof. unfold resolveSite. lawfulness. Qed.

#[export] Hint Resolve lawful_checkUsernameEmailAddress lawful_resolveSite : lawful.


(** Reads leave the cluster as it is. *)
Lemma after_query {A} env c (z : A) f cl : after (query env c z f) cl = cl.
Proof. reflexivity. Qed.

Lemma after_checkUsernameEmailAddress env u cl :
  after (checkUsernameEmailAddress env u) cl = cl.
Proof.
  unfold checkUsernameEmailAddress.
  repeat (rewrite after_bind by (intros; lawfulness)).
  unfold dropErr. rewrite !result_bind, !after_bind by (intros; lawfulness).
  autounfold with api. rewrite !after_query.
  repeat match goal with
         | |- context [if ?b then _ else _] => destruct b
         end; try reflexivity;
    repeat (rewrite ?after_bind, ?after_query by (intros; lawfulness)); reflexivity.
Qed.

Lemma after_resolveSite env u cl : after (resolveSite env u) cl = cl.
Proof.
  unfold resolveSite, dropErr.
  repeat (rewrite ?after_bind, ?after_query by (intros; lawfulness)). reflexivity.
Qed.

(** The calls, the result and the cluster of the primitive programs. *)
Lemma calls_ret {A} (a : A) cl : calls (ret a) cl = [].
Proof. reflexivity. Qed.
Lemma result_ret {A} (a : A) cl : result (ret a) cl = a.
Proof. reflexivity. Qed.
Lemma after_ret {A} (a : A) cl : after (ret a) cl = cl.
Proof. reflexivity. Qed.

Lemma calls_query {A} env c (z : A) f cl :
  calls (query env c z f) cl = [(c, snd (result (query env c z f) cl))].
Proof. reflexivity. Qed.

Lemma calls_command {A} env c (z : A) f cl :
  calls (command env c z f) cl = [(c, snd (result (command env c z f) cl))].
Proof.
  unfold calls, result, run, command, record; cbn.
  destruct (unavailable env c); [reflexivity|]. now destruct (f cl).
Qed.

Lemma calls_emit c cl : calls (emit c) cl = [(c, None)].
Proof. reflexivity. Qed.
Lemma after_emit c cl : after (emit c) cl = cl.
Proof. reflexivity. Qed.

Lemma calls_CreateSecretByPassword env u cl :
  calls (CreateSecretByPassword env u) cl = [(registration_CreateSecretByPassword u, None)].
Proof. unfold calls, run, CreateSecretByPassword, record; cbn. now destruct (_ || _). Qed.

Lemma result_CreateSecretByPassword env u cl :
  result (CreateSecretByPassword env u) cl = Name (Meta u) +:+ "-pass".
Proof. unfold result, run, CreateSecretByPassword, record; cbn. now destruct (_ || _). Qed.

Lemma calls_dropErr {A} (m : M (Result A)) cl : calls (dropErr m) cl = calls m cl.
Proof. unfold dropErr. rewrite calls_bind by auto with lawful. apply app_nil_r. Qed.
Lemma result_dropErr {A} (m : M (Result A)) cl : result (dropErr m) cl = fst (result m cl).
Proof. unfold dropErr. now rewrite result_bind by auto with lawful. Qed.
Lemma after_dropErr {A} (m : M (Result A)) cl : after (dropErr m) cl = after m cl.
Proof. unfold dropErr. now rewrite after_bind by auto with lawful. Qed.

Lemma calls_onlyErr {A} (m : M (Result A)) cl : calls (onlyErr m) cl = calls m cl.
Proof. unfold onlyErr. rewrite calls_bind by auto with lawful. apply app_nil_r. Qed.
Lemma result_onlyErr {A} (m : M (Result A)) cl : result (onlyErr m) cl = snd (result m cl).
Proof. unfold onlyErr. now rewrite result_bind by auto with lawful. Qed.
Lemma after_onlyErr {A} (m : M (Result A)) cl : after (onlyErr m) cl = after m cl.
Proof. unfold onlyErr. now rewrite after_bind by auto with lawful. Qed.

Section Wrappers.

Variables (env : Env) (cl : Cluster).

Lemma calls_Namespaces_Get name :
  calls (Namespaces_Get_ env name) cl
  = [(Namespaces_Get name, snd (result (Namespaces_Get_ env name) cl))].
Proof. reflexivity. Qed.

Lemma calls_Sites_Get name :
  calls (Sites_Get_ env name) cl = [(Sites_Get name, snd (result (Sites_Get_ env name) cl))].
Proof. reflexivity. Qed.

Lemma calls_Users_List ns sel :
  calls (Users_List_ env ns sel) cl
  = [(Users_List ns sel, snd (result (Users_List_ env ns sel) cl))].
Proof. reflexivity. Qed.

Lemma calls_UserRegistrationRequests_List ns :
  calls (UserRegistrationRequests_List_ env ns) cl
  = [(UserRegistrationRequests_List ns,
      snd (result (UserRegistrationRequests_List_ env ns) cl))].
Proof. reflexivity. Qed.

Lemma calls_Secrets_Get ns name :
  calls (Secrets_Get_ env ns name) cl
  = [(Secrets_Get ns name, snd (result (Secrets_Get_ env ns name) cl))].
Proof. reflexivity. Qed.

Lemma calls_UserRegistrationRequests_Delete ns name :
  calls (UserRegistrationRequests_Delete_ env ns name) cl
  = [(UserRegistrationRequests_Delete ns name,
      snd (result (UserRegistrationRequests_Delete_ env ns name) cl))].
Proof. apply calls_command. Qed.

Lemma calls_UserRegistrationRequests_Update ns u :
  calls (UserRegistrationRequests_Update_ env ns u) cl
  = [(UserRegistrationRequests_Update ns u,
      snd (result (UserRegistrationRequests_Update_ env ns u) cl))].
Proof. apply calls_command. Qed.

Lemma calls_UserRegistrationRequests_UpdateStatus ns u :
  calls (UserRegistrationRequests_UpdateStatus_ env ns u) cl
  = [(UserRegistrationRequests_UpdateStatus ns u,
      snd (result (UserRegistrationRequests_UpdateStatus_ env ns u) cl))].
Proof. apply calls_command. Qed.

Lemma calls_Users_Create ns u :
  calls (Users_Create_ env ns u) cl
  = [(Users_Create ns u, snd (result (Users_Create_ env ns u) cl))].
Proof. apply calls_command. Qed.

Lemma calls_EmailVerifications_Create ns e :
  calls (EmailVerifications_Create_ env ns e) cl
  = [(EmailVerifications_Create ns e, snd (result (EmailVerifications_Create_ env ns e) cl))].
Proof. apply calls_command. Qed.

Lemma calls_Secrets_Update ns s :
  calls (Secrets_Update_ env ns s) cl
  = [(Secrets_Update ns s, snd (result (Secrets_Update_ env ns s) cl))].
Proof. apply calls_command. Qed.

Lemma after_Namespaces_Get name : after (Namespaces_Get_ env name) cl = cl.
Proof. reflexivity. Qed.
Lemma after_Sites_Get name : after (Sites_Get_ env name) cl = cl.
Proof. reflexivity. Qed.
Lemma after_Users_List ns sel : after (Users_List_ env ns sel) cl = cl.
Proof. reflexivity. Qed.
Lemma after_UserRegistrationRequests_List ns :
  after (UserRegistrationRequests_List_ env ns) cl = cl.
Proof. reflexivity. Qed.
Lemma after_Secrets_Get ns name : after (Secrets_Get_ env ns name) cl = cl.
Proof. reflexivity. Qed.

End Wrappers.

Create Rewrite HintDb handler.
#[export] Hint Rewrite @calls_ret @result_ret @after_ret @after_query @calls_emit @after_emit
  calls_CreateSecretByPassword result_CreateSecretByPassword
  @calls_dropErr @result_dropErr @after_dropErr
  @calls_onlyErr @result_onlyErr @after_onlyErr
  after_checkUsernameEmailAddress after_resolveSite @app_nil_r
  calls_Namespaces_Get calls_Sites_Get calls_Users_List calls_UserRegistrationRequests_List
  calls_Secrets_Get calls_UserRegistrationRequests_Delete calls_UserRegistrationRequests_Update
  calls_UserRegistrationRequests_UpdateStatus calls_Users_Create
  calls_EmailVerifications_Create calls_Secrets_Update
  after_Namespaces_Get after_Sites_Get after_Users_List after_UserRegistrationRequests_List
  after_Secrets_Get : handler.

(** Split a program at its binds. *)
Ltac at_binds :=
  repeat (rewrite ?run_bind, ?result_bind, ?calls_bind, ?after_bind by (intros; lawfulness));
  autorewrite with handler.

(** Case analysis along a handler: on what the next call returns and on
    the conditions it branches on. *)
Ltac along_handler :=
  repeat first
    [ reflexivity
    | match goal with
      | |- context [match ?m with pair _ _ => _ end] => destruct m as [? ?]
      | |- context [if ?b then _ else _] => destruct b
      | |- context [match ?o with Some _ => _ | None => _ end] => destruct o
      end ].

Lemma ObjectCreated_returns env u w :
  fst (ObjectCreated env (PtrUserRegistrationRequest u) w) = Returned.
Proof. unfold ObjectCreated, bind, ret. along_handler. Qed.

Lemma ObjectUpdated_returns env u w :
  fst (ObjectUpdated env (PtrUserRegistrationRequest u) w) = Returned.
Proof. unfold ObjectUpdated, bind, ret. along_handler. Qed.

(** C10.  A notification whose payload is not a pointer to a
    UserRegistrationRequest makes [ObjectCreated] and [ObjectUpdated] panic
    at the type assertion, before any call is made; on a pointer to a
    UserRegistrationRequest both return. *)
Theorem type_assertion_panics env obj w :
  (forall u, obj <> PtrUserRegistrationRequest u) ->
  ObjectCreated env obj w = (Panicked, w) /\
  ObjectUpdated env obj w = (Panicked, w) /\
  (forall u w', fst (ObjectCreated env (PtrUserRegistrationRequest u) w') = Returned /\
                fst (ObjectUpdated env (PtrUserRegistrationRequest u) w') = Returned).
Proof.
  intros Hnot. repeat split.
  - destruct obj; try reflexivity. now destruct (Hnot u).
  - destruct obj; try reflexivity. now destruct (Hnot u).
  - apply ObjectCreated_returns.
  - apply ObjectUpdated_returns.
Qed.

Lemma type_assertion_panics_witness :
  ObjectCreated Fixture.env0 (PtrUser (Fixture.account "site-a" "bob" "u-1" "bob@a.org"))
                {| cluster := Fixture.cluster0; trace := [] |}
  = (Panicked, {| cluster := Fixture.cluster0; trace := [] |}) /\
  ObjectUpdated Fixture.env0 NilInterface {| cluster := Fixture.cluster0; trace := [] |}
  = (Panicked, {| cluster := Fixture.cluster0; trace := [] |}).
Proof.
  split.
  - apply (type_assertion_panics Fixture.env0
             (PtrUser (Fixture.account "site-a" "bob" "u-1" "bob@a.org"))).
    intros u H; discriminate H.
  - apply (type_assertion_panics Fixture.env0 NilInterface).
    intros u H; discriminate H.
Defined.

(** ** What the wire keeps of a request *)

Lemma onWire_no_deadline u : Expires (Status u) = None -> Store.onWire u = u.
Proof.
  destruct u as [m sp [a e]]; cbn. intros ->. reflexivity.
Qed.

Lemma Meta_onWire u : Meta (Store.onWire u) = Meta u.
Proof. reflexivity. Qed.

Lemma wholeSeconds_bounds t :
  Store.wholeSeconds t <= t < Store.wholeSeconds t + Store.Second.
Proof.
  unfold Store.wholeSeconds, Store.Second.
  pose proof (Z.mod_pos_bound t 1000000000 eq_refl) as Hm.
  pose proof (Z.div_mod t 1000000000) as Hd.
  lia.
Qed.

(** ** The handlers, branch by branch *)

Section Branches.

Variables (env : Env) (u : UserRegistrationRequest) (cl : Cluster).

Let ns := Namespace (Meta u).
Let delete := UserRegistrationRequests_Delete_ env ns (Name (Meta u)).
Let validate := checkUsernameEmailAddress env u.
Let created := ObjectCreated env (PtrUserRegistrationRequest u).
Let updated := ObjectUpdated env (PtrUserRegistrationRequest u).

(** Both handlers resolve the site with the same two lookups. *)
Lemma resolveSite_in_handler {B} (k : NamespaceObj -> Site -> M B) :
  (forall n s, lawful (k n s)) ->
  run (URROwnerNamespace <- dropErr (Namespaces_Get_ env (Namespace (Meta u))) ;;
       URROwnerSite <- dropErr (Sites_Get_ env (label (ns_Meta URROwnerNamespace) "site-name")) ;;
       k URROwnerNamespace URROwnerSite) cl
  = let n := result (dropErr (Namespaces_Get_ env (Namespace (Meta u)))) cl in
    let s := result (resolveSite env u) cl in
    (result (k n s) cl,
     {| cluster := after (k n s) cl;
        trace := calls (resolveSite env u) cl ++ calls (k n s) cl |}).
Proof.
  intros Hk. unfold resolveSite. cbn zeta.
  at_binds. now rewrite <- app_assoc.
Qed.

(** Up to the branch on the site, [ObjectCreated] of a request that is
    no duplicate. *)
Ltac created_to_site Hdup Hsite :=
  unfold IsDuplicate in Hdup; unfold siteEnabled in Hsite;
  subst created validate delete ns; unfold ObjectCreated;
  rewrite run_bind by (intros; lawfulness);
  rewrite Hdup, after_checkUsernameEmailAddress;
  unfold result at 1, after at 1, calls at 2;
  rewrite resolveSite_in_handler by (intros; lawfulness);
  cbn zeta; rewrite Hsite; cbn [fst snd cluster trace].

Lemma ObjectCreated_duplicate :
  IsDuplicate env u cl = true ->
  run created cl =
    (Returned,
     {| cluster := after delete cl; trace := calls validate cl ++ calls delete cl |}).
Proof.
  intros Hdup. unfold IsDuplicate in Hdup.
  subst created validate delete ns. unfold ObjectCreated.
  rewrite run_bind by (intros; lawfulness).
  rewrite Hdup. at_binds. reflexivity.
Qed.

Lemma ObjectCreated_disabled :
  IsDuplicate env u cl = false -> siteEnabled env u cl = false ->
  run created cl =
    (Returned,
     {| cluster := after delete cl;
        trace := calls validate cl ++ calls (resolveSite env u) cl ++ calls delete cl |}).
Proof. intros Hdup Hsite. created_to_site Hdup Hsite. at_binds. reflexivity. Qed.

Lemma ObjectCreated_replay d :
  IsDuplicate env u cl = false -> siteEnabled env u cl = true ->
  Expires (Status u) = Some d ->
  run created cl =
    (Returned,
     {| cluster := cl;
        trace := calls validate cl ++ calls (resolveSite env u) cl
                 ++ [(go_runApprovalTimeout u, None)] |}).
Proof.
  intros Hdup Hsite Hexp. created_to_site Hdup Hsite. rewrite Hexp.
  at_binds. reflexivity.
Qed.

(** The fresh-creation path, call by call.  [upd] is what [Update]
    returned, [e2] the error of the creation of the email verification,
    [e3] that of the deferred [UpdateStatus]. *)
Lemma ObjectCreated_fresh :
  IsDuplicate env u cl = false -> siteEnabled env u cl = true ->
  Expires (Status u) = None ->
  exists (upd : Result UserRegistrationRequest) (e2 e3 : option Error) (site : string),
    let URRCopy := setPassword (Name (Meta u) +:+ "-pass") u in
    let URRCopyUpdated :=
      setStatus {| Approved := false; Expires := Some (now env + 72 * Hour) |} (fst upd) in
    let emailVerificationCode := "bs" +:+ generateRandomString env 16 in
    let emailVerification :=
      {| ev_Meta := setName emailVerificationCode
                            (setOwnerRefs (setOwnerReferences env URRCopyUpdated) zeroMeta);
         ev_Spec := {| ev_Kind := "User"; ev_Identifier := Name (Meta u) |} |} in
    let contentData :=
      {| cd_Site := site;
         cd_Username := Name (Meta (fst upd));
         cd_Name := FirstName (Spec (fst upd)) +:+ " " +:+ LastName (Spec (fst upd));
         cd_Email := [Email (Spec (fst upd))];
         cd_Code := emailVerificationCode |} in
    (upd = (URRCopy, None) \/ exists e, upd = (zeroURR, Some e)) /\
    calls created cl =
      calls validate cl ++ calls (resolveSite env u) cl ++
      [(registration_CreateSecretByPassword u, None);
       (UserRegistrationRequests_Update ns URRCopy, snd upd);
       (go_runApprovalTimeout (fst upd), None);
       (shared_assign
          (setStatus {| Approved := false; Expires := Expires (Status (fst upd)) |}
                     (fst upd)), None);
       (shared_assign URRCopyUpdated, None);
       (EmailVerifications_Create ns emailVerification, e2)] ++
      match e2 with
      | None => [(mailer_Send "user-email-verification" contentData, None)]
      | Some _ => []
      end ++
      [(UserRegistrationRequests_UpdateStatus (Namespace (Meta (fst upd))) URRCopyUpdated, e3)].
Proof.
  intros Hdup Hsite Hexp.
  unfold calls at 1. created_to_site Hdup Hsite. rewrite Hexp.
  at_binds.
  set (upd := result (UserRegistrationRequests_Update_ env _ _) _).
  exists upd.
  set (e2 := snd (result (EmailVerifications_Create_ env _ _) _)).
  exists e2.
  set (e3 := snd (result (UserRegistrationRequests_UpdateStatus_ env _ _) _)).
  exists e3.
  exists (label (ns_Meta (fst (result (Namespaces_Get_ env (Namespace (Meta u))) cl)))
                "site-name").
  cbn zeta; split.
  - subst upd.
    unfold UserRegistrationRequests_Update_, result, run, command, Store.updateURR.
    destruct (unavailable env _); [right; eexists; reflexivity|].
    repeat match goal with
           | |- context [if ?b then _ else _] => destruct b
           end; cbn [fst]; eauto.
    left. now rewrite (onWire_no_deadline (setPassword _ u) Hexp).
  - clearbody e2. destruct e2; autorewrite with handler; reflexivity.
Qed.

Ltac updated_to_site Hsite :=
  unfold siteEnabled in Hsite;
  subst updated validate delete ns; unfold ObjectUpdated;
  rewrite resolveSite_in_handler by (intros; lawfulness);
  cbn zeta; rewrite Hsite.

Lemma ObjectUpdated_disabled :
  siteEnabled env u cl = false ->
  run updated cl =
    (Returned,
     {| cluster := after delete cl;
        trace := calls (resolveSite env u) cl ++ calls delete cl |}).
Proof. intros Hsite. updated_to_site Hsite. at_binds. reflexivity. Qed.

Lemma ObjectUpdated_pending :
  siteEnabled env u cl = true -> Approved (Status u) = false ->
  run updated cl = (Returned, {| cluster := cl; trace := calls (resolveSite env u) cl |}).
Proof.
  intros Hsite Happ. updated_to_site Hsite. rewrite Happ. at_binds. reflexivity.
Qed.

Lemma ObjectUpdated_duplicate :
  siteEnabled env u cl = true -> Approved (Status u) = true ->
  IsDuplicate env u cl = true ->
  run updated cl =
    (Returned,
     {| cluster := after delete cl;
        trace := calls (resolveSite env u) cl ++ calls validate cl ++ calls delete cl |}).
Proof.
  intros Hsite Happ Hdup. unfold IsDuplicate in Hdup.
  updated_to_site Hsite. rewrite Happ.
  rewrite result_bind, after_bind, calls_bind by (intros; lawfulness).
  rewrite Hdup. cbn [negb]. at_binds. reflexivity.
Qed.

(** The approval of a request that is no duplicate: the account, the
    secret as read, the secret as written back, then the deletion. *)
Lemma ObjectUpdated_approved :
  siteEnabled env u cl = true -> Approved (Status u) = true ->
  IsDuplicate env u cl = false ->
  let user :=
    {| user_Meta := setName (Name (Meta u)) zeroMeta;
       user_Spec := {| user_Bio := Bio (Spec u); user_Email := Email (Spec u);
                       user_FirstName := FirstName (Spec u);
                       user_LastName := LastName (Spec u);
                       user_Password := Password (Spec u);
                       user_Roles := Roles (Spec u); user_URL := URL (Spec u) |} |} in
  let userCreated := result (Users_Create_ env ns user) cl in
  let cl1 := after (Users_Create_ env ns user) cl in
  let passwordSecret := result (Secrets_Get_ env ns (Name (Meta u) +:+ "-pass")) cl1 in
  let newSecretRef :=
    setController false
      (NewControllerRef (user_Meta (fst userCreated)) (SchemeGroupVersion env) "User") in
  let passwordSecret' :=
    {| secret_Meta :=
         setOwnerRefs (OwnerReferences (secret_Meta (fst passwordSecret)) ++ [newSecretRef])
                      (secret_Meta (fst passwordSecret)) |} in
  let written := result (Secrets_Update_ env ns passwordSecret') cl1 in
  let cl2 := after (Secrets_Update_ env ns passwordSecret') cl1 in
  run updated cl =
    (Returned,
     {| cluster := after delete cl2;
        trace := calls (resolveSite env u) cl ++ calls validate cl ++
                 [(Users_Create ns user, snd userCreated);
                  (Secrets_Get ns (Name (Meta u) +:+ "-pass"), snd passwordSecret);
                  (Secrets_Update ns passwordSecret', snd written)] ++
                 calls delete cl2 |}).
Proof.
  intros Hsite Happ Hdup. unfold IsDuplicate in Hdup.
  updated_to_site Hsite. rewrite Happ.
  rewrite result_bind, after_bind, calls_bind by (intros; lawfulness).
  rewrite Hdup. cbn [negb]. at_binds. reflexivity.
Qed.

End Branches.

(** ** What the validator and the site lookups call *)

Section Reads.

Variables (env : Env) (u : UserRegistrationRequest) (cl : Cluster).

Lemma calls_resolveSite :
  exists e1 site e2,
    calls (resolveSite env u) cl
    = [(Namespaces_Get (Namespace (Meta u)), e1); (Sites_Get site, e2)].
Proof.
  unfold resolveSite. at_binds. cbn [app]. eauto.
Qed.

Lemma effects_resolveSite : effects (calls (resolveSite env u) cl) = [].
Proof. destruct calls_resolveSite as (e1 & site & e2 & ->). reflexivity. Qed.

Lemma calls_checkUsernameEmailAddress :
  exists e rest,
    calls (checkUsernameEmailAddress env u) cl
    = (Users_List (Namespace (Meta u)) (Some (Name (Meta u))), e) :: rest /\
    forallb (fun e => listing (fst e)) rest = true.
Proof.
  unfold checkUsernameEmailAddress. at_binds. cbn [app].
  do 2 eexists. split; [reflexivity|].
  repeat match goal with
         | |- context [if ?b then _ else _] => destruct b
         end; at_binds; reflexivity.
Qed.

Lemma listing_checkUsernameEmailAddress :
  forallb (fun e => listing (fst e)) (calls (checkUsernameEmailAddress env u) cl) = true.
Proof. destruct calls_checkUsernameEmailAddress as (e & rest & -> & H). exact H. Qed.

Lemma effects_of_listings (t : list Event) :
  forallb (fun e => listing (fst e)) t = true -> effects t = [].
Proof.
  induction t as [|[c e] t IH]; [reflexivity|]. cbn.
  destruct c; cbn; try discriminate; exact IH.
Qed.

Lemma effects_checkUsernameEmailAddress :
  effects (calls (checkUsernameEmailAddress env u) cl) = [].
Proof. apply effects_of_listings, listing_checkUsernameEmailAddress. Qed.

Lemma no_lookup_among_listings (t : list Event) c e :
  forallb (fun e => listing (fst e)) t = true -> In (c, e) t -> siteLookup c = false.
Proof.
  intros Hall Hin. rewrite forallb_forall in Hall. specialize (Hall _ Hin).
  destruct c; cbn in *; congruence.
Qed.

(** A site that reads as enabled was read without error: a failed
    lookup leaves the zero value, whose [Enabled] is false, and a failed
    lookup of the namespace leaves no label to look the site up with. *)
Lemma enabled_site_was_resolved :
  siteEnabled env u cl = true -> resolutionFails env u cl = false.
Proof.
  unfold siteEnabled, resolutionFails, resolveSite. at_binds.
  unfold Namespaces_Get_, Sites_Get_, result, run, query, failed; cbn.
  destruct (unavailable env (Namespaces_Get _)); cbn.
  - destruct (unavailable env (Sites_Get _)); cbn; [discriminate|].
    unfold Store.getSite, label; cbn. discriminate.
  - unfold Store.getNamespace.
    destruct (String.eqb (Namespace (Meta u)) ""); cbn.
    + destruct (unavailable env (Sites_Get _)); cbn; [discriminate|]. discriminate.
    + destruct (find _ (Namespaces cl)); cbn.
      * destruct (unavailable env (Sites_Get _)); cbn; [discriminate|].
        unfold Store.getSite. destruct (String.eqb _ ""); cbn; [discriminate|].
        destruct (find _ (Sites cl)); cbn; [reflexivity | discriminate].
      * destruct (unavailable env (Sites_Get _)); cbn; [discriminate|]. discriminate.
Qed.

End Reads.

(** ** The order of the checks on create *)

(** C8, as the code has it.  On every create notification the Uniqueness
    Validator runs first: the first call lists the accounts of the
    namespace under the name of the request, and the validator only lists.
    A duplicate is deleted with no further call, the site unresolved.  The
    site is resolved for a request that is no duplicate only, and when it
    is disabled the request is deleted with no further call. *)
Theorem validator_runs_before_site_check env u cl :
  let t := calls (ObjectCreated env (PtrUserRegistrationRequest u)) cl in
  let validation := calls (checkUsernameEmailAddress env u) cl in
  let delete := UserRegistrationRequests_Delete (Namespace (Meta u)) (Name (Meta u)) in
  (exists e rest,
      validation = (Users_List (Namespace (Meta u)) (Some (Name (Meta u))), e) :: rest) /\
  forallb (fun e => listing (fst e)) validation = true /\
  (IsDuplicate env u cl = true -> exists e, t = validation ++ [(delete, e)]) /\
  (IsDuplicate env u cl = false ->
   exists rest,
     t = validation ++ calls (resolveSite env u) cl ++ rest /\
     (siteEnabled env u cl = false -> exists e, rest = [(delete, e)])).
Proof.
  cbn zeta. repeat split.
  - destruct (calls_checkUsernameEmailAddress env u cl) as (e & rest & H & _). eauto.
  - apply listing_checkUsernameEmailAddress.
  - intros Hdup. unfold calls at 1. rewrite ObjectCreated_duplicate by assumption.
    cbn [snd trace]. autorewrite with handler. eauto.
  - intros Hdup.
    destruct (siteEnabled env u cl) eqn:Hsite.
    + destruct (Expires (Status u)) as [d|] eqn:Hexp.
      * unfold calls at 1. rewrite (ObjectCreated_replay env u cl d) by assumption.
        cbn [snd trace]. eexists; split; [reflexivity | discriminate].
      * destruct (ObjectCreated_fresh env u cl Hdup Hsite Hexp)
          as (upd & e2 & e3 & site & _ & ->).
        eexists; split; [reflexivity | discriminate].
    + unfold calls at 1. rewrite ObjectCreated_disabled by assumption.
      cbn [snd trace]. autorewrite with handler.
      eexists; split; [reflexivity | eauto].
Qed.

Lemma validator_runs_before_site_check_witness :
  exists e, calls (ObjectCreated Fixture.env0 (PtrUserRegistrationRequest Fixture.alice))
                  Fixture.clusterWithAlice
            = [(Users_List "site-a" (Some "alice"), None)]
              ++ [(UserRegistrationRequests_Delete "site-a" "alice", e)].
Proof.
  apply (validator_runs_before_site_check Fixture.env0 Fixture.alice
           Fixture.clusterWithAlice).
  vm_compute. reflexivity.
Defined.

(** C8, as stated, fails: for a request that is no duplicate and whose
    site is disabled, three listings of the validator come before the
    lookups of the site check; and a duplicate is deleted without the site
    being looked up at all, here for a disabled site. *)
Lemma site_check_is_not_first :
  siteEnabled Fixture.env0 Fixture.bob Fixture.clusterAB = false /\
  calls (ObjectCreated Fixture.env0 (PtrUserRegistrationRequest Fixture.bob)) Fixture.clusterAB
  = [(Users_List "site-b" (Some "bob"), None);
     (Users_List "" None, None);
     (UserRegistrationRequests_List "", None);
     (Namespaces_Get "site-b", None);
     (Sites_Get "b", None);
     (UserRegistrationRequests_Delete "site-b" "bob", None)] /\
  calls (ObjectCreated Fixture.env0 (PtrUserRegistrationRequest Fixture.bob))
        Fixture.clusterABWithBob
  = [(Users_List "site-b" (Some "bob"), None);
     (UserRegistrationRequests_Delete "site-b" "bob", None)].
Proof. vm_compute. repeat split. Qed.

(** ** Deleting a request *)

Lemma existsb_filter_negb {A} (p : A -> bool) (l : list A) :
  existsb p (List.filter (fun x => negb (p x)) l) = false.
Proof.
  induction l as [|x l IH]; [reflexivity|]. cbn.
  destruct (p x) eqn:Hp; cbn; [exact IH | now rewrite Hp].
Qed.

(** A delete that returns no error leaves no request under that name. *)
Lemma deleted_is_gone env ns name cl :
  snd (result (UserRegistrationRequests_Delete_ env ns name) cl) = None ->
  Store.existsURR ns name (after (UserRegistrationRequests_Delete_ env ns name) cl) = false.
Proof.
  unfold UserRegistrationRequests_Delete_, result, after, run, command, Store.deleteURR.
  cbn [cluster trace].
  destruct (unavailable env _); [intros H; discriminate H|].
  destruct (Store.existsURR ns name cl) eqn:Hex; cbn; [intros _ | intros H; discriminate H].
  unfold Store.existsURR; cbn. apply existsb_filter_negb.
Qed.

(** A delete touches the requests only. *)
Lemma delete_keeps_the_rest env ns name cl :
  let cl' := after (UserRegistrationRequests_Delete_ env ns name) cl in
  Users cl' = Users cl /\ Secrets cl' = Secrets cl /\
  EmailVerifications cl' = EmailVerifications cl.
Proof.
  unfold UserRegistrationRequests_Delete_, after, run, command, Store.deleteURR.
  cbn [cluster trace].
  destruct (unavailable env _); [cbn; auto|].
  destruct (Store.existsURR ns name cl); cbn; auto.
Qed.

Lemma effects_app (t1 t2 : list Event) : effects (t1 ++ t2) = effects t1 ++ effects t2.
Proof. apply List.filter_app. Qed.

(** ** Replay of a create notification *)

(** C6.  A create notification for a request whose [status.expires] is
    set makes no call that creates a password secret, writes the request or
    its status, creates an email verification or sends a mail: beyond the
    reads, it either deletes the request (a duplicate, or a site that is not
    enabled) or starts the supervisor, and nothing else.  For a request
    that passes both checks the one effect is the start of the supervisor,
    and the cluster is left as it was. *)
Theorem replay_only_restarts_supervisor env u cl d :
  Expires (Status u) = Some d ->
  let h := ObjectCreated env (PtrUserRegistrationRequest u) in
  (IsDuplicate env u cl = false -> siteEnabled env u cl = true ->
   effects (calls h cl) = [(go_runApprovalTimeout u, None)] /\ after h cl = cl) /\
  (effects (calls h cl) = [(go_runApprovalTimeout u, None)] \/
   exists e, effects (calls h cl)
             = [(UserRegistrationRequests_Delete (Namespace (Meta u)) (Name (Meta u)), e)]) /\
  Secrets (after h cl) = Secrets cl /\
  EmailVerifications (after h cl) = EmailVerifications cl.
Proof.
  intros Hexp h.
  assert (Hreplay : IsDuplicate env u cl = false -> siteEnabled env u cl = true ->
                    effects (calls h cl) = [(go_runApprovalTimeout u, None)] /\ after h cl = cl).
  { intros Hdup Hsite. unfold calls, after. subst h.
    rewrite (ObjectCreated_replay env u cl d) by assumption. cbn [snd trace cluster].
    now rewrite !effects_app, effects_checkUsernameEmailAddress, effects_resolveSite. }
  split; [exact Hreplay|].
  destruct (IsDuplicate env u cl) eqn:Hdup.
  - unfold calls, after. subst h. rewrite ObjectCreated_duplicate by assumption.
    cbn [snd trace cluster].
    rewrite effects_app, effects_checkUsernameEmailAddress. autorewrite with handler.
    split; [right; eexists; reflexivity|]. split; apply delete_keeps_the_rest.
  - destruct (siteEnabled env u cl) eqn:Hsite.
    + destruct (Hreplay eq_refl eq_refl) as [-> ->]. auto.
    + unfold calls, after. subst h. rewrite ObjectCreated_disabled by assumption.
      cbn [snd trace cluster].
      rewrite !effects_app, effects_checkUsernameEmailAddress, effects_resolveSite.
      autorewrite with handler.
      split; [right; eexists; reflexivity|]. split; apply delete_keeps_the_rest.
Qed.

(** The admission of [alice] leaves her request in the store with its
    secret reference and its deadline, cut to the second: a replay is
    about such a request. *)
Example admitted_request_is_stored :
  UserRegistrationRequests Fixture.clusterAdmitted = [Store.onWire Fixture.alicePending].
Proof. vm_compute. reflexivity. Qed.

Lemma replay_only_restarts_supervisor_witness :
  effects (calls (ObjectCreated Fixture.env0 (PtrUserRegistrationRequest Fixture.alicePending))
                 Fixture.clusterAdmitted)
  = [(go_runApprovalTimeout Fixture.alicePending, None)] /\
  after (ObjectCreated Fixture.env0 (PtrUserRegistrationRequest Fixture.alicePending))
        Fixture.clusterAdmitted
  = Fixture.clusterAdmitted.
Proof.
  apply (replay_only_restarts_supervisor Fixture.env0 Fixture.alicePending
           Fixture.clusterAdmitted 259200000001000); reflexivity.
Defined.

(** ** Failed lookups of the namespace or the site *)

Section FailedLookup.

Variables (env : Env) (u : UserRegistrationRequest) (cl : Cluster).

Let delete := UserRegistrationRequests_Delete_ env (Namespace (Meta u)) (Name (Meta u)).

Lemma failed_lookup_is_a_resolution_failure c err :
  In (c, Some err) (calls (resolveSite env u) cl) -> resolutionFails env u cl = true.
Proof.
  intros Hin. unfold resolutionFails. apply existsb_exists.
  exists (c, Some err). split; [assumption | reflexivity].
Qed.

(** On create, a failed lookup is followed by the deletion. *)
Lemma ObjectCreated_failed_lookup c err :
  In (c, Some err) (calls (ObjectCreated env (PtrUserRegistrationRequest u)) cl) ->
  siteLookup c = true ->
  run (ObjectCreated env (PtrUserRegistrationRequest u)) cl =
    (Returned,
     {| cluster := after delete cl;
        trace := calls (checkUsernameEmailAddress env u) cl ++
                 calls (resolveSite env u) cl ++ calls delete cl |}).
Proof.
  intros Hin Hlookup.
  pose proof (listing_checkUsernameEmailAddress env u cl) as Hlist.
  destruct (IsDuplicate env u cl) eqn:Hdup.
  - exfalso. unfold calls in Hin at 1. rewrite ObjectCreated_duplicate in Hin by assumption.
    cbn [snd trace] in Hin. autorewrite with handler in Hin.
    apply in_app_or in Hin as [Hin | [Hin | []]].
    + rewrite (no_lookup_among_listings _ _ _ Hlist Hin) in Hlookup. discriminate.
    + injection Hin as <- _. discriminate.
  - destruct (siteEnabled env u cl) eqn:Hsite.
    + exfalso. pose proof (enabled_site_was_resolved env u cl Hsite) as Hok.
      assert (Hrest : forall rest,
                 calls (ObjectCreated env (PtrUserRegistrationRequest u)) cl
                 = calls (checkUsernameEmailAddress env u) cl
                   ++ calls (resolveSite env u) cl ++ rest ->
                 (forall c' e', In (c', e') rest -> siteLookup c' = false) -> False).
      { intros rest Heq Hnone. rewrite Heq in Hin.
        apply in_app_or in Hin as [Hin | Hin].
        - rewrite (no_lookup_among_listings _ _ _ Hlist Hin) in Hlookup. discriminate.
        - apply in_app_or in Hin as [Hin | Hin].
          + rewrite (failed_lookup_is_a_resolution_failure _ _ Hin) in Hok. discriminate.
          + rewrite (Hnone _ _ Hin) in Hlookup. discriminate. }
      destruct (Expires (Status u)) as [d|] eqn:Hexp.
      * apply (Hrest [(go_runApprovalTimeout u, None)]).
        -- unfold calls at 1. now rewrite (ObjectCreated_replay env u cl d).
        -- intros c' e' [Heq | []]. now injection Heq as <- _.
      * destruct (ObjectCreated_fresh env u cl Hdup Hsite Hexp)
          as (upd & e2 & e3 & site & _ & Heq).
        apply (Hrest _ Heq).
        intros c' e' Hin'. cbn in Hin'.
        destruct e2; cbn in Hin';
          repeat (destruct Hin' as [Hin' | Hin']; [now injection Hin' as <- _|]);
          destruct Hin'.
    + now apply ObjectCreated_disabled.
Qed.

(** On update too. *)
Lemma ObjectUpdated_failed_lookup c err :
  In (c, Some err) (calls (ObjectUpdated env (PtrUserRegistrationRequest u)) cl) ->
  siteLookup c = true ->
  run (ObjectUpdated env (PtrUserRegistrationRequest u)) cl =
    (Returned,
     {| cluster := after delete cl;
        trace := calls (resolveSite env u) cl ++ calls delete cl |}).
Proof.
  intros Hin Hlookup.
  destruct (siteEnabled env u cl) eqn:Hsite; [exfalso | now apply ObjectUpdated_disabled].
  pose proof (enabled_site_was_resolved env u cl Hsite) as Hok.
  pose proof (listing_checkUsernameEmailAddress env u cl) as Hlist.
  assert (Hrest : forall rest,
             calls (ObjectUpdated env (PtrUserRegistrationRequest u)) cl
             = calls (resolveSite env u) cl ++ rest ->
             (forall c' e', In (c', e') rest -> siteLookup c' = false) -> False).
  { intros rest Heq Hnone. rewrite Heq in Hin.
    apply in_app_or in Hin as [Hin | Hin].
    - rewrite (failed_lookup_is_a_resolution_failure _ _ Hin) in Hok. discriminate.
    - rewrite (Hnone _ _ Hin) in Hlookup. discriminate. }
  destruct (Approved (Status u)) eqn:Happ.
  - destruct (IsDuplicate env u cl) eqn:Hdup.
    + eapply Hrest.
      * unfold calls at 1. rewrite ObjectUpdated_duplicate by assumption. reflexivity.
      * intros c' e' Hin'. autorewrite with handler in Hin'.
        apply in_app_or in Hin' as [Hin' | [Hin' | []]].
        -- apply (no_lookup_among_listings _ _ _ Hlist Hin').
        -- now injection Hin' as <- _.
    + eapply Hrest.
      * unfold calls at 1. rewrite ObjectUpdated_approved by assumption. reflexivity.
      * intros c' e' Hin'. autorewrite with handler in Hin'.
        apply in_app_or in Hin' as [Hin' | Hin'].
        -- apply (no_lookup_among_listings _ _ _ Hlist Hin').
        -- cbn in Hin'.
           repeat (destruct Hin' as [Hin' | Hin']; [now injection Hin' as <- _|]).
           destruct Hin'.
  - apply (Hrest []).
    + unfold calls at 1. rewrite ObjectUpdated_pending by assumption.
      cbn [snd trace]. now rewrite app_nil_r.
    + intros c' e' [].
Qed.

End FailedLookup.

(** C1, as the code has it.  Both handlers drop the error of the two
    lookups and go on with what was returned.  A lookup that fails returns
    the zero value, so the site reads as not enabled: in every create or
    update notification in which a lookup of the namespace or of the site
    fails, the handler deletes the request.  The deletion is the only call
    that is not a read, and the cluster is left as the deletion leaves it:
    with no request of that name when the deletion returns no error. *)
Theorem failed_lookup_deletes_request env u cl h c err :
  h = ObjectCreated env \/ h = ObjectUpdated env ->
  In (c, Some err) (calls (h (PtrUserRegistrationRequest u)) cl) ->
  siteLookup c = true ->
  let ns := Namespace (Meta u) in
  let name := Name (Meta u) in
  exists e,
    effects (calls (h (PtrUserRegistrationRequest u)) cl)
    = [(UserRegistrationRequests_Delete ns name, e)] /\
    after (h (PtrUserRegistrationRequest u)) cl
    = after (UserRegistrationRequests_Delete_ env ns name) cl /\
    (e = None -> Store.existsURR ns name (after (h (PtrUserRegistrationRequest u)) cl) = false).
Proof.
  intros [-> | ->] Hin Hlookup ns name;
    exists (snd (result (UserRegistrationRequests_Delete_ env ns name) cl));
    unfold calls, after.
  - rewrite (ObjectCreated_failed_lookup env u cl c err Hin Hlookup).
    cbn [snd trace cluster].
    rewrite !effects_app, effects_checkUsernameEmailAddress, effects_resolveSite.
    autorewrite with handler. repeat split. apply deleted_is_gone.
  - rewrite (ObjectUpdated_failed_lookup env u cl c err Hin Hlookup).
    cbn [snd trace cluster].
    rewrite !effects_app, effects_resolveSite.
    autorewrite with handler. repeat split. apply deleted_is_gone.
Qed.

Lemma failed_lookup_deletes_request_witness :
  exists e,
    effects (calls (ObjectUpdated Fixture.envNoNamespaces
                                  (PtrUserRegistrationRequest Fixture.alice)) Fixture.cluster0)
    = [(UserRegistrationRequests_Delete "site-a" "alice", e)] /\
    after (ObjectUpdated Fixture.envNoNamespaces (PtrUserRegistrationRequest Fixture.alice))
          Fixture.cluster0
    = after (UserRegistrationRequests_Delete_ Fixture.envNoNamespaces "site-a" "alice")
            Fixture.cluster0 /\
    (e = None ->
     Store.existsURR "site-a" "alice"
       (after (ObjectUpdated Fixture.envNoNamespaces (PtrUserRegistrationRequest Fixture.alice))
              Fixture.cluster0) = false).
Proof.
  apply (failed_lookup_deletes_request Fixture.envNoNamespaces Fixture.alice Fixture.cluster0
           (ObjectUpdated Fixture.envNoNamespaces) (Namespaces_Get "site-a") Unavailable).
  - right; reflexivity.
  - vm_compute. left; reflexivity.
  - reflexivity.
Defined.

(** C1, as stated, fails: the namespace of a pending request cannot be read
    for a moment, and both handlers delete the request. *)
Lemma transient_lookup_failure_deletes_request :
  UserRegistrationRequests Fixture.cluster0 = [Fixture.alice] /\
  calls (ObjectCreated Fixture.envNoNamespaces (PtrUserRegistrationRequest Fixture.alice))
        Fixture.cluster0
  = [(Users_List "site-a" (Some "alice"), None);
     (Users_List "" None, None);
     (UserRegistrationRequests_List "", None);
     (Namespaces_Get "site-a", Some Unavailable);
     (Sites_Get "", Some InvalidName);
     (UserRegistrationRequests_Delete "site-a" "alice", None)] /\
  UserRegistrationRequests
    (after (ObjectCreated Fixture.envNoNamespaces (PtrUserRegistrationRequest Fixture.alice))
           Fixture.cluster0) = [] /\
  calls (ObjectUpdated Fixture.envNoNamespaces (PtrUserRegistrationRequest Fixture.alice))
        Fixture.cluster0
  = [(Namespaces_Get "site-a", Some Unavailable);
     (Sites_Get "", Some InvalidName);
     (UserRegistrationRequests_Delete "site-a" "alice", None)] /\
  UserRegistrationRequests
    (after (ObjectUpdated Fixture.envNoNamespaces (PtrUserRegistrationRequest Fixture.alice))
           Fixture.cluster0) = [].
Proof. vm_compute. repeat split. Qed.

(** ** The verification code *)

Section RandomString.

Variable env : Env.

Lemma length_string_of_list_ascii (l : list ascii) :
  String.length (string_of_list_ascii l) = length l.
Proof. induction l as [|c l IH]; cbn; [reflexivity | now rewrite IH]. Qed.

Lemma generateRandomString_length n : String.length (generateRandomString env n) = n.
Proof.
  unfold generateRandomString.
  now rewrite length_string_of_list_ascii, length_map, length_seq.
Qed.

Lemma generateRandomString_letters n :
  Forall (fun c => In c letter) (list_ascii_of_string (generateRandomString env n)).
Proof.
  unfold generateRandomString. rewrite list_ascii_of_string_of_list_ascii.
  apply List.Forall_forall. intros c Hin.
  apply List.in_map_iff in Hin as (i & <- & _).
  apply nth_In. unfold Intn. apply Nat.mod_upper_bound. discriminate.
Qed.

End RandomString.

Lemma spawned_app (t1 t2 : list Event) : spawned (t1 ++ t2) = spawned t1 ++ spawned t2.
Proof. apply List.filter_app. Qed.

Lemma spawned_of_listings (t : list Event) :
  forallb (fun e => listing (fst e)) t = true -> spawned t = [].
Proof.
  induction t as [|[c e] t IH]; [reflexivity|]. cbn.
  destruct c; cbn; try discriminate; exact IH.
Qed.




(** ** The calls about the supervisor *)

Lemma supervising_app (t1 t2 : list Event) :
  supervising (t1 ++ t2) = supervising t1 ++ supervising t2.
Proof. apply List.filter_app. Qed.

Lemma supervising_of_listings (t : list Event) :
  forallb (fun e => listing (fst e)) t = true -> supervising t = [].
Proof.
  induction t as [|[c e] t IH]; [reflexivity|]. cbn.
  destruct c; cbn; try discriminate; exact IH.
Qed.

(** ** The Uniqueness Validator *)

Section Validator.

Variables (env : Env) (u : UserRegistrationRequest) (cl : Cluster).

Let ns := Namespace (Meta u).
Let name := Name (Meta u).

(** An account of the namespace of the request under its name ends the
    validation at the first listing. *)
Lemma checkUsernameEmailAddress_same_name a :
  In a (Users cl) ->
  Namespace (user_Meta a) = ns -> Name (user_Meta a) = name ->
  unavailable env (Users_List ns (Some name)) = false ->
  run (checkUsernameEmailAddress env u) cl
  = (true, {| cluster := cl; trace := [(Users_List ns (Some name), None)] |}).
Proof.
  intros Hin Hns Hname Hup. subst ns name.
  unfold checkUsernameEmailAddress.
  rewrite run_bind by (intros; lawfulness). autorewrite with handler.
  assert (Hlist : Nat.eqb (length (fst (result (Users_List_ env (Namespace (Meta u))
                                                   (Some (Name (Meta u)))) cl))) 0 = false).
  { unfold Users_List_, result, run, query. rewrite Hup.
    unfold Store.listUsers. cbn [fst snd cluster].
    apply Nat.eqb_neq. intros Hlen. apply length_zero_iff_nil in Hlen.
    assert (Hin' : In a (List.filter
                           (fun v => Store.inNamespace (Namespace (Meta u)) (user_Meta v)
                                     && Store.matchesSelector (Some (Name (Meta u))) (user_Meta v))
                           (Users cl))).
    { apply List.filter_In. split; [assumption|].
      unfold Store.inNamespace, Store.matchesSelector.
      rewrite Hns, Hname, !String.eqb_refl. now rewrite orb_true_r. }
    rewrite Hlen in Hin'. destruct Hin'. }
  rewrite Hlist. at_binds. cbn [negb].  at_binds.
  unfold Users_List_, result, run, query. rewrite Hup. reflexivity.
Qed.

End Validator.

(** C4, as the code has it.  The name is looked up among the accounts of
    the namespace of the request, before any email is compared: an account
    with the proposed name in that namespace makes the candidate a
    duplicate at the first listing, provided that listing is answered.  A
    create notification for such a request then makes two calls, that
    listing and the deletion of the request, whatever its email, and
    creates no account; the request is gone when the deletion returns no
    error. *)
Theorem same_name_in_namespace_is_duplicate env u cl a :
  In a (Users cl) ->
  Namespace (user_Meta a) = Namespace (Meta u) ->
  Name (user_Meta a) = Name (Meta u) ->
  unavailable env (Users_List (Namespace (Meta u)) (Some (Name (Meta u)))) = false ->
  let first := (Users_List (Namespace (Meta u)) (Some (Name (Meta u))), None) in
  let h := ObjectCreated env (PtrUserRegistrationRequest u) in
  IsDuplicate env u cl = true /\
  calls (checkUsernameEmailAddress env u) cl = [first] /\
  (exists e,
      calls h cl
      = [first; (UserRegistrationRequests_Delete (Namespace (Meta u)) (Name (Meta u)), e)] /\
      (e = None ->
       Store.existsURR (Namespace (Meta u)) (Name (Meta u)) (after h cl) = false)) /\
  Users (after h cl) = Users cl.
Proof.
  intros Hin Hns Hname Hup first h.
  pose proof (checkUsernameEmailAddress_same_name env u cl a Hin Hns Hname Hup) as Hrun.
  assert (Hdup : IsDuplicate env u cl = true).
  { unfold IsDuplicate, result. now rewrite Hrun. }
  assert (Hcalls : calls (checkUsernameEmailAddress env u) cl = [first]).
  { unfold calls. now rewrite Hrun. }
  split; [exact Hdup|]. split; [exact Hcalls|].
  unfold calls, after. subst h. rewrite (ObjectCreated_duplicate env u cl Hdup).
  cbn [snd trace cluster]. rewrite Hcalls. autorewrite with handler.
  split; [|apply delete_keeps_the_rest].
  eexists. split; [reflexivity | apply deleted_is_gone].
Qed.

Lemma same_name_in_namespace_is_duplicate_witness :
  IsDuplicate Fixture.env0 Fixture.alice Fixture.clusterWithAlice = true.
Proof.
  apply (same_name_in_namespace_is_duplicate Fixture.env0 Fixture.alice
           Fixture.clusterWithAlice (Fixture.account "site-a" "alice" "u-1" "al@a.org"));
    [left; reflexivity | reflexivity | reflexivity | reflexivity].
Defined.

(** C4, as stated, fails: an account [alice] exists in the namespace of
    another site, under another email address.  The request [alice] is no
    duplicate; it is admitted, not deleted, and its approval creates a
    second account named [alice]. *)
Lemma same_name_in_another_namespace_is_admitted :
  map (fun a => (Namespace (user_Meta a), Name (user_Meta a)))
      (Users Fixture.clusterAliceElsewhere) = [("site-b", "alice")] /\
  IsDuplicate Fixture.env0 Fixture.alice Fixture.clusterAliceElsewhere = false /\
  map (fun r => (Namespace (Meta r), Name (Meta r)))
      (UserRegistrationRequests
         (after (ObjectCreated Fixture.env0 (PtrUserRegistrationRequest Fixture.alice))
                Fixture.clusterAliceElsewhere))
  = [("site-a", "alice")] /\
  map (fun a => (Namespace (user_Meta a), Name (user_Meta a)))
      (Users (after (ObjectUpdated Fixture.env0
                                   (PtrUserRegistrationRequest Fixture.aliceApproved))
                    Fixture.clusterAliceElsewhereApproved))
  = [("site-b", "alice"); ("site-a", "alice")].
Proof. vm_compute. repeat split. Qed.

(** ** The hand-over of the password secret *)

Lemma provisioned_app (t1 t2 : list Event) :
  provisioned (t1 ++ t2) = provisioned t1 ++ provisioned t2.
Proof. apply List.filter_app. Qed.

Lemma provisioned_of_listings (t : list Event) :
  forallb (fun e => listing (fst e)) t = true -> provisioned t = [].
Proof.
  induction t as [|[c e] t IH]; [reflexivity|]. cbn.
  destruct c; cbn; try discriminate; exact IH.
Qed.

Lemma find_replaced {A} (p : A -> bool) (s : A) (l : list A) :
  existsb p l = true -> p s = true ->
  find p (map (fun v => if p v then s else v) l) = Some s.
Proof.
  intros Hex Hs. induction l as [|x l IH]; [discriminate|]. cbn in *.
  destruct (p x) eqn:Hx; cbn.
  - now rewrite Hs.
  - rewrite Hx. now apply IH.
Qed.

Section Secrets.

Variables (env : Env) (ns : string) (cl : Cluster).

(** A successful creation of an account: the account as stored. *)
Lemma Users_Create_succeeds user :
  snd (result (Users_Create_ env ns user) cl) = None ->
  let stored :=
    {| user_Meta := setUID (Store.freshUID cl) (setNamespace ns (user_Meta user));
       user_Spec := user_Spec user |} in
  fst (result (Users_Create_ env ns user) cl) = stored /\
  after (Users_Create_ env ns user) cl = Store.addUser stored cl.
Proof.
  unfold Users_Create_, result, after, run, command, Store.createUser. cbn [cluster trace].
  destruct (unavailable env _); [intros H; discriminate H|].
  destruct (String.eqb _ ""); [intros H; discriminate H|].
  destruct (existsb _ (Users cl)); [intros H; discriminate H|].
  intros _. split; reflexivity.
Qed.

Lemma Secrets_Get_succeeds name :
  snd (result (Secrets_Get_ env ns name) cl) = None ->
  Store.getSecret ns name cl = (fst (result (Secrets_Get_ env ns name) cl), None) /\
  Store.hasKey ns name (secret_Meta (fst (result (Secrets_Get_ env ns name) cl))) = true /\
  existsb (fun v => Store.hasKey ns name (secret_Meta v)) (Secrets cl) = true /\
  String.eqb name "" = false.
Proof.
  unfold Secrets_Get_, result, run, query, Store.getSecret. cbn [cluster trace fst snd].
  destruct (unavailable env _); [intros H; discriminate H|].
  destruct (String.eqb name ""); [intros H; discriminate H|].
  destruct (find _ (Secrets cl)) as [s|] eqn:Hfind; [|intros H; discriminate H].
  intros _. cbn [fst]. apply find_some in Hfind as [Hin Hkey].
  repeat split; [exact Hkey|].
  apply existsb_exists. eauto.
Qed.

Lemma Secrets_Update_succeeds s :
  snd (result (Secrets_Update_ env ns s) cl) = None ->
  existsb (fun v => Store.hasKey ns (Name (secret_Meta s)) (secret_Meta v)) (Secrets cl) = true ->
  after (Secrets_Update_ env ns s) cl
  = Store.withSecrets
      (map (fun v => if Store.hasKey ns (Name (secret_Meta s)) (secret_Meta v) then s else v)
           (Secrets cl)) cl.
Proof.
  unfold Secrets_Update_, result, after, run, command, Store.updateSecret. cbn [cluster trace].
  destruct (unavailable env _); [intros H; discriminate H|].
  destruct (String.eqb _ ""); [intros H; discriminate H|].
  intros _ ->. reflexivity.
Qed.

End Secrets.

Lemma getSecret_of_secrets ns name cl1 cl2 :
  Secrets cl1 = Secrets cl2 -> Store.getSecret ns name cl1 = Store.getSecret ns name cl2.
Proof. intros H. unfold Store.getSecret. now rewrite H. Qed.

Lemma hasKey_inv ns name m :
  Store.hasKey ns name m = true -> Namespace m = ns /\ Name m = name.
Proof.
  unfold Store.hasKey. intros H. apply andb_true_iff in H as [H1 H2].
  split; now apply String.eqb_eq.
Qed.

(** C5, as the code has it.  When an approval completes, that is when
    the creation of the account, the read of the password secret and its
    write all return no error, the secret is written back with one more
    owner reference, appended to those it had: a reference to the account
    just created, of kind [User], that blocks the deletion of its owner
    and is not controlling.  The references the secret had, that of the
    request among them, are kept as they were. *)
Theorem account_appended_as_noncontrolling_owner env u cl user s :
  siteEnabled env u cl = true -> Approved (Status u) = true ->
  IsDuplicate env u cl = false ->
  let ns := Namespace (Meta u) in
  let pass := Name (Meta u) +:+ "-pass" in
  let h := ObjectUpdated env (PtrUserRegistrationRequest u) in
  provisioned (calls h cl)
  = [(Users_Create ns user, None); (Secrets_Get ns pass, None); (Secrets_Update ns s, None)] ->
  exists created old,
    In created (Users (after h cl)) /\
    Name (user_Meta created) = Name (Meta u) /\
    Namespace (user_Meta created) = ns /\
    Store.getSecret ns pass cl = (old, None) /\
    let accountRef :=
      {| or_APIVersion := SchemeGroupVersion env; or_Kind := "User";
         or_Name := Name (Meta u); or_UID := UID (user_Meta created);
         or_Controller := Some false; or_BlockOwnerDeletion := Some true |} in
    s = {| secret_Meta := setOwnerRefs (OwnerReferences (secret_Meta old) ++ [accountRef])
                                       (secret_Meta old) |} /\
    Store.getSecret ns pass (after h cl) = (s, None).
Proof.
  intros Hsite Happ Hdup ns pass h. subst h.
  unfold calls, after.
  rewrite (ObjectUpdated_approved env u cl Hsite Happ Hdup). cbn zeta. cbn [snd trace cluster].
  fold ns. fold pass.
  set (user0 := {| user_Meta := setName (Name (Meta u)) zeroMeta; user_Spec := _ |}).
  set (created := result (Users_Create_ env ns user0) cl).
  set (cl1 := after (Users_Create_ env ns user0) cl).
  set (got := result (Secrets_Get_ env ns pass) cl1).
  set (s0 := {| secret_Meta := _ |}).
  set (written := result (Secrets_Update_ env ns s0) cl1).
  set (cl2 := after (Secrets_Update_ env ns s0) cl1).
  rewrite !provisioned_app.
  rewrite (provisioned_of_listings _ (listing_checkUsernameEmailAddress env u cl)).
  destruct (calls_resolveSite env u cl) as (e1 & site & e2 & ->).
  autorewrite with handler. cbn [provisioned List.filter fst provisioning negb app].
  intros Heq. injection Heq as _ Hcreated Hgot Hs Hwritten.
  destruct (Users_Create_succeeds env ns cl user0 Hcreated) as [Hstored Hcl1].
  fold created in Hstored. fold cl1 in Hcl1. cbv zeta in Hstored, Hcl1.
  destruct (Secrets_Get_succeeds env ns cl1 pass Hgot) as (Hold & Hkey & Hex & Hpass).
  fold got in Hold, Hkey.
  assert (Hname : Name (secret_Meta s0) = pass).
  { subst s0. cbn. now apply hasKey_inv in Hkey. }
  assert (Hcl2 : cl2 = Store.withSecrets
                         (map (fun v => if Store.hasKey ns pass (secret_Meta v) then s0 else v)
                              (Secrets cl1)) cl1).
  { subst cl2. rewrite <- Hname. apply Secrets_Update_succeeds; [exact Hwritten|].
    now rewrite Hname. }
  exists (fst created), (fst got). repeat split.
  - destruct (delete_keeps_the_rest env ns (Name (Meta u)) cl2) as (-> & _ & _).
    rewrite Hcl2, Hcl1. cbn. apply in_or_app. right. left. now rewrite Hstored.
  - now rewrite Hstored.
  - now rewrite Hstored.
  - rewrite <- Hold. apply getSecret_of_secrets. now rewrite Hcl1.
  - rewrite <- Hs. subst s0. rewrite Hstored. reflexivity.
  - rewrite (getSecret_of_secrets ns pass _ cl2)
      by apply (delete_keeps_the_rest env ns (Name (Meta u)) cl2).
    rewrite Hcl2. unfold Store.getSecret. rewrite Hpass. cbn [Secrets Store.withSecrets].
    rewrite (find_replaced (fun v => Store.hasKey ns pass (secret_Meta v)) s0).
    + now rewrite Hs.
    + exact Hex.
    + subst s0. cbn. exact Hkey.
Qed.

Lemma account_appended_as_noncontrolling_owner_witness :
  exists created old,
    In created (Users (after (ObjectUpdated Fixture.env0
                                            (PtrUserRegistrationRequest Fixture.aliceApproved))
                             Fixture.clusterApproved)) /\
    Name (user_Meta created) = "alice" /\
    Namespace (user_Meta created) = "site-a" /\
    Store.getSecret "site-a" "alice-pass" Fixture.clusterApproved = (old, None) /\
    Fixture.alicePassHandedOver
    = {| secret_Meta :=
           setOwnerRefs
             (OwnerReferences (secret_Meta old)
              ++ [{| or_APIVersion := "apps.edgenet.io/v1alpha"; or_Kind := "User";
                     or_Name := "alice"; or_UID := UID (user_Meta created);
                     or_Controller := Some false; or_BlockOwnerDeletion := Some true |}])
             (secret_Meta old) |} /\
    Store.getSecret "site-a" "alice-pass"
      (after (ObjectUpdated Fixture.env0 (PtrUserRegistrationRequest Fixture.aliceApproved))
             Fixture.clusterApproved)
    = (Fixture.alicePassHandedOver, None).
Proof.
  apply (account_appended_as_noncontrolling_owner Fixture.env0 Fixture.aliceApproved
           Fixture.clusterApproved Fixture.aliceAccount Fixture.alicePassHandedOver);
    vm_compute; reflexivity.
Defined.

(** C5, as stated, fails: after the approval the password secret still
    names the request among its owners, the account is one more owner, and
    no owner reference is controlling. *)
Lemma secret_keeps_request_and_gets_no_controller :
  map (fun s => (Name (secret_Meta s),
                 map (fun r => (or_Kind r, or_Name r, or_Controller r))
                     (OwnerReferences (secret_Meta s))))
      (Secrets (after (ObjectUpdated Fixture.env0
                                     (PtrUserRegistrationRequest Fixture.aliceApproved))
                      Fixture.clusterApproved))
  = [("alice-pass", [("UserRegistrationRequest", "alice", Some false);
                     ("User", "alice", Some false)])] /\
  map (fun a => Name (user_Meta a))
      (Users (after (ObjectUpdated Fixture.env0
                                   (PtrUserRegistrationRequest Fixture.aliceApproved))
                    Fixture.clusterApproved))
  = ["alice"] /\
  UserRegistrationRequests
    (after (ObjectUpdated Fixture.env0 (PtrUserRegistrationRequest Fixture.aliceApproved))
           Fixture.clusterApproved)
  = [].
Proof. vm_compute. repeat split. Qed.

(** ** The supervisor without a watch *)

Section Degraded.

Import runApprovalTimeout.

Variable URRCopy : UserRegistrationRequest.

Lemma start_degraded t0 : degraded (start URRCopy t0 None).
Proof. unfold degraded; cbn. repeat split. Qed.

Lemma step_degraded s a s' : degraded s -> step URRCopy s a = Some s' -> degraded s'.
Proof.
  intros (Hw & Hg & Hd & Ha & Hr & Ht & Hm) Hstep.
  destruct s as [clk ca cr ct tmo w g m ds]; cbn in *. subst.
  destruct a as [d | | | c]; cbn in Hstep.
  - injection Hstep as <-. unfold degraded; cbn. auto 10.
  - destruct m; discriminate Hstep.
  - destruct m; try discriminate Hstep. injection Hstep as <-.
    unfold degraded; cbn. auto 10.
  - destruct m as [| tm | |]; try discriminate Hstep. cbn in Hstep.
    destruct c; cbn in Hstep; rewrite ?Ha, ?Hr, ?Ht in Hstep; try discriminate Hstep.
    destruct (fired tm clk); [|discriminate Hstep].
    injection Hstep as <-. unfold degraded; cbn. auto 10.
Qed.

Lemma run_degraded schedule : forall s s',
  degraded s -> run URRCopy s schedule = Some s' -> degraded s'.
Proof.
  induction schedule as [|a rest IH]; intros s s' Hs Hrun; cbn in Hrun.
  - now injection Hrun as <-.
  - destruct (step URRCopy s a) as [s1|] eqn:Hstep; [|discriminate Hrun].
    eapply IH; [|exact Hrun]. eapply step_degraded; eassumption.
Qed.

End Degraded.

Section DegradedMode.

Import runApprovalTimeout.

(** C7, on the code.  When the watch cannot be established the deadline
    is armed 72 hours after the start, whatever [status.expires] says.  But
    in no run does the supervisor delete the request or finish: the one
    case that can fire is the timeout, and it begins with [watchURR.Stop()]
    on the nil watch, which panics before the deletion. *)
Theorem degraded_supervisor_never_deletes URRCopy t0 schedule s :
  run URRCopy (start URRCopy t0 None) schedule = Some s ->
  timeout (start URRCopy t0 None) = Some (t0 + 72 * Hour) /\
  deletions s = [] /\
  (forall t, main s <> Finished t) /\
  (forall timer s',
      main s = Selecting timer ->
      step URRCopy s (Fire case_timeout) = Some s' ->
      main s' = MainPanicked /\ deletions s' = []).
Proof.
  intros Hrun.
  pose proof (run_degraded URRCopy schedule _ _ (start_degraded URRCopy t0) Hrun)
    as (Hw & Hg & Hd & Ha & Hr & Ht & Hm).
  split; [reflexivity|]. split; [exact Hd|]. split.
  - intros t Heq. now rewrite Heq in Hm.
  - intros timer s' Hmain Hstep. unfold step in Hstep. rewrite Hmain in Hstep.
    unfold panicked in Hstep. rewrite Hmain, Hg in Hstep.
    destruct (ready _ _ _); [|discriminate Hstep].
    injection Hstep as <-. unfold fire, Stop. rewrite Hw.
    split; [reflexivity | exact Hd].
Qed.

Lemma degraded_supervisor_never_deletes_witness :
  deletions
    {| clock := 72 * Hour;
       chan_registrationApproved := make;
       chan_timeoutRenewed := make;
       chan_terminated := make;
       timeout := Some (72 * Hour);
       watchURR := None;
       watcher := NotStarted;
       main := MainPanicked;
       deletions := [] |} = [].
Proof.
  apply (degraded_supervisor_never_deletes Fixture.alicePending 0
           [Enter; Tick (Z.to_N (72 * Hour)); Fire case_timeout]).
  vm_compute. reflexivity.
Defined.

(** At the deadline of the fallback the loop panics. *)
Lemma degraded_supervisor_panics_at_deadline :
  option_map (fun s => (main s, deletions s))
             (run Fixture.alicePending (start Fixture.alicePending 0 None)
                  [Enter; Tick (Z.to_N (72 * Hour)); Fire case_timeout])
  = Some (MainPanicked, []).
Proof. vm_compute. reflexivity. Qed.

End DegradedMode.

(** ** The supervisor with a watch *)

Section Watching.

Import runApprovalTimeout.

Variable URRCopy : UserRegistrationRequest.

Lemma start_watching t0 evs : watching (start URRCopy t0 (Some evs)).
Proof. unfold watching; cbn. repeat split. discriminate. Qed.

Lemma observe_watching ev s : watching s -> watcher s = Ranging -> watching (observe URRCopy ev s).
Proof.
  intros Hs Hg. unfold observe.
  destruct s as [clk ca cr ct tmo w g m ds]; cbn in *. subst g.
  unfold watching in *; cbn in *.
  destruct w as [w|]; [|contradiction].
  destruct (Object_ ev); try exact Hs.
  destruct (String.eqb _ _); [|destruct (Approved _); [|destruct (Expires (Status u))]];
    cbn; try (destruct (Expires (Status URRCopy)); [destruct (negb _)|]; cbn);
    destruct m; intuition discriminate.
Qed.

Lemma step_watching s a s' : watching s -> step URRCopy s a = Some s' -> watching s'.
Proof.
  intros Hs Hstep.
  destruct a as [d | | | c]; cbn in Hstep.
  - injection Hstep as <-. destruct s; exact Hs.
  - destruct (panicked s); [discriminate|].
    unfold watcherStep in Hstep.
    destruct (watcher s) as [| | n k | |] eqn:Hg; try discriminate Hstep.
    + destruct (watchURR s) as [w|] eqn:Hw; [|discriminate Hstep].
      destruct (stopped w) eqn:Hst.
      * injection Hstep as <-.
        destruct s as [clk ca cr ct tmo w0 g m ds]; cbn in *. subst.
        unfold watching in *; cbn in *. destruct m; intuition discriminate.
      * destruct (pending w) as [|ev rest]; [discriminate Hstep|].
        injection Hstep as <-. apply observe_watching.
        -- destruct s as [clk ca cr ct tmo w0 g m ds]; cbn in *. subst.
           unfold watching in *; cbn in *. destruct m; intuition congruence.
        -- destruct s; exact Hg.
    + destruct (closed (chan n s)) eqn:Hcl.
      * injection Hstep as <-.
        destruct s as [clk ca cr ct tmo w0 g m ds]; cbn in *. subst.
        unfold watching in *; cbn in *.
        destruct w0; [|contradiction].
        destruct m; try exact Hs; destruct n; cbn in Hcl; intuition congruence.
      * destruct (buffered (chan n s)); [discriminate Hstep|].
        injection Hstep as <-.
        destruct s as [clk ca cr ct tmo w0 g m ds]; cbn in *. subst.
        unfold watching in *; cbn in *.
        destruct w0; [|contradiction].
        destruct m, n, k; cbn in *; intuition discriminate.
  - destruct (main s) eqn:Hm; try discriminate Hstep.
    destruct (panicked s); [discriminate|]. injection Hstep as <-.
    destruct s as [clk ca cr ct tmo w0 g m ds]; cbn in *. subst.
    unfold watching in *; cbn in *. exact Hs.
  - destruct (main s) as [| timer | |] eqn:Hm; try discriminate Hstep.
    destruct (panicked s); [discriminate|].
    destruct (ready c timer s); [|discriminate Hstep].
    injection Hstep as <-.
    destruct s as [clk ca cr ct tmo w0 g m ds]; cbn in *. subst.
    unfold watching in *; cbn in *.
    destruct w0 as [w|]; [|contradiction].
    destruct c; cbn; intuition (try discriminate; try congruence).
Qed.

Lemma run_watching schedule : forall s s',
  watching s -> run URRCopy s schedule = Some s' -> watching s'.
Proof.
  induction schedule as [|a rest IH]; intros s s' Hs Hrun; cbn in Hrun.
  - now injection Hrun as <-.
  - destruct (step URRCopy s a) as [s1|] eqn:Hstep; [|discriminate Hrun].
    eapply IH; [|exact Hrun]. eapply step_watching; eassumption.
Qed.



End Watching.

Section ApprovalPrecedence.

Import runApprovalTimeout.




End ApprovalPrecedence.

(** * More of what the code does *)

(** ** The verdict of the validator *)

Lemma filter_all {A} (p : A -> bool) (l : list A) :
  (forall x, p x = true) -> List.filter p l = l.
Proof.
  intros Hp. induction l as [|x l IH]; [reflexivity|]. cbn. now rewrite Hp, IH.
Qed.

Lemma no_match_is_empty {A} (p : A -> bool) (l : list A) :
  Nat.eqb (length (List.filter p l)) 0 = negb (existsb p l).
Proof.
  induction l as [|x l IH]; [reflexivity|]. cbn. destruct (p x); [reflexivity | exact IH].
Qed.

Section Verdict.

Variables (env : Env) (u : UserRegistrationRequest) (cl : Cluster).

Let byName := Users_List (Namespace (Meta u)) (Some (Name (Meta u))).
Let allUsers := Users_List "" None.
Let allRequests := UserRegistrationRequests_List "".

(** Each listing contributes the collisions it can see; a listing that
    fails contributes none. *)
Lemma IsDuplicate_eq :
  IsDuplicate env u cl
  = negb (unavailable env byName) && existsb (sameName u) (Users cl)
    || negb (unavailable env allUsers) && existsb (sameEmail u) (Users cl)
    || negb (unavailable env allRequests)
       && existsb (rivalRequest u) (UserRegistrationRequests cl).
Proof.
  subst byName allUsers allRequests.
  unfold IsDuplicate.
  cbv beta iota zeta delta [result run checkUsernameEmailAddress bind dropErr ret Users_List_
                            UserRegistrationRequests_List_ query record fst snd cluster trace
                            Store.listUsers Store.listURRs Store.matchesSelector
                            sameName sameEmail rivalRequest].
  repeat first
    [ progress (cbn [fst snd cluster trace length Nat.eqb negb andb orb app existsb])
    | progress (rewrite ?no_match_is_empty)
    | match goal with
      | |- context [List.filter ?p ?l] =>
          rewrite (filter_all p l) by (intros; reflexivity)
      | |- context [unavailable env ?c] => destruct (unavailable env c)
      | |- context [existsb ?p (Users cl)] => destruct (existsb p (Users cl))
      | |- context [existsb ?p (UserRegistrationRequests cl)] =>
          destruct (existsb p (UserRegistrationRequests cl))
      end ];
    reflexivity.
Qed.

End Verdict.

Lemma existsb_sameName u l :
  existsb (sameName u) l = true <->
  exists a, In a l /\
            (Namespace (Meta u) = "" \/ Namespace (user_Meta a) = Namespace (Meta u)) /\
            Name (user_Meta a) = Name (Meta u).
Proof.
  rewrite existsb_exists. unfold sameName, Store.inNamespace.
  split; intros (a & Hin & H); exists a; (split; [exact Hin|]).
  - apply andb_true_iff in H as [Hns Hname]. apply orb_true_iff in Hns.
    rewrite !String.eqb_eq in Hns. now rewrite String.eqb_eq in Hname.
  - destruct H as [Hns Hname]. apply andb_true_iff. split.
    + apply orb_true_iff. now rewrite !String.eqb_eq.
    + now apply String.eqb_eq.
Qed.

Lemma existsb_sameEmail u l :
  existsb (sameEmail u) l = true <->
  exists a, In a l /\ user_Email (user_Spec a) = Email (Spec u).
Proof.
  rewrite existsb_exists. unfold sameEmail.
  split; intros (a & Hin & H); exists a; (split; [exact Hin|]); now apply String.eqb_eq.
Qed.

Lemma existsb_rivalRequest u l :
  existsb (rivalRequest u) l = true <->
  exists r, In r l /\ Email (Spec r) = Email (Spec u) /\ UID (Meta r) <> UID (Meta u).
Proof.
  rewrite existsb_exists. unfold rivalRequest.
  split; intros (r & Hin & H); exists r; (split; [exact Hin|]).
  - apply andb_true_iff in H as [He Hu]. apply negb_true_iff in Hu.
    split; [now apply String.eqb_eq | now apply String.eqb_neq].
  - destruct H as [He Hu]. apply andb_true_iff. split; [now apply String.eqb_eq|].
    apply negb_true_iff. now apply String.eqb_neq.
Qed.

(** X1.  When its three listings are answered, the validator reports a
    duplicate exactly when an account of the namespace of the request (of
    any namespace, for a request without namespace) has its name, or an
    account of any namespace has its email address, or a request with
    another UID has its email address.  A request never collides with
    itself, and requests are not compared by name. *)
Theorem duplicate_iff_collision env u cl :
  unavailable env (Users_List (Namespace (Meta u)) (Some (Name (Meta u)))) = false ->
  unavailable env (Users_List "" None) = false ->
  unavailable env (UserRegistrationRequests_List "") = false ->
  IsDuplicate env u cl = true <->
  (exists a, In a (Users cl) /\
             (Namespace (Meta u) = "" \/ Namespace (user_Meta a) = Namespace (Meta u)) /\
             Name (user_Meta a) = Name (Meta u)) \/
  (exists a, In a (Users cl) /\ user_Email (user_Spec a) = Email (Spec u)) \/
  (exists r, In r (UserRegistrationRequests cl) /\
             Email (Spec r) = Email (Spec u) /\ UID (Meta r) <> UID (Meta u)).
Proof.
  intros H1 H2 H3. rewrite IsDuplicate_eq, H1, H2, H3. cbn [negb andb].
  rewrite !orb_true_iff, existsb_sameName, existsb_sameEmail, existsb_rivalRequest.
  tauto.
Qed.

Lemma duplicate_iff_collision_witness :
  IsDuplicate Fixture.env0 Fixture.alice Fixture.clusterWithAlice = true <->
  (exists a, In a (Users Fixture.clusterWithAlice) /\
             ("site-a" = "" \/ Namespace (user_Meta a) = "site-a") /\
             Name (user_Meta a) = "alice") \/
  (exists a, In a (Users Fixture.clusterWithAlice) /\
             user_Email (user_Spec a) = "alice@a.org") \/
  (exists r, In r (UserRegistrationRequests Fixture.clusterWithAlice) /\
             Email (Spec r) = "alice@a.org" /\ UID (Meta r) <> "r-1").
Proof.
  apply (duplicate_iff_collision Fixture.env0 Fixture.alice Fixture.clusterWithAlice);
    reflexivity.
Defined.

(** X2.  The validator drops the errors of its listings: a listing that
    fails is read as empty.  When none of the three is answered the
    candidate is reported as no duplicate, whatever the accounts and
    requests of the cluster, after three failed calls. *)
Theorem unanswered_listings_report_no_duplicate env u cl :
  unavailable env (Users_List (Namespace (Meta u)) (Some (Name (Meta u)))) = true ->
  unavailable env (Users_List "" None) = true ->
  unavailable env (UserRegistrationRequests_List "") = true ->
  IsDuplicate env u cl = false /\
  calls (checkUsernameEmailAddress env u) cl
  = [(Users_List (Namespace (Meta u)) (Some (Name (Meta u))), Some Unavailable);
     (Users_List "" None, Some Unavailable);
     (UserRegistrationRequests_List "", Some Unavailable)].
Proof.
  intros H1 H2 H3. split.
  - rewrite IsDuplicate_eq, H1, H2, H3. reflexivity.
  - cbv beta iota zeta delta [calls run checkUsernameEmailAddress bind dropErr ret Users_List_
                              UserRegistrationRequests_List_ query record fst snd cluster trace].
    rewrite H1. cbn [fst snd length Nat.eqb cluster trace app negb existsb].
    rewrite H2. cbn [fst snd length Nat.eqb cluster trace app negb existsb].
    rewrite H3. reflexivity.
Qed.

Lemma unanswered_listings_report_no_duplicate_witness :
  IsDuplicate Scenario.envNoListings Fixture.alice Fixture.clusterWithAlice = false /\
  calls (checkUsernameEmailAddress Scenario.envNoListings Fixture.alice) Fixture.clusterWithAlice
  = [(Users_List "site-a" (Some "alice"), Some Unavailable);
     (Users_List "" None, Some Unavailable);
     (UserRegistrationRequests_List "", Some Unavailable)].
Proof.
  apply (unanswered_listings_report_no_duplicate Scenario.envNoListings Fixture.alice
           Fixture.clusterWithAlice); reflexivity.
Defined.

(** X3.  The validator only reads: it leaves the cluster as it was, and
    it makes one, two or three calls, all of them listings, the first of
    which lists the accounts of the namespace of the request under its
    name. *)
Theorem validator_only_lists env u cl :
  after (checkUsernameEmailAddress env u) cl = cl /\
  forallb (fun e => listing (fst e)) (calls (checkUsernameEmailAddress env u) cl) = true /\
  effects (calls (checkUsernameEmailAddress env u) cl) = [] /\
  (1 <= length (calls (checkUsernameEmailAddress env u) cl) <= 3)%nat /\
  hd_error (map fst (calls (checkUsernameEmailAddress env u) cl))
  = Some (Users_List (Namespace (Meta u)) (Some (Name (Meta u)))).
Proof.
  split; [apply after_checkUsernameEmailAddress|].
  split; [apply listing_checkUsernameEmailAddress|].
  split; [apply effects_checkUsernameEmailAddress|].
  cbv beta iota zeta delta [calls run checkUsernameEmailAddress bind dropErr ret Users_List_
                            UserRegistrationRequests_List_ query record fst snd cluster trace].
  repeat first
    [ progress (cbn [fst snd cluster trace length negb app map hd_error])
    | match goal with
      | |- context [if ?b then _ else _] => destruct b
      end ];
    split; try reflexivity; lia.
Qed.

(** ** Update notifications *)

Lemma Users_Create_fails env ns user cl :
  snd (result (Users_Create_ env ns user) cl) <> None ->
  fst (result (Users_Create_ env ns user) cl) = zeroUser /\
  after (Users_Create_ env ns user) cl = cl.
Proof.
  unfold Users_Create_, result, after, run, command, Store.createUser. cbn [cluster trace].
  destruct (unavailable env _); [intros _; split; reflexivity|].
  destruct (String.eqb _ ""); [intros _; split; reflexivity|].
  destruct (existsb _ (Users cl)); [intros _; split; reflexivity|].
  intros H. now destruct H.
Qed.

Lemma Secrets_Update_keeps env ns s cl :
  Users (after (Secrets_Update_ env ns s) cl) = Users cl /\
  UserRegistrationRequests (after (Secrets_Update_ env ns s) cl) = UserRegistrationRequests cl /\
  EmailVerifications (after (Secrets_Update_ env ns s) cl) = EmailVerifications cl.
Proof.
  unfold Secrets_Update_, after, run, command, Store.updateSecret. cbn [cluster trace].
  destruct (unavailable env _); [cbn; auto|].
  destruct (String.eqb _ ""); [cbn; auto|].
  destruct (existsb _ (Secrets cl)); cbn; auto.
Qed.

Lemma delete_keeps_existence env ns name cl :
  Store.existsURR ns name (after (UserRegistrationRequests_Delete_ env ns name) cl) = true ->
  Store.existsURR ns name cl = true.
Proof.
  unfold UserRegistrationRequests_Delete_, after, run, command, Store.deleteURR.
  cbn [cluster trace].
  destruct (unavailable env _); [now cbn|].
  destruct (Store.existsURR ns name cl) eqn:Hex; cbn; [reflexivity|]. now rewrite Hex.
Qed.

Lemma provisioned_resolveSite env u cl : provisioned (calls (resolveSite env u) cl) = [].
Proof. destruct (calls_resolveSite env u cl) as (e1 & site & e2 & ->). reflexivity. Qed.

Section Updated.

Variables (env : Env) (u : UserRegistrationRequest) (cl : Cluster).

Let ns := Namespace (Meta u).
Let name := Name (Meta u).
Let updated := ObjectUpdated env (PtrUserRegistrationRequest u).
Let delete := UserRegistrationRequests_Delete ns name.

(** X4.  An update notification for a request that is not approved, on
    a site that is enabled, does nothing: after the two lookups of the
    site the handler returns, and the cluster is as it was. *)
Theorem update_without_approval_changes_nothing :
  siteEnabled env u cl = true -> Approved (Status u) = false ->
  after updated cl = cl /\
  calls updated cl = calls (resolveSite env u) cl /\
  effects (calls updated cl) = [].
Proof.
  intros Hsite Happ. subst updated. unfold after, calls.
  rewrite (ObjectUpdated_pending env u cl Hsite Happ). cbn [snd cluster trace].
  split; [reflexivity|]. split; [reflexivity | apply effects_resolveSite].
Qed.

(** X5.  An update notification for a request whose site does not read
    as enabled deletes the request and does nothing else, approved or not:
    no account is created, no secret and no email verification is touched,
    and the request is gone when the deletion returns no error. *)
Theorem update_on_disabled_site_only_deletes :
  siteEnabled env u cl = false ->
  exists e,
    calls updated cl = calls (resolveSite env u) cl ++ [(delete, e)] /\
    effects (calls updated cl) = [(delete, e)] /\
    Users (after updated cl) = Users cl /\
    Secrets (after updated cl) = Secrets cl /\
    EmailVerifications (after updated cl) = EmailVerifications cl /\
    (e = None -> Store.existsURR ns name (after updated cl) = false).
Proof.
  intros Hsite. subst updated delete.
  exists (snd (result (UserRegistrationRequests_Delete_ env ns name) cl)).
  unfold after, calls.
  rewrite (ObjectUpdated_disabled env u cl Hsite). cbn [snd cluster trace].
  autorewrite with handler. split; [reflexivity|].
  rewrite effects_app, effects_resolveSite.
  destruct (delete_keeps_the_rest env ns name cl) as (HU & HS & HE).
  repeat split; try assumption. apply deleted_is_gone.
Qed.

(** X6.  An approved request that has become a duplicate is deleted on
    update without an account: the deletion is the only call that is not a
    read, and accounts and secrets are as they were. *)
Theorem approved_duplicate_is_deleted_without_account :
  siteEnabled env u cl = true -> Approved (Status u) = true ->
  IsDuplicate env u cl = true ->
  exists e,
    effects (calls updated cl) = [(delete, e)] /\
    Users (after updated cl) = Users cl /\
    Secrets (after updated cl) = Secrets cl /\
    (e = None -> Store.existsURR ns name (after updated cl) = false).
Proof.
  intros Hsite Happ Hdup. subst updated delete.
  exists (snd (result (UserRegistrationRequests_Delete_ env ns name) cl)).
  unfold after, calls.
  rewrite (ObjectUpdated_duplicate env u cl Hsite Happ Hdup). cbn [snd cluster trace].
  autorewrite with handler.
  rewrite !effects_app, effects_resolveSite, effects_checkUsernameEmailAddress.
  destruct (delete_keeps_the_rest env ns name cl) as (HU & HS & HE).
  repeat split; try assumption. apply deleted_is_gone.
Qed.

(** The account an approval asks for: the name of the request and its
    fields, nothing else. *)
Let account : User :=
  {| user_Meta := setName name zeroMeta;
     user_Spec := {| user_Bio := Bio (Spec u); user_Email := Email (Spec u);
                     user_FirstName := FirstName (Spec u);
                     user_LastName := LastName (Spec u);
                     user_Password := Password (Spec u);
                     user_Roles := Roles (Spec u); user_URL := URL (Spec u) |} |}.

(** X7.  The approval of a request that is no duplicate makes three
    calls beyond its reads, in this order and whatever they return: the
    creation of an account with the name and the fields of the request, the
    write of the password secret, the deletion of the request.  When the
    creation returns no error the accounts of the cluster are those it had
    and the new one, stored in the namespace of the request under a fresh
    UID; when it returns an error they are those it had. *)
Theorem approval_creates_account_then_deletes_request :
  siteEnabled env u cl = true -> Approved (Status u) = true ->
  IsDuplicate env u cl = false ->
  exists e1 s e2 e3,
    effects (calls updated cl)
    = [(Users_Create ns account, e1); (Secrets_Update ns s, e2); (delete, e3)] /\
    (e1 = None ->
     Users (after updated cl)
     = Users cl ++ [{| user_Meta := setUID (Store.freshUID cl)
                                           (setNamespace ns (user_Meta account));
                       user_Spec := user_Spec account |}]) /\
    (e1 <> None -> Users (after updated cl) = Users cl) /\
    (e3 = None -> Store.existsURR ns name (after updated cl) = false).
Proof.
  intros Hsite Happ Hdup. subst updated delete.
  unfold after, calls.
  rewrite (ObjectUpdated_approved env u cl Hsite Happ Hdup). cbn zeta.
  cbn [snd cluster trace]. fold ns name account.
  set (created := result (Users_Create_ env ns account) cl).
  set (cl1 := after (Users_Create_ env ns account) cl).
  set (s0 := {| secret_Meta := _ |}).
  set (cl2 := after (Secrets_Update_ env ns s0) cl1).
  exists (snd created), s0, (snd (result (Secrets_Update_ env ns s0) cl1)),
    (snd (result (UserRegistrationRequests_Delete_ env ns name) cl2)).
  autorewrite with handler.
  rewrite !effects_app, effects_resolveSite, effects_checkUsernameEmailAddress.
  split; [reflexivity|].
  assert (HU : Users (after (UserRegistrationRequests_Delete_ env ns name) cl2) = Users cl1).
  { destruct (delete_keeps_the_rest env ns name cl2) as (-> & _ & _).
    apply Secrets_Update_keeps. }
  rewrite HU. split; [|split].
  - intros He. destruct (Users_Create_succeeds env ns cl account He) as [_ Hcl1].
    fold cl1 in Hcl1. now rewrite Hcl1.
  - intros He. destruct (Users_Create_fails env ns account cl He) as [_ Hcl1].
    fold cl1 in Hcl1. now rewrite Hcl1.
  - apply deleted_is_gone.
Qed.

(** X8.  The approval does not look at the error of the creation of the
    account.  When the creation fails the handler goes on with the zero
    value: the password secret is written back with one more owner
    reference, of kind [User] and with an empty name and an empty UID, the
    request is deleted all the same, and no account exists for it. *)
Theorem failed_account_creation_still_deletes_request a err :
  siteEnabled env u cl = true -> Approved (Status u) = true ->
  IsDuplicate env u cl = false ->
  hd_error (provisioned (calls updated cl)) = Some (Users_Create ns a, Some err) ->
  let old := fst (result (Secrets_Get_ env ns (name +:+ "-pass")) cl) in
  exists s e2 e3,
    effects (calls updated cl)
    = [(Users_Create ns account, Some err); (Secrets_Update ns s, e2); (delete, e3)] /\
    OwnerReferences (secret_Meta s)
    = OwnerReferences (secret_Meta old)
      ++ [{| or_APIVersion := SchemeGroupVersion env; or_Kind := "User";
             or_Name := ""; or_UID := "";
             or_Controller := Some false; or_BlockOwnerDeletion := Some true |}] /\
    Users (after updated cl) = Users cl /\
    (e3 = None -> Store.existsURR ns name (after updated cl) = false).
Proof.
  intros Hsite Happ Hdup. subst updated delete.
  unfold after, calls.
  rewrite (ObjectUpdated_approved env u cl Hsite Happ Hdup). cbn zeta.
  cbn [snd cluster trace]. fold ns name account.
  set (created := result (Users_Create_ env ns account) cl).
  set (cl1 := after (Users_Create_ env ns account) cl).
  set (s0 := {| secret_Meta := _ |}).
  set (cl2 := after (Secrets_Update_ env ns s0) cl1).
  rewrite !provisioned_app.
  rewrite (provisioned_of_listings _ (listing_checkUsernameEmailAddress env u cl)).
  rewrite provisioned_resolveSite.
  cbn [provisioned List.filter fst provisioning negb app hd_error].
  intros Hhd. injection Hhd as _ Hcreated.
  assert (Hfail : snd created <> None) by (rewrite Hcreated; discriminate).
  destruct (Users_Create_fails env ns account cl Hfail) as [Hzero Hcl1].
  fold created in Hzero. fold cl1 in Hcl1.
  exists s0, (snd (result (Secrets_Update_ env ns s0) cl1)),
    (snd (result (UserRegistrationRequests_Delete_ env ns name) cl2)).
  autorewrite with handler.
  rewrite !effects_app, effects_resolveSite, effects_checkUsernameEmailAddress.
  rewrite Hcreated. split; [reflexivity|]. split; [|split].
  - subst s0. cbn. rewrite Hzero. subst cl1. rewrite Hcl1. reflexivity.
  - destruct (delete_keeps_the_rest env ns name cl2) as (-> & _ & _).
    subst cl2. destruct (Secrets_Update_keeps env ns s0 cl1) as (-> & _ & _).
    now rewrite Hcl1.
  - apply deleted_is_gone.
Qed.

End Updated.

Lemma update_without_approval_changes_nothing_witness :
  after (ObjectUpdated Fixture.env0 (PtrUserRegistrationRequest Fixture.alicePending))
        Fixture.clusterAdmitted
  = Fixture.clusterAdmitted /\
  calls (ObjectUpdated Fixture.env0 (PtrUserRegistrationRequest Fixture.alicePending))
        Fixture.clusterAdmitted
  = calls (resolveSite Fixture.env0 Fixture.alicePending) Fixture.clusterAdmitted /\
  effects (calls (ObjectUpdated Fixture.env0 (PtrUserRegistrationRequest Fixture.alicePending))
                 Fixture.clusterAdmitted) = [].
Proof.
  apply (update_without_approval_changes_nothing Fixture.env0 Fixture.alicePending
           Fixture.clusterAdmitted); reflexivity.
Defined.

Lemma update_on_disabled_site_only_deletes_witness :
  exists e,
    calls (ObjectUpdated Fixture.env0 (PtrUserRegistrationRequest Fixture.bob))
          Fixture.clusterAB
    = calls (resolveSite Fixture.env0 Fixture.bob) Fixture.clusterAB
      ++ [(UserRegistrationRequests_Delete "site-b" "bob", e)] /\
    effects (calls (ObjectUpdated Fixture.env0 (PtrUserRegistrationRequest Fixture.bob))
                   Fixture.clusterAB)
    = [(UserRegistrationRequests_Delete "site-b" "bob", e)] /\
    Users (after (ObjectUpdated Fixture.env0 (PtrUserRegistrationRequest Fixture.bob))
                 Fixture.clusterAB) = Users Fixture.clusterAB /\
    Secrets (after (ObjectUpdated Fixture.env0 (PtrUserRegistrationRequest Fixture.bob))
                   Fixture.clusterAB) = Secrets Fixture.clusterAB /\
    EmailVerifications
      (after (ObjectUpdated Fixture.env0 (PtrUserRegistrationRequest Fixture.bob))
             Fixture.clusterAB) = EmailVerifications Fixture.clusterAB /\
    (e = None ->
     Store.existsURR "site-b" "bob"
       (after (ObjectUpdated Fixture.env0 (PtrUserRegistrationRequest Fixture.bob))
              Fixture.clusterAB) = false).
Proof.
  apply (update_on_disabled_site_only_deletes Fixture.env0 Fixture.bob Fixture.clusterAB).
  reflexivity.
Defined.

Lemma approved_duplicate_is_deleted_without_account_witness :
  exists e,
    effects (calls (ObjectUpdated Fixture.env0
                                  (PtrUserRegistrationRequest Fixture.aliceApproved))
                   Scenario.clusterApprovedTaken)
    = [(UserRegistrationRequests_Delete "site-a" "alice", e)] /\
    Users (after (ObjectUpdated Fixture.env0 (PtrUserRegistrationRequest Fixture.aliceApproved))
                 Scenario.clusterApprovedTaken)
    = Users Scenario.clusterApprovedTaken /\
    Secrets (after (ObjectUpdated Fixture.env0
                                  (PtrUserRegistrationRequest Fixture.aliceApproved))
                   Scenario.clusterApprovedTaken)
    = Secrets Scenario.clusterApprovedTaken /\
    (e = None ->
     Store.existsURR "site-a" "alice"
       (after (ObjectUpdated Fixture.env0 (PtrUserRegistrationRequest Fixture.aliceApproved))
              Scenario.clusterApprovedTaken) = false).
Proof.
  apply (approved_duplicate_is_deleted_without_account Fixture.env0 Fixture.aliceApproved
           Scenario.clusterApprovedTaken); reflexivity.
Defined.

Lemma approval_creates_account_then_deletes_request_witness :
  exists e1 s e2 e3,
    effects (calls (ObjectUpdated Fixture.env0
                                  (PtrUserRegistrationRequest Fixture.aliceApproved))
                   Fixture.clusterApproved)
    = [(Users_Create "site-a" Fixture.aliceAccount, e1);
       (Secrets_Update "site-a" s, e2);
       (UserRegistrationRequests_Delete "site-a" "alice", e3)] /\
    (e1 = None ->
     Users (after (ObjectUpdated Fixture.env0
                                 (PtrUserRegistrationRequest Fixture.aliceApproved))
                  Fixture.clusterApproved)
     = Users Fixture.clusterApproved
       ++ [{| user_Meta := setUID (Store.freshUID Fixture.clusterApproved)
                                  (setNamespace "site-a" (user_Meta Fixture.aliceAccount));
              user_Spec := user_Spec Fixture.aliceAccount |}]) /\
    (e1 <> None ->
     Users (after (ObjectUpdated Fixture.env0
                                 (PtrUserRegistrationRequest Fixture.aliceApproved))
                  Fixture.clusterApproved)
     = Users Fixture.clusterApproved) /\
    (e3 = None ->
     Store.existsURR "site-a" "alice"
       (after (ObjectUpdated Fixture.env0 (PtrUserRegistrationRequest Fixture.aliceApproved))
              Fixture.clusterApproved) = false).
Proof.
  apply (approval_creates_account_then_deletes_request Fixture.env0 Fixture.aliceApproved
           Fixture.clusterApproved); reflexivity.
Defined.

Lemma failed_account_creation_still_deletes_request_witness :
  exists s e2 e3,
    effects (calls (ObjectUpdated Scenario.envNoAccounts
                                  (PtrUserRegistrationRequest Fixture.aliceApproved))
                   Fixture.clusterApproved)
    = [(Users_Create "site-a" Fixture.aliceAccount, Some Unavailable);
       (Secrets_Update "site-a" s, e2);
       (UserRegistrationRequests_Delete "site-a" "alice", e3)] /\
    OwnerReferences (secret_Meta s)
    = OwnerReferences
        (secret_Meta (fst (result (Secrets_Get_ Scenario.envNoAccounts "site-a" "alice-pass")
                                  Fixture.clusterApproved)))
      ++ [{| or_APIVersion := "apps.edgenet.io/v1alpha"; or_Kind := "User";
             or_Name := ""; or_UID := "";
             or_Controller := Some false; or_BlockOwnerDeletion := Some true |}] /\
    Users (after (ObjectUpdated Scenario.envNoAccounts
                                (PtrUserRegistrationRequest Fixture.aliceApproved))
                 Fixture.clusterApproved)
    = Users Fixture.clusterApproved /\
    (e3 = None ->
     Store.existsURR "site-a" "alice"
       (after (ObjectUpdated Scenario.envNoAccounts
                             (PtrUserRegistrationRequest Fixture.aliceApproved))
              Fixture.clusterApproved) = false).
Proof.
  apply (failed_account_creation_still_deletes_request Scenario.envNoAccounts
           Fixture.aliceApproved Fixture.clusterApproved Fixture.aliceAccount Unavailable);
    reflexivity.
Defined.

(** ** What the handlers leave alone *)

Lemma keeps_ret {A X} (f : Cluster -> X) (a : A) : keeps f (ret a).
Proof. intros cl. reflexivity. Qed.

Lemma keeps_emit {X} (f : Cluster -> X) c : keeps f (emit c).
Proof. intros cl. reflexivity. Qed.

Lemma keeps_query {A X} (f : Cluster -> X) env c (z : A) g : keeps f (query env c z g).
Proof. intros cl. reflexivity. Qed.

Lemma keeps_bind {A B X} (f : Cluster -> X) (m : M A) (k : A -> M B) :
  keeps f m -> (forall a, keeps f (k a)) -> (forall a, lawful (k a)) -> keeps f (bind m k).
Proof.
  intros Hm Hk Hl cl. rewrite (after_bind m k Hl). now rewrite Hk, Hm.
Qed.

Lemma keeps_dropErr {A X} (f : Cluster -> X) (m : M (Result A)) : keeps f m -> keeps f (dropErr m).
Proof. intros Hm cl. rewrite after_dropErr. apply Hm. Qed.

Lemma keeps_onlyErr {A X} (f : Cluster -> X) (m : M (Result A)) : keeps f m -> keeps f (onlyErr m).
Proof. intros Hm cl. rewrite after_onlyErr. apply Hm. Qed.

(** A write, case by case on what the server answers. *)
Ltac frame_command :=
  let cl := fresh "cl" in
  unfold keeps; intros cl;
  unfold after, run, command, CreateSecretByPassword, record,
    Store.deleteURR, Store.updateURR, Store.updateStatusURR, Store.createUser,
    Store.createEmailVerification, Store.updateSecret;
  cbn [cluster trace];
  repeat match goal with
         | |- context [if ?b then _ else _] => destruct b
         | |- context [match ?o with Some _ => _ | None => _ end] => destruct o
         end;
  reflexivity.

(** An observation no call of a program changes. *)
Ltac keeping :=
  autounfold with api;
  repeat first
    [ apply keeps_ret | apply keeps_emit | apply keeps_query
    | apply keeps_dropErr | apply keeps_onlyErr
    | apply keeps_bind; [ | intros | intros; lawfulness ]
    | match goal with
      | |- keeps _ (if ?b then _ else _) => destruct b
      | |- keeps _ (match ?o with Some _ => _ | None => _ end) => destruct o
      end
    | solve [frame_command] ].

Lemma checkUsernameEmailAddress_keeps {X} (f : Cluster -> X) env u :
  keeps f (checkUsernameEmailAddress env u).
Proof. intros cl. now rewrite after_checkUsernameEmailAddress. Qed.

Section Frame.

Variables (env : Env) (obj : Object).

Lemma ObjectCreated_keeps_Users : keeps Users (ObjectCreated env obj).
Proof.
  unfold ObjectCreated. destruct obj; try apply keeps_ret.
  apply keeps_bind; [apply checkUsernameEmailAddress_keeps | intros | intros; lawfulness].
  keeping.
Qed.

Lemma ObjectCreated_keeps_Sites : keeps Sites (ObjectCreated env obj).
Proof.
  unfold ObjectCreated. destruct obj; try apply keeps_ret.
  apply keeps_bind; [apply checkUsernameEmailAddress_keeps | intros | intros; lawfulness].
  keeping.
Qed.

Lemma ObjectCreated_keeps_Namespaces : keeps Namespaces (ObjectCreated env obj).
Proof.
  unfold ObjectCreated. destruct obj; try apply keeps_ret.
  apply keeps_bind; [apply checkUsernameEmailAddress_keeps | intros | intros; lawfulness].
  keeping.
Qed.

Ltac updated_keeps :=
  unfold ObjectUpdated; destruct obj; try apply keeps_ret;
  repeat (apply keeps_bind; [keeping | intros | intros; lawfulness]);
  repeat match goal with
         | |- keeps _ (if ?b then _ else _) => destruct b
         end;
  try apply keeps_ret;
  repeat (apply keeps_bind;
          [first [apply checkUsernameEmailAddress_keeps | keeping]
          | intros | intros; lawfulness]);
  keeping.

Lemma ObjectUpdated_keeps_EmailVerifications : keeps EmailVerifications (ObjectUpdated env obj).
Proof. updated_keeps. Qed.

Lemma ObjectUpdated_keeps_Sites : keeps Sites (ObjectUpdated env obj).
Proof. updated_keeps. Qed.

Lemma ObjectUpdated_keeps_Namespaces : keeps Namespaces (ObjectUpdated env obj).
Proof. updated_keeps. Qed.

End Frame.

(** X9.  Whatever the payload and the cluster, neither handler writes a
    site or a namespace: both only read them.  A create notification never
    creates or changes an account, and an update notification never
    creates or changes an email verification. *)
Theorem handlers_leave_sites_and_namespaces env obj cl :
  Sites (after (ObjectCreated env obj) cl) = Sites cl /\
  Namespaces (after (ObjectCreated env obj) cl) = Namespaces cl /\
  Users (after (ObjectCreated env obj) cl) = Users cl /\
  Sites (after (ObjectUpdated env obj) cl) = Sites cl /\
  Namespaces (after (ObjectUpdated env obj) cl) = Namespaces cl /\
  EmailVerifications (after (ObjectUpdated env obj) cl) = EmailVerifications cl.
Proof.
  repeat split.
  - apply ObjectCreated_keeps_Sites.
  - apply ObjectCreated_keeps_Namespaces.
  - apply ObjectCreated_keeps_Users.
  - apply ObjectUpdated_keeps_Sites.
  - apply ObjectUpdated_keeps_Namespaces.
  - apply ObjectUpdated_keeps_EmailVerifications.
Qed.

(** ** What a create notification leaves in the store *)

Lemma filter_twice {A} (p : A -> bool) (l : list A) :
  List.filter p (List.filter p l) = List.filter p l.
Proof.
  induction l as [|a l IH]; [reflexivity|]. cbn.
  destruct (p a) eqn:Hp; cbn; [rewrite Hp; f_equal|]; exact IH.
Qed.

(** Replacing the objects under a key by objects under the same key shows
    nowhere else. *)
Lemma others_of_replaced ns name (g : UserRegistrationRequest -> UserRegistrationRequest) l :
  (forall v, Store.hasKey ns name (Meta v) = true -> Store.hasKey ns name (Meta (g v)) = true) ->
  List.filter (fun r => negb (Store.hasKey ns name (Meta r)))
              (map (fun v => if Store.hasKey ns name (Meta v) then g v else v) l)
  = List.filter (fun r => negb (Store.hasKey ns name (Meta r))) l.
Proof.
  intros Hg. induction l as [|v l IH]; [reflexivity|]. cbn.
  destruct (Store.hasKey ns name (Meta v)) eqn:Hv; cbn.
  - rewrite (Hg v Hv). exact IH.
  - rewrite Hv. cbn. now rewrite IH.
Qed.

Lemma hasKey_own u : Store.hasKey (Namespace (Meta u)) (Name (Meta u)) (Meta u) = true.
Proof. unfold Store.hasKey. now rewrite !String.eqb_refl. Qed.

Lemma Delete_keeps_others env ns name cl :
  otherRequests ns name (after (UserRegistrationRequests_Delete_ env ns name) cl)
  = otherRequests ns name cl.
Proof.
  unfold UserRegistrationRequests_Delete_, after, run, command, Store.deleteURR.
  cbn [cluster trace].
  destruct (unavailable env _); [reflexivity|].
  destruct (Store.existsURR ns name cl); [|reflexivity].
  apply filter_twice.
Qed.

Lemma Update_keeps_others env u cl :
  otherRequests (Namespace (Meta u)) (Name (Meta u))
                (after (UserRegistrationRequests_Update_ env (Namespace (Meta u)) u) cl)
  = otherRequests (Namespace (Meta u)) (Name (Meta u)) cl.
Proof.
  unfold UserRegistrationRequests_Update_, after, run, command, Store.updateURR.
  cbn [cluster trace].
  destruct (unavailable env _); [reflexivity|].
  destruct (String.eqb _ ""); [reflexivity|].
  destruct (Store.existsURR _ _ cl); [|reflexivity].
  apply (others_of_replaced _ _ (fun _ => Store.onWire u)). intros v _.
  exact (hasKey_own u).
Qed.

Lemma UpdateStatus_keeps_others env u cl :
  otherRequests (Namespace (Meta u)) (Name (Meta u))
                (after (UserRegistrationRequests_UpdateStatus_ env (Namespace (Meta u)) u) cl)
  = otherRequests (Namespace (Meta u)) (Name (Meta u)) cl.
Proof.
  unfold UserRegistrationRequests_UpdateStatus_, after, run, command, Store.updateStatusURR.
  cbn [cluster trace].
  destruct (unavailable env _); [reflexivity|].
  destruct (String.eqb _ ""); [reflexivity|].
  destruct (find _ _); [|reflexivity].
  apply (others_of_replaced _ _ (setStatus (Store.onWireStatus (Status u)))).
  intros v Hv. exact Hv.
Qed.

(** A write addressed to no name is refused and changes nothing. *)
Lemma UpdateStatus_unnamed env ns u cl :
  Name (Meta u) = "" ->
  after (UserRegistrationRequests_UpdateStatus_ env ns u) cl = cl /\
  exists e, snd (result (UserRegistrationRequests_UpdateStatus_ env ns u) cl) = Some e.
Proof.
  intros Hname.
  unfold UserRegistrationRequests_UpdateStatus_, after, result, run, command,
    Store.updateStatusURR.
  cbn [cluster trace]. rewrite Hname.
  destruct (unavailable env _); split; cbn; eauto.
Qed.

(** What [Update] returns: the object it was given, or the zero object
    with an error; on an error nothing is stored. *)
Lemma Update_returns env ns u cl :
  result (UserRegistrationRequests_Update_ env ns u) cl = (Store.onWire u, None) \/
  exists e, result (UserRegistrationRequests_Update_ env ns u) cl = (zeroURR, Some e) /\
            after (UserRegistrationRequests_Update_ env ns u) cl = cl.
Proof.
  unfold UserRegistrationRequests_Update_, result, after, run, command, Store.updateURR.
  cbn [cluster trace].
  destruct (unavailable env _); [right; eexists; split; reflexivity|].
  destruct (String.eqb _ ""); [right; eexists; split; reflexivity|].
  destruct (Store.existsURR _ _ cl); [left | right; eexists; split]; reflexivity.
Qed.

Lemma CreateSecretByPassword_keeps env u cl :
  UserRegistrationRequests (after (CreateSecretByPassword env u) cl)
  = UserRegistrationRequests cl.
Proof.
  unfold after, run, CreateSecretByPassword. cbn [cluster trace].
  destruct (_ || _); reflexivity.
Qed.

Lemma EmailVerifications_Create_keeps env ns e cl :
  UserRegistrationRequests (after (EmailVerifications_Create_ env ns e) cl)
  = UserRegistrationRequests cl /\
  Secrets (after (EmailVerifications_Create_ env ns e) cl) = Secrets cl.
Proof.
  unfold EmailVerifications_Create_, after, run, command, Store.createEmailVerification.
  cbn [cluster trace].
  destruct (unavailable env _); [split; reflexivity|].
  destruct (String.eqb _ ""); [split; reflexivity|].
  destruct (existsb _ _); split; reflexivity.
Qed.

Lemma Users_Create_keeps env ns a cl :
  UserRegistrationRequests (after (Users_Create_ env ns a) cl) = UserRegistrationRequests cl.
Proof.
  unfold Users_Create_, after, run, command, Store.createUser. cbn [cluster trace].
  destruct (unavailable env _); [reflexivity|].
  destruct (String.eqb _ ""); [reflexivity|].
  destruct (existsb _ _); reflexivity.
Qed.

Lemma otherRequests_ext ns name cl1 cl2 :
  UserRegistrationRequests cl1 = UserRegistrationRequests cl2 ->
  otherRequests ns name cl1 = otherRequests ns name cl2.
Proof. unfold otherRequests. now intros ->. Qed.

Section FreshRun.

Variables (env : Env) (u : UserRegistrationRequest) (cl : Cluster).

Let ns := Namespace (Meta u).
Let name := Name (Meta u).
Let created := ObjectCreated env (PtrUserRegistrationRequest u).

(** The cluster the fresh-creation path leaves, write by write. *)
Lemma ObjectCreated_fresh_after :
  IsDuplicate env u cl = false -> siteEnabled env u cl = true ->
  Expires (Status u) = None ->
  let URRCopy := setPassword (name +:+ "-pass") u in
  let cl1 := after (CreateSecretByPassword env u) cl in
  let upd := result (UserRegistrationRequests_Update_ env ns URRCopy) cl1 in
  let cl2 := after (UserRegistrationRequests_Update_ env ns URRCopy) cl1 in
  let URRCopyUpdated :=
    setStatus {| Approved := false; Expires := Some (now env + 72 * Hour) |} (fst upd) in
  let emailVerification :=
    {| ev_Meta := setName ("bs" +:+ generateRandomString env 16)
                          (setOwnerRefs (setOwnerReferences env URRCopyUpdated) zeroMeta);
       ev_Spec := {| ev_Kind := "User"; ev_Identifier := name |} |} in
  let cl3 := after (EmailVerifications_Create_ env ns emailVerification) cl2 in
  after created cl
  = after (UserRegistrationRequests_UpdateStatus_ env (Namespace (Meta (fst upd)))
                                                  URRCopyUpdated) cl3.
Proof.
  intros Hdup Hsite Hexp. cbv zeta.
  unfold IsDuplicate in Hdup. unfold siteEnabled in Hsite.
  subst created ns name. unfold after at 1. unfold ObjectCreated.
  rewrite run_bind by (intros; lawfulness).
  rewrite Hdup, after_checkUsernameEmailAddress. cbn [snd cluster].
  unfold after at 1.
  rewrite resolveSite_in_handler by (intros; lawfulness).
  cbn zeta. rewrite Hsite, Hexp. cbn [fst snd cluster trace].
  at_binds.
  match goal with
  | |- context [match ?x with Some _ => _ | None => _ end] => destruct x
  end; reflexivity.
Qed.

Lemma ObjectCreated_keeps_others :
  otherRequests ns name (after created cl) = otherRequests ns name cl.
Proof.
  destruct (IsDuplicate env u cl) eqn:Hdup.
  { unfold after. subst created. rewrite (ObjectCreated_duplicate env u cl Hdup).
    apply Delete_keeps_others. }
  destruct (siteEnabled env u cl) eqn:Hsite; cycle 1.
  { unfold after. subst created. rewrite (ObjectCreated_disabled env u cl Hdup Hsite).
    apply Delete_keeps_others. }
  destruct (Expires (Status u)) as [d|] eqn:Hexp.
  { unfold after. subst created. rewrite (ObjectCreated_replay env u cl d Hdup Hsite Hexp).
    reflexivity. }
  rewrite (ObjectCreated_fresh_after Hdup Hsite Hexp). cbv zeta.
  set (URRCopy := setPassword _ u).
  set (cl1 := after (CreateSecretByPassword env u) cl).
  transitivity (otherRequests ns name cl1);
    [|apply otherRequests_ext, CreateSecretByPassword_keeps].
  transitivity (otherRequests ns name (after (UserRegistrationRequests_Update_ env ns URRCopy) cl1));
    [|apply (Update_keeps_others env URRCopy)].
  destruct (Update_returns env ns URRCopy cl1) as [-> | [e [-> _]]]; cbn [fst].
  - refine (eq_trans
              (UpdateStatus_keeps_others env
                 (setStatus {| Approved := false; Expires := Some (now env + 72 * Hour) |}
                            (Store.onWire URRCopy)) _) _).
    apply otherRequests_ext, EmailVerifications_Create_keeps.
  - rewrite (proj1 (UpdateStatus_unnamed env (Namespace (Meta zeroURR))
                    (setStatus {| Approved := false; Expires := Some (now env + 72 * Hour) |}
                               zeroURR) _ eq_refl)).
    apply otherRequests_ext, EmailVerifications_Create_keeps.
Qed.

Let updated := ObjectUpdated env (PtrUserRegistrationRequest u).

Lemma ObjectUpdated_keeps_others :
  otherRequests ns name (after updated cl) = otherRequests ns name cl.
Proof.
  unfold after. subst updated.
  destruct (siteEnabled env u cl) eqn:Hsite; cycle 1.
  { rewrite (ObjectUpdated_disabled env u cl Hsite). apply Delete_keeps_others. }
  destruct (Approved (Status u)) eqn:Happ; cycle 1.
  { rewrite (ObjectUpdated_pending env u cl Hsite Happ). reflexivity. }
  destruct (IsDuplicate env u cl) eqn:Hdup.
  { rewrite (ObjectUpdated_duplicate env u cl Hsite Happ Hdup). apply Delete_keeps_others. }
  rewrite (ObjectUpdated_approved env u cl Hsite Happ Hdup). cbv zeta. cbn [snd cluster].
  rewrite Delete_keeps_others.
  apply otherRequests_ext.
  rewrite (proj1 (proj2 (Secrets_Update_keeps _ _ _ _))). apply Users_Create_keeps.
Qed.

End FreshRun.

(** X10.  Neither handler touches a request other than the one it was
    notified of: whatever the cluster holds and whatever the server
    answers, the requests stored under another namespace or another name
    are after the handler what they were before it, in the same order. *)
Theorem handlers_leave_other_requests env u cl :
  let others := otherRequests (Namespace (Meta u)) (Name (Meta u)) in
  others (after (ObjectCreated env (PtrUserRegistrationRequest u)) cl) = others cl /\
  others (after (ObjectUpdated env (PtrUserRegistrationRequest u)) cl) = others cl.
Proof.
  split; [apply ObjectCreated_keeps_others | apply ObjectUpdated_keeps_others].
Qed.

Lemma find_of_existsb {A} (p : A -> bool) (l : list A) :
  existsb p l = true -> exists a, find p l = Some a /\ p a = true.
Proof.
  induction l as [|a l IH]; cbn; [intros H; discriminate H|].
  destruct (p a) eqn:Hp; [eauto | exact IH].
Qed.

Lemma existsb_replaced ns name (g : UserRegistrationRequest -> UserRegistrationRequest) l :
  (forall v, Store.hasKey ns name (Meta v) = true -> Store.hasKey ns name (Meta (g v)) = true) ->
  existsb (fun v => Store.hasKey ns name (Meta v))
          (map (fun v => if Store.hasKey ns name (Meta v) then g v else v) l)
  = existsb (fun v => Store.hasKey ns name (Meta v)) l.
Proof.
  intros Hg. induction l as [|v l IH]; [reflexivity|]. cbn.
  destruct (Store.hasKey ns name (Meta v)) eqn:Hv; [now rewrite (Hg v Hv)|].
  now rewrite Hv, IH.
Qed.

Lemma map_replaced_twice ns name (a b : UserRegistrationRequest)
      (g : UserRegistrationRequest -> UserRegistrationRequest) l :
  Store.hasKey ns name (Meta a) = true -> g a = b ->
  map (fun v => if Store.hasKey ns name (Meta v) then g v else v)
      (map (fun v => if Store.hasKey ns name (Meta v) then a else v) l)
  = map (fun v => if Store.hasKey ns name (Meta v) then b else v) l.
Proof.
  intros Ha Hb. rewrite map_map. apply map_ext. intros v.
  destruct (Store.hasKey ns name (Meta v)) eqn:Hv; [now rewrite Ha | now rewrite Hv].
Qed.

(** [Update] of a request without deadline that is stored, answered by
    the server. *)
Lemma Update_stored env u cl :
  Expires (Status u) = None ->
  Name (Meta u) <> "" ->
  unavailable env (UserRegistrationRequests_Update (Namespace (Meta u)) u) = false ->
  Store.existsURR (Namespace (Meta u)) (Name (Meta u)) cl = true ->
  result (UserRegistrationRequests_Update_ env (Namespace (Meta u)) u) cl = (u, None) /\
  UserRegistrationRequests
    (after (UserRegistrationRequests_Update_ env (Namespace (Meta u)) u) cl)
  = map (fun v => if Store.hasKey (Namespace (Meta u)) (Name (Meta u)) (Meta v) then u else v)
        (UserRegistrationRequests cl).
Proof.
  intros Hexp Hname Hup Hex.
  unfold UserRegistrationRequests_Update_, result, after, run, command, Store.updateURR.
  cbn [cluster trace]. rewrite Hup, Hex, (onWire_no_deadline u Hexp).
  destruct (String.eqb_spec (Name (Meta u)) ""); [contradiction|]. split; reflexivity.
Qed.

(** [UpdateStatus] of a request that is stored, answered by the server. *)
Lemma UpdateStatus_stored env u cl :
  Name (Meta u) <> "" ->
  unavailable env (UserRegistrationRequests_UpdateStatus (Namespace (Meta u)) u) = false ->
  Store.existsURR (Namespace (Meta u)) (Name (Meta u)) cl = true ->
  snd (result (UserRegistrationRequests_UpdateStatus_ env (Namespace (Meta u)) u) cl) = None /\
  UserRegistrationRequests
    (after (UserRegistrationRequests_UpdateStatus_ env (Namespace (Meta u)) u) cl)
  = map (fun v => if Store.hasKey (Namespace (Meta u)) (Name (Meta u)) (Meta v)
                  then setStatus (Store.onWireStatus (Status u)) v else v)
        (UserRegistrationRequests cl).
Proof.
  intros Hname Hup Hex.
  unfold UserRegistrationRequests_UpdateStatus_, result, after, run, command,
    Store.updateStatusURR.
  cbn [cluster trace]. rewrite Hup.
  destruct (String.eqb_spec (Name (Meta u)) ""); [contradiction|].
  destruct (find_of_existsb _ _ Hex) as (v & -> & _). split; reflexivity.
Qed.

(** Why the server refuses an [Update]: it is unavailable, the object has
    no name, or no object is stored under its name. *)
Lemma Update_refused env ns u cl :
  unavailable env (UserRegistrationRequests_Update ns u) = true \/
  Name (Meta u) = "" \/ Store.existsURR ns (Name (Meta u)) cl = false ->
  exists e,
    result (UserRegistrationRequests_Update_ env ns u) cl = (zeroURR, Some e) /\
    after (UserRegistrationRequests_Update_ env ns u) cl = cl.
Proof.
  intros Hwhy.
  unfold UserRegistrationRequests_Update_, result, after, run, command, Store.updateURR.
  cbn [cluster trace].
  destruct (unavailable env _); [eexists; split; reflexivity|].
  destruct (String.eqb_spec (Name (Meta u)) ""); [eexists; split; reflexivity|].
  destruct (Store.existsURR _ _ cl); [|eexists; split; reflexivity].
  destruct Hwhy as [H | [H | H]]; [discriminate H | contradiction | discriminate H].
Qed.

Section Created.

Variables (env : Env) (u : UserRegistrationRequest) (cl : Cluster).

Let ns := Namespace (Meta u).
Let name := Name (Meta u).
Let created := ObjectCreated env (PtrUserRegistrationRequest u).
Let delete := UserRegistrationRequests_Delete ns name.
Let URRCopy := setPassword (name +:+ "-pass") u.
Let deadline := {| Approved := false; Expires := Some (now env + 72 * Hour) |}.

(** The calls of the fresh-creation path, each with what it returned. *)
Lemma ObjectCreated_fresh_calls :
  IsDuplicate env u cl = false -> siteEnabled env u cl = true ->
  Expires (Status u) = None ->
  let cl1 := after (CreateSecretByPassword env u) cl in
  let upd := result (UserRegistrationRequests_Update_ env ns URRCopy) cl1 in
  let cl2 := after (UserRegistrationRequests_Update_ env ns URRCopy) cl1 in
  let URRCopyUpdated := setStatus deadline (fst upd) in
  let emailVerificationCode := "bs" +:+ generateRandomString env 16 in
  let emailVerification :=
    {| ev_Meta := setName emailVerificationCode
                          (setOwnerRefs (setOwnerReferences env URRCopyUpdated) zeroMeta);
       ev_Spec := {| ev_Kind := "User"; ev_Identifier := name |} |} in
  let e2 := snd (result (EmailVerifications_Create_ env ns emailVerification) cl2) in
  let cl3 := after (EmailVerifications_Create_ env ns emailVerification) cl2 in
  let e3 := snd (result (UserRegistrationRequests_UpdateStatus_
                           env (Namespace (Meta (fst upd))) URRCopyUpdated) cl3) in
  let contentData :=
    {| cd_Site := label (ns_Meta (fst (result (Namespaces_Get_ env ns) cl))) "site-name";
       cd_Username := Name (Meta (fst upd));
       cd_Name := FirstName (Spec (fst upd)) +:+ " " +:+ LastName (Spec (fst upd));
       cd_Email := [Email (Spec (fst upd))];
       cd_Code := emailVerificationCode |} in
  calls created cl =
    calls (checkUsernameEmailAddress env u) cl ++ calls (resolveSite env u) cl ++
    [(registration_CreateSecretByPassword u, None);
     (UserRegistrationRequests_Update ns URRCopy, snd upd);
     (go_runApprovalTimeout (fst upd), None);
     (shared_assign
        (setStatus {| Approved := false; Expires := Expires (Status (fst upd)) |} (fst upd)),
      None);
     (shared_assign URRCopyUpdated, None);
     (EmailVerifications_Create ns emailVerification, e2)] ++
    match e2 with
    | None => [(mailer_Send "user-email-verification" contentData, None)]
    | Some _ => []
    end ++
    [(UserRegistrationRequests_UpdateStatus (Namespace (Meta (fst upd))) URRCopyUpdated, e3)].
Proof.
  intros Hdup Hsite Hexp. cbv zeta.
  unfold IsDuplicate in Hdup. unfold siteEnabled in Hsite.
  subst created ns name URRCopy deadline. unfold calls at 1. unfold ObjectCreated.
  rewrite run_bind by (intros; lawfulness).
  rewrite Hdup, after_checkUsernameEmailAddress.
  unfold result at 1, after at 1, calls at 2.
  rewrite resolveSite_in_handler by (intros; lawfulness).
  cbn zeta. rewrite Hsite, Hexp. cbn [fst snd cluster trace].
  at_binds. cbn [Namespace Meta Name setPassword].
  destruct (snd (result (EmailVerifications_Create_ env _ _) _));
    autorewrite with handler; reflexivity.
Qed.

(** X11.  A create notification for a request that is stored, has a
    name, is no duplicate, is on an enabled site and has no deadline yet,
    with the two writes answered: the request is stored with the name of
    its password secret, [<name>-pass], with [approved=false] and with a
    deadline that is 72 hours from now cut to the second, the status
    having travelled as JSON: at most 72 hours from now and less than a
    second earlier.  Every other request is as it was, and no request is
    added or removed. *)
Theorem admission_stores_secret_name_and_deadline :
  IsDuplicate env u cl = false -> siteEnabled env u cl = true ->
  Expires (Status u) = None ->
  name <> "" -> Store.existsURR ns name cl = true ->
  unavailable env (UserRegistrationRequests_Update ns URRCopy) = false ->
  unavailable env (UserRegistrationRequests_UpdateStatus ns (setStatus deadline URRCopy))
  = false ->
  let stored :=
    {| Approved := false; Expires := Some (Store.wholeSeconds (now env + 72 * Hour)) |} in
  UserRegistrationRequests (after created cl)
  = map (fun v => if Store.hasKey ns name (Meta v) then setStatus stored URRCopy else v)
        (UserRegistrationRequests cl) /\
  now env + 72 * Hour - Store.Second < Store.wholeSeconds (now env + 72 * Hour)
                                     <= now env + 72 * Hour.
Proof.
  intros Hdup Hsite Hexp Hname Hex Hup Hst stored.
  split; [|pose proof (wholeSeconds_bounds (now env + 72 * Hour)); lia].
  subst created.
  rewrite (ObjectCreated_fresh_after env u cl Hdup Hsite Hexp). cbv zeta.
  set (cl1 := after (CreateSecretByPassword env u) cl).
  assert (Hex1 : Store.existsURR ns name cl1 = true).
  { unfold Store.existsURR, cl1. rewrite CreateSecretByPassword_keeps. exact Hex. }
  destruct (Update_stored env URRCopy cl1 Hexp Hname Hup Hex1) as [Hres Hcl2].
  fold ns name URRCopy. change (Namespace (Meta URRCopy)) with ns in Hres, Hcl2.
  change (Name (Meta URRCopy)) with name in Hcl2.
  rewrite Hres. cbn [fst].
  set (cl3 := after (EmailVerifications_Create_ env ns _) _).
  assert (Hcl3 : UserRegistrationRequests cl3
                 = map (fun v => if Store.hasKey ns name (Meta v) then URRCopy else v)
                       (UserRegistrationRequests cl)).
  { unfold cl3. rewrite (proj1 (EmailVerifications_Create_keeps _ _ _ _)), Hcl2.
    unfold cl1. now rewrite CreateSecretByPassword_keeps. }
  assert (Hex3 : Store.existsURR ns name cl3 = true).
  { unfold Store.existsURR. rewrite Hcl3.
    rewrite (existsb_replaced ns name (fun _ => URRCopy)); [exact Hex|].
    intros v _. apply (hasKey_own URRCopy). }
  destruct (UpdateStatus_stored env (setStatus deadline URRCopy) cl3 Hname Hst Hex3)
    as [_ Hfin].
  refine (eq_trans Hfin _). rewrite Hcl3.
  apply (map_replaced_twice ns name URRCopy); [apply (hasKey_own URRCopy) | reflexivity].
Qed.

(** X12.  A create notification for a duplicate, or for a request whose
    site does not read as enabled, deletes the request and does nothing
    else, whatever its status: no password secret and no email
    verification is created, no mail is sent and no supervisor is
    started.  A duplicate is deleted without the site being looked up. *)
Theorem rejected_creation_only_deletes :
  IsDuplicate env u cl = true \/ siteEnabled env u cl = false ->
  exists e,
    effects (calls created cl) = [(delete, e)] /\
    (IsDuplicate env u cl = true ->
     calls created cl = calls (checkUsernameEmailAddress env u) cl ++ [(delete, e)]) /\
    Users (after created cl) = Users cl /\
    Secrets (after created cl) = Secrets cl /\
    EmailVerifications (after created cl) = EmailVerifications cl /\
    (e = None -> Store.existsURR ns name (after created cl) = false).
Proof.
  intros Hwhy. subst created delete.
  exists (snd (result (UserRegistrationRequests_Delete_ env ns name) cl)).
  destruct (delete_keeps_the_rest env ns name cl) as (HU & HS & HE).
  unfold after, calls.
  destruct (IsDuplicate env u cl) eqn:Hdup.
  - rewrite (ObjectCreated_duplicate env u cl Hdup). cbn [snd cluster trace].
    autorewrite with handler.
    rewrite effects_app, effects_checkUsernameEmailAddress.
    repeat split; try assumption. apply deleted_is_gone.
  - destruct Hwhy as [Hwhy | Hsite]; [discriminate Hwhy|].
    rewrite (ObjectCreated_disabled env u cl Hdup Hsite). cbn [snd cluster trace].
    autorewrite with handler.
    rewrite !effects_app, effects_checkUsernameEmailAddress, effects_resolveSite.
    repeat split; try assumption; [intros H; discriminate H | apply deleted_is_gone].
Qed.

(** X13.  A create notification for a request that passes both checks
    and has no deadline yet, when the write of the secret reference is
    refused: the server is unavailable, the request has no name, or it is
    no longer stored.  The error of [Update] is dropped and the handler
    goes on with the zero object [Update] returned.  The supervisor is
    started on that object, which names no request; the status write at
    the end is addressed to the empty namespace and the empty name and is
    refused; the stored requests are as they were, so no deadline is
    stored.  The email verification is still asked for, owned by a
    reference with no name and no UID, and the mail that follows its
    creation is made out to the empty username and the empty address. *)
Theorem refused_update_starts_supervisor_on_zero_request :
  IsDuplicate env u cl = false -> siteEnabled env u cl = true ->
  Expires (Status u) = None ->
  unavailable env (UserRegistrationRequests_Update ns URRCopy) = true \/
  name = "" \/ Store.existsURR ns name cl = false ->
  UserRegistrationRequests (after created cl) = UserRegistrationRequests cl /\
  exists err e3 e owner data,
    supervising (calls created cl)
    = [(UserRegistrationRequests_Update ns URRCopy, Some err);
       (go_runApprovalTimeout zeroURR, None);
       (UserRegistrationRequests_UpdateStatus "" (setStatus deadline zeroURR), Some e3)] /\
    or_Name owner = "" /\ or_UID owner = "" /\
    cd_Username data = "" /\ cd_Email data = [""] /\
    spawned (calls created cl)
    = (EmailVerifications_Create ns
         {| ev_Meta := setName ("bs" +:+ generateRandomString env 16)
                               (setOwnerRefs [owner] zeroMeta);
            ev_Spec := {| ev_Kind := "User"; ev_Identifier := name |} |}, e)
      :: match e with
         | None => [(mailer_Send "user-email-verification" data, None)]
         | Some _ => []
         end.
Proof.
  intros Hdup Hsite Hexp Hwhy.
  set (cl1 := after (CreateSecretByPassword env u) cl).
  assert (Hwhy1 : unavailable env (UserRegistrationRequests_Update ns URRCopy) = true \/
                  Name (Meta URRCopy) = "" \/
                  Store.existsURR ns (Name (Meta URRCopy)) cl1 = false).
  { destruct Hwhy as [H | [H | H]]; auto. right; right.
    unfold Store.existsURR, cl1. rewrite CreateSecretByPassword_keeps. exact H. }
  destruct (Update_refused env ns URRCopy cl1 Hwhy1) as (err & Hres & Hcl2).
  split.
  - subst created. rewrite (ObjectCreated_fresh_after env u cl Hdup Hsite Hexp). cbv zeta.
    fold ns name URRCopy cl1. rewrite Hres, Hcl2. cbn [fst].
    rewrite (proj1 (UpdateStatus_unnamed env (Namespace (Meta zeroURR))
                      (setStatus {| Approved := false; Expires := Some (now env + 72 * Hour) |}
                                 zeroURR) _ eq_refl)).
    rewrite (proj1 (EmailVerifications_Create_keeps _ _ _ _)).
    apply CreateSecretByPassword_keeps.
  - pose proof (ObjectCreated_fresh_calls Hdup Hsite Hexp) as Hcalls. cbv zeta in Hcalls.
    fold cl1 in Hcalls. rewrite Hres, Hcl2 in Hcalls. cbn [fst snd] in Hcalls.
    set (e2 := snd (result (EmailVerifications_Create_ env _ _) _)) in Hcalls.
    set (e3 := snd (result (UserRegistrationRequests_UpdateStatus_ env _ _) _)) in Hcalls.
    assert (He3 : exists e, e3 = Some e) by (apply UpdateStatus_unnamed; reflexivity).
    destruct He3 as [e He3]. rewrite He3 in Hcalls.
    exists err, e, e2. eexists. eexists.
    rewrite Hcalls, !supervising_app, !spawned_app.
    rewrite (supervising_of_listings _ (listing_checkUsernameEmailAddress env u cl)).
    rewrite (spawned_of_listings _ (listing_checkUsernameEmailAddress env u cl)).
    destruct (calls_resolveSite env u cl) as (e1 & s & e' & ->).
    split; [destruct e2; reflexivity|].
    split; [|split; [|split; [|split]]]; cycle 4.
    + destruct e2; reflexivity.
    + reflexivity.
    + reflexivity.
    + reflexivity.
    + reflexivity.
Qed.

End Created.

Lemma admission_stores_secret_name_and_deadline_witness :
  UserRegistrationRequests
    (after (ObjectCreated Fixture.env0 (PtrUserRegistrationRequest Fixture.alice))
           Fixture.clusterAB)
  = [setStatus {| Approved := false; Expires := Some 259200000000000 |}
               (setPassword "alice-pass" Fixture.alice);
     Fixture.bob] /\
  1000 + 72 * Hour - Store.Second < 259200000000000 <= 1000 + 72 * Hour.
Proof.
  apply (admission_stores_secret_name_and_deadline Fixture.env0 Fixture.alice
           Fixture.clusterAB); try reflexivity.
  intros H; discriminate H.
Defined.

Lemma rejected_creation_only_deletes_witness :
  exists e,
    effects (calls (ObjectCreated Fixture.env0 (PtrUserRegistrationRequest Fixture.bob))
                   Fixture.clusterAB)
    = [(UserRegistrationRequests_Delete "site-b" "bob", e)] /\
    (IsDuplicate Fixture.env0 Fixture.bob Fixture.clusterAB = true ->
     calls (ObjectCreated Fixture.env0 (PtrUserRegistrationRequest Fixture.bob))
           Fixture.clusterAB
     = calls (checkUsernameEmailAddress Fixture.env0 Fixture.bob) Fixture.clusterAB
       ++ [(UserRegistrationRequests_Delete "site-b" "bob", e)]) /\
    Users (after (ObjectCreated Fixture.env0 (PtrUserRegistrationRequest Fixture.bob))
                 Fixture.clusterAB)
    = [] /\
    Secrets (after (ObjectCreated Fixture.env0 (PtrUserRegistrationRequest Fixture.bob))
                   Fixture.clusterAB)
    = [] /\
    EmailVerifications
      (after (ObjectCreated Fixture.env0 (PtrUserRegistrationRequest Fixture.bob))
             Fixture.clusterAB)
    = [] /\
    (e = None ->
     Store.existsURR "site-b" "bob"
       (after (ObjectCreated Fixture.env0 (PtrUserRegistrationRequest Fixture.bob))
              Fixture.clusterAB)
     = false).
Proof.
  apply (rejected_creation_only_deletes Fixture.env0 Fixture.bob Fixture.clusterAB).
  right. reflexivity.
Defined.

Lemma refused_update_starts_supervisor_on_zero_request_witness :
  UserRegistrationRequests
    (after (ObjectCreated Fixture.env0 (PtrUserRegistrationRequest Fixture.alice))
           (Fixture.withRequests [Fixture.bob] Fixture.cluster0))
  = [Fixture.bob] /\
  exists err e3 e owner data,
    supervising
      (calls (ObjectCreated Fixture.env0 (PtrUserRegistrationRequest Fixture.alice))
             (Fixture.withRequests [Fixture.bob] Fixture.cluster0))
    = [(UserRegistrationRequests_Update "site-a" (setPassword "alice-pass" Fixture.alice),
        Some err);
       (go_runApprovalTimeout zeroURR, None);
       (UserRegistrationRequests_UpdateStatus ""
          (setStatus {| Approved := false; Expires := Some 259200000001000 |} zeroURR),
        Some e3)] /\
    or_Name owner = "" /\ or_UID owner = "" /\
    cd_Username data = "" /\ cd_Email data = [""] /\
    spawned
      (calls (ObjectCreated Fixture.env0 (PtrUserRegistrationRequest Fixture.alice))
             (Fixture.withRequests [Fixture.bob] Fixture.cluster0))
    = (EmailVerifications_Create "site-a"
         {| ev_Meta := setName "bsabcdefghijklmnop" (setOwnerRefs [owner] zeroMeta);
            ev_Spec := {| ev_Kind := "User"; ev_Identifier := "alice" |} |}, e)
      :: match e with
         | None => [(mailer_Send "user-email-verification" data, None)]
         | Some _ => []
         end.
Proof.
  apply (refused_update_starts_supervisor_on_zero_request
           Fixture.env0 Fixture.alice (Fixture.withRequests [Fixture.bob] Fixture.cluster0));
    try reflexivity.
  right; right. reflexivity.
Defined.

(** ** The start of the supervisor on the fresh-creation path *)







Section HandOver.

Import runApprovalTimeout.




End HandOver.

(** ** More of the supervisor *)

Section Supervisor.

Import runApprovalTimeout.

Variable URRCopy : UserRegistrationRequest.

Let key := (Namespace (Meta URRCopy), Name (Meta URRCopy)).

(** The goroutine of the watch moves neither the loop nor the list of
    deletions. *)
Lemma observe_main ev s :
  main (observe URRCopy ev s) = main s /\ deletions (observe URRCopy ev s) = deletions s.
Proof.
  unfold observe. destruct (Object_ ev); try (split; reflexivity).
  destruct (String.eqb _ _); [split; reflexivity|].
  destruct (Approved _); [split; reflexivity|].
  destruct (Expires (Status u)); [|split; reflexivity].
  destruct (Expires (Status URRCopy)); [destruct (negb _)|]; split; reflexivity.
Qed.

Lemma watcherStep_main s s' :
  watcherStep URRCopy s = Some s' ->
  main s' = main s /\ deletions s' = deletions s /\
  closed (chan_registrationApproved s') = closed (chan_registrationApproved s) /\
  closed (chan_timeoutRenewed s') = closed (chan_timeoutRenewed s) /\
  closed (chan_terminated s') = closed (chan_terminated s).
Proof.
  unfold watcherStep. intros Hstep.
  destruct (watcher s) as [| | n k | |]; try discriminate Hstep.
  - destruct (watchURR s) as [w|]; [|discriminate Hstep].
    destruct (stopped w); [injection Hstep as <-; repeat split|].
    destruct (pending w) as [|ev rest]; [discriminate Hstep|].
    injection Hstep as <-.
    destruct (observe_main ev (setWatch (Some {| pending := rest; stopped := false |}) s))
      as [-> ->].
    unfold observe. repeat split; try reflexivity;
      (destruct (Object_ ev); try reflexivity;
       destruct (String.eqb _ _); [reflexivity|];
       destruct (Approved _); [reflexivity|];
       destruct (Expires (Status u)); [|reflexivity];
       destruct (Expires (Status URRCopy)); [destruct (negb _)|]; reflexivity).
  - destruct (closed (chan n s)) eqn:Hcl; [injection Hstep as <-; repeat split|].
    destruct (buffered (chan n s)); [discriminate Hstep|].
    injection Hstep as <-. destruct n; cbn in *; repeat split; congruence.
Qed.

Lemma start_accounted t0 watchResult : accounted URRCopy (start URRCopy t0 watchResult).
Proof. reflexivity. Qed.

Lemma step_accounted s a s' :
  accounted URRCopy s -> step URRCopy s a = Some s' -> accounted URRCopy s'.
Proof.
  unfold accounted. intros Hs Hstep.
  destruct a as [d | | | c]; cbn in Hstep.
  - injection Hstep as <-. exact Hs.
  - destruct (panicked s); [discriminate Hstep|].
    destruct (watcherStep_main s s' Hstep) as (-> & -> & _). exact Hs.
  - destruct (main s) eqn:Hm; try discriminate Hstep.
    destruct (panicked s); [discriminate Hstep|]. injection Hstep as <-. exact Hs.
  - destruct (main s) as [| timer | |] eqn:Hm; try discriminate Hstep.
    destruct (panicked s); [discriminate Hstep|].
    destruct (ready c timer s); [|discriminate Hstep].
    injection Hstep as <-.
    destruct c; unfold fire, Stop; cbn; destruct (watchURR s); cbn; try exact Hs.
    now rewrite Hs.
Qed.

Lemma run_accounted schedule : forall s s',
  accounted URRCopy s -> run URRCopy s schedule = Some s' -> accounted URRCopy s'.
Proof.
  induction schedule as [|a rest IH]; intros s s' Hs Hrun; cbn in Hrun.
  - now injection Hrun as <-.
  - destruct (step URRCopy s a) as [s1|] eqn:Hstep; [|discriminate Hrun].
    eapply IH; [|exact Hrun]. eapply step_accounted; eassumption.
Qed.

(** A loop that has finished makes no further move. *)
Lemma step_finished s a s' t :
  main s = Finished t -> step URRCopy s a = Some s' ->
  main s' = Finished t /\ deletions s' = deletions s.
Proof.
  intros Hm Hstep. destruct a as [d | | | c]; cbn in Hstep.
  - injection Hstep as <-. split; [exact Hm | reflexivity].
  - destruct (panicked s); [discriminate Hstep|].
    destruct (watcherStep_main s s' Hstep) as (-> & -> & _). split; [exact Hm | reflexivity].
  - rewrite Hm in Hstep. discriminate Hstep.
  - rewrite Hm in Hstep. discriminate Hstep.
Qed.

Lemma run_finished schedule : forall s s' t,
  main s = Finished t -> run URRCopy s schedule = Some s' ->
  main s' = Finished t /\ deletions s' = deletions s.
Proof.
  induction schedule as [|a rest IH]; intros s s' t Hm Hrun; cbn in Hrun.
  - injection Hrun as <-. split; [exact Hm | reflexivity].
  - destruct (step URRCopy s a) as [s1|] eqn:Hstep; [|discriminate Hrun].
    destruct (step_finished s a s1 t Hm Hstep) as [Hm1 Hd1].
    destruct (IH s1 s' t Hm1 Hrun) as [Hm' Hd']. split; congruence.
Qed.

Lemma start_shutDown t0 watchResult : shutDown (start URRCopy t0 watchResult).
Proof. exact I. Qed.

Lemma step_shutDown s a s' : shutDown s -> step URRCopy s a = Some s' -> shutDown s'.
Proof.
  unfold shutDown. intros Hs Hstep.
  destruct a as [d | | | c]; cbn in Hstep.
  - injection Hstep as <-. exact Hs.
  - destruct (panicked s); [discriminate Hstep|].
    destruct (watcherStep_main s s' Hstep) as (-> & _ & -> & -> & ->). exact Hs.
  - destruct (main s) eqn:Hm; try discriminate Hstep.
    destruct (panicked s); [discriminate Hstep|]. injection Hstep as <-. exact I.
  - destruct (main s) as [| timer | |] eqn:Hm; try discriminate Hstep.
    destruct (panicked s); [discriminate Hstep|].
    destruct (ready c timer s); [|discriminate Hstep].
    injection Hstep as <-.
    destruct c; unfold fire, Stop; cbn; destruct (watchURR s); cbn; auto.
Qed.

Lemma run_shutDown schedule : forall s s',
  shutDown s -> run URRCopy s schedule = Some s' -> shutDown s'.
Proof.
  induction schedule as [|a rest IH]; intros s s' Hs Hrun; cbn in Hrun.
  - now injection Hrun as <-.
  - destruct (step URRCopy s a) as [s1|] eqn:Hstep; [|discriminate Hrun].
    eapply IH; [|exact Hrun]. eapply step_shutDown; eassumption.
Qed.

(** X14.  In every run of a supervisor, with a watch or without: it
    deletes at most one request, the one it was started for, and it has
    deleted it exactly when its loop has finished as [EXPIRED].  A loop
    that has finished stays finished: whatever moves follow, it ends as it
    did and deletes nothing more. *)
Theorem supervisor_deletes_own_request_once t0 watchResult schedule s :
  run URRCopy (start URRCopy t0 watchResult) schedule = Some s ->
  (main s = Finished EXPIRED -> deletions s = [key]) /\
  (main s <> Finished EXPIRED -> deletions s = []) /\
  (forall t more s',
      main s = Finished t -> run URRCopy s more = Some s' ->
      main s' = Finished t /\ deletions s' = deletions s).
Proof.
  intros Hrun.
  pose proof (run_accounted schedule _ _ (start_accounted t0 watchResult) Hrun) as Hs.
  unfold accounted in Hs. split; [|split].
  - intros Hm. now rewrite Hm in Hs.
  - intros Hm. destruct (main s) as [| | [| |] |]; try exact Hs. now destruct Hm.
  - intros t more s' Hm Hmore. exact (run_finished more s s' t Hm Hmore).
Qed.

(** X15.  In every run of a supervisor whose watch was established:
    when the loop is about to select and the timer in [timeout] has fired,
    or fires while the select waits, the select can take the timeout; the
    supervisor then stops the watch, deletes its request, closes the three
    channels and finishes as [EXPIRED]. *)
Theorem fired_deadline_deletes_request t0 evs schedule s t d :
  run URRCopy (start URRCopy t0 (Some evs)) schedule = Some s ->
  main s = Looping -> timeout s = Some t -> t <= clock s + Z.of_N d ->
  exists s',
    run URRCopy s [Enter; Tick d; Fire case_timeout] = Some s' /\
    main s' = Finished EXPIRED /\ deletions s' = [key] /\
    (exists w, watchURR s' = Some w /\ stopped w = true) /\
    closed (chan_registrationApproved s') = true /\
    closed (chan_timeoutRenewed s') = true /\
    closed (chan_terminated s') = true.
Proof.
  intros Hrun Hm Ht Hle.
  pose proof (run_watching URRCopy schedule _ _ (start_watching URRCopy t0 evs) Hrun) as Hs.
  destruct s as [clk ca cr ct tmo w g m ds]; cbn in *. subst m tmo.
  unfold watching in Hs; cbn in Hs.
  destruct w as [w|]; [|contradiction].
  destruct Hs as (Hd & Hg & _). subst ds.
  unfold panicked; cbn.
  assert (Hfired : (t <=? clk + Z.of_N d) = true) by now apply Z.leb_le.
  destruct g; try (now destruct Hg); cbn; rewrite Hfired; cbn;
    (eexists; split; [reflexivity|]; cbn; repeat split; eauto).
Qed.

(** X16.  In every run of a supervisor whose watch was established: once
    the loop has finished the three channels are closed, so a send the
    goroutine of the watch has not yet made, whichever channel it is for,
    panics at its next move. *)
Theorem send_after_finish_panics t0 evs schedule s t n k :
  run URRCopy (start URRCopy t0 (Some evs)) schedule = Some s ->
  main s = Finished t -> watcher s = Sending n k ->
  closed (chan n s) = true /\
  exists s',
    step URRCopy s WatcherStep = Some s' /\
    watcher s' = WatcherPanicked /\ panicked s' = true.
Proof.
  intros Hrun Hm Hg.
  pose proof (run_shutDown schedule _ _ (start_shutDown t0 (Some evs)) Hrun) as Hs.
  unfold shutDown in Hs. rewrite Hm in Hs. destruct Hs as (Ha & Hr & Ht).
  assert (Hcl : closed (chan n s) = true) by (destruct n; assumption).
  split; [exact Hcl|].
  unfold step, panicked, watcherStep. rewrite Hm, Hg, Hcl.
  eexists. split; [reflexivity|]. cbn. split; [reflexivity|].
  now rewrite Hm.
Qed.

Lemma start_unarmed t0 evs :
  Expires (Status URRCopy) = None -> Forall bringsNoDeadline evs ->
  unarmed (start URRCopy t0 (Some evs)).
Proof.
  intros Hexp Hevs. unfold unarmed, start; cbn. rewrite Hexp. repeat split. exact Hevs.
Qed.

Lemma step_unarmed s a s' : unarmed s -> step URRCopy s a = Some s' -> unarmed s'.
Proof.
  intros (Ht & Hd & Hm & Hw) Hstep.
  destruct s as [clk ca cr ct tmo w g m ds]; cbn in *. subst tmo ds.
  destruct a as [d | | | c]; cbn in Hstep.
  - injection Hstep as <-. unfold unarmed; cbn. auto.
  - destruct (panicked _); [discriminate Hstep|].
    unfold watcherStep in Hstep; cbn in Hstep.
    destruct g as [| | n k | |]; try discriminate Hstep.
    + destruct w as [w|]; [|discriminate Hstep].
      destruct (stopped w); [injection Hstep as <-; unfold unarmed; cbn; auto|].
      destruct (pending w) as [|ev rest] eqn:Hp; [discriminate Hstep|].
      injection Hstep as <-. cbn in Hw. inversion Hw as [|? ? Hev Hrest]; subst.
      unfold observe; cbn.
      destruct (Object_ ev) eqn:Hobj; try (unfold unarmed; cbn; now auto).
      destruct (String.eqb _ _); [unfold unarmed; cbn; now auto|].
      destruct (Approved _); [unfold unarmed; cbn; now auto|].
      rewrite (Hev _ Hobj). unfold unarmed; cbn; auto.
    + destruct n; cbn in Hstep;
        match type of Hstep with
        | (if closed ?c then _ else _) = _ => destruct (closed c), (buffered c)
        end;
        try discriminate Hstep; injection Hstep as <-; unfold unarmed; cbn; auto.
  - destruct m; try discriminate Hstep.
    destruct (panicked _); [discriminate Hstep|]. injection Hstep as <-.
    unfold unarmed; cbn. auto.
  - destruct m as [| timer | |]; try discriminate Hstep. subst timer.
    destruct (panicked _); [discriminate Hstep|].
    destruct c; cbn in Hstep; try discriminate Hstep;
      match type of Hstep with
      | (if ?b then _ else _) = _ => destruct b
      end;
      try discriminate Hstep; injection Hstep as <-;
      unfold unarmed, fire, Stop; cbn; destruct w; cbn; auto.
Qed.

Lemma run_unarmed schedule : forall s s',
  unarmed s -> run URRCopy s schedule = Some s' -> unarmed s'.
Proof.
  induction schedule as [|a rest IH]; intros s s' Hs Hrun; cbn in Hrun.
  - now injection Hrun as <-.
  - destruct (step URRCopy s a) as [s1|] eqn:Hstep; [|discriminate Hrun].
    eapply IH; [|exact Hrun]. eapply step_unarmed; eassumption.
Qed.

(** X17.  A supervisor started on a request without a deadline, whose
    watch delivers no event that brings one, never arms a timer: however
    much time passes, the select cannot take the timeout, the request is
    not deleted and the loop does not finish as [EXPIRED]. *)
Theorem no_deadline_no_expiry t0 evs schedule s :
  Expires (Status URRCopy) = None -> Forall bringsNoDeadline evs ->
  run URRCopy (start URRCopy t0 (Some evs)) schedule = Some s ->
  timeout s = None /\ deletions s = [] /\ main s <> Finished EXPIRED /\
  forall d, run URRCopy s [Tick d; Fire case_timeout] = None.
Proof.
  intros Hexp Hevs Hrun.
  destruct (run_unarmed schedule _ _ (start_unarmed t0 evs Hexp Hevs) Hrun)
    as (Ht & Hd & Hm & _).
  split; [exact Ht|]. split; [exact Hd|]. split.
  - intros Heq. now rewrite Heq in Hm.
  - intros d. cbn. destruct (main s) as [| timer | |]; try reflexivity.
    subst timer. destruct (panicked _); reflexivity.
Qed.



End Supervisor.

Section SupervisorRuns.

Import runApprovalTimeout.

Lemma supervisor_deletes_own_request_once_witness :
  deletions Scenario.unsent = [("site-a", "alice")].
Proof.
  refine (proj1 (supervisor_deletes_own_request_once Fixture.alicePending 1000
                   (Some [Fixture.approval])
                   [WatcherStep; Enter; Tick Scenario.threeDays; Fire case_timeout]
                   Scenario.unsent _) _);
    vm_compute; reflexivity.
Defined.

Lemma fired_deadline_deletes_request_witness :
  exists s',
    run Fixture.alicePending (start Fixture.alicePending 1000 (Some [Fixture.approval]))
        [Enter; Tick Scenario.threeDays; Fire case_timeout] = Some s' /\
    main s' = Finished EXPIRED /\ deletions s' = [("site-a", "alice")] /\
    (exists w, watchURR s' = Some w /\ stopped w = true) /\
    closed (chan_registrationApproved s') = true /\
    closed (chan_timeoutRenewed s') = true /\
    closed (chan_terminated s') = true.
Proof.
  apply (fired_deadline_deletes_request Fixture.alicePending 1000 [Fixture.approval] []
           (start Fixture.alicePending 1000 (Some [Fixture.approval]))
           259200000001000 Scenario.threeDays);
    vm_compute; try reflexivity. intros H; discriminate H.
Defined.

Lemma send_after_finish_panics_witness :
  closed (chan registrationApproved Scenario.unsent) = true /\
  exists s',
    step Fixture.alicePending Scenario.unsent WatcherStep = Some s' /\
    watcher s' = WatcherPanicked /\ panicked s' = true.
Proof.
  apply (send_after_finish_panics Fixture.alicePending 1000 [Fixture.approval]
           [WatcherStep; Enter; Tick Scenario.threeDays; Fire case_timeout]
           Scenario.unsent EXPIRED registrationApproved false);
    vm_compute; reflexivity.
Defined.

Lemma no_deadline_no_expiry_witness :
  timeout Scenario.idle = None /\ deletions Scenario.idle = [] /\
  main Scenario.idle <> Finished EXPIRED /\
  forall d, run Scenario.aliceWritten Scenario.idle [Tick d; Fire case_timeout] = None.
Proof.
  apply (no_deadline_no_expiry Scenario.aliceWritten 1000 [Scenario.added]
           [WatcherStep; Enter; Tick Scenario.threeDays] Scenario.idle).
  - reflexivity.
  - constructor; [|constructor]. intros r Hr. injection Hr as <-. reflexivity.
  - vm_compute. reflexivity.
Defined.



End SupervisorRuns.

(** ** More of the random string and of the verification *)

Lemma get_string_of_list_ascii (l : list ascii) :
  forall i, String.get i (string_of_list_ascii l) = nth_error l i.
Proof.
  induction l as [|c l IH]; intros [|i]; cbn; try reflexivity. apply IH.
Qed.

Lemma nth_error_map_seq {A} (f : nat -> A) n i :
  nth_error (map f (seq 0 n)) i = if (i <? n)%nat then Some (f i) else None.
Proof.
  rewrite nth_error_map.
  destruct (Nat.ltb_spec i n) as [Hlt | Hge].
  - rewrite nth_error_nth' with (d := 0%nat) by now rewrite length_seq.
    now rewrite seq_nth.
  - replace (nth_error (seq 0 n) i) with (@None nat); [reflexivity|].
    symmetry. apply nth_error_None. now rewrite length_seq.
Qed.

(** X20.  [generateRandomString n], for every [n] and whatever the
    generator draws: the string has exactly [n] characters, the empty
    string for [n = 0]; each is a lowercase letter or a digit; and the
    character at position [i] is the letter of the 36 at the index the
    [i]-th draw leaves modulo 36, so that the index is always in range. *)
Theorem random_string_is_n_letters_by_draws env n :
  String.length (generateRandomString env n) = n /\
  forallb lowerAlphanumeric (list_ascii_of_string (generateRandomString env n)) = true /\
  forall i, String.get i (generateRandomString env n)
            = if (i <? n)%nat then nth_error letter (draws env i mod 36) else None.
Proof.
  split; [apply generateRandomString_length|]. split.
  - apply forallb_forall. intros c Hc.
    pose proof (generateRandomString_letters env n) as Hall.
    rewrite List.Forall_forall in Hall. specialize (Hall c Hc).
    assert (Hletters : forallb lowerAlphanumeric letter = true) by (vm_compute; reflexivity).
    rewrite forallb_forall in Hletters. now apply Hletters.
  - intros i. unfold generateRandomString.
    rewrite get_string_of_list_ascii, nth_error_map_seq.
    destruct (i <? n)%nat; [|reflexivity].
    unfold Intn. symmetry. apply nth_error_nth'.
    apply Nat.mod_upper_bound. discriminate.
Qed.

Section Verification.

Variables (env : Env) (u : UserRegistrationRequest) (cl : Cluster).

Let ns := Namespace (Meta u).
Let name := Name (Meta u).
Let created := ObjectCreated env (PtrUserRegistrationRequest u).
Let URRCopy := setPassword (name +:+ "-pass") u.
Let code := "bs" +:+ generateRandomString env 16.

(** X21.  A create notification for a request that is stored, has a
    name, is no duplicate, is on an enabled site and has no deadline yet,
    with the write of the secret reference answered: the email
    verification asked for is owned by the request, by its name and its
    UID, through a reference that does not control it and blocks the
    deletion of the owner; and the mail that follows its creation carries
    the site of the namespace, the name of the request as the username,
    first and last name, the email address of the request as the one
    recipient, and the name of the verification as the code. *)
Theorem verification_owned_by_and_mailed_to_request :
  IsDuplicate env u cl = false -> siteEnabled env u cl = true ->
  Expires (Status u) = None ->
  name <> "" -> Store.existsURR ns name cl = true ->
  unavailable env (UserRegistrationRequests_Update ns URRCopy) = false ->
  exists e,
    spawned (calls created cl)
    = (EmailVerifications_Create ns
         {| ev_Meta :=
              setName code
                (setOwnerRefs
                   [{| or_APIVersion := SchemeGroupVersion env;
                       or_Kind := "UserRegistrationRequest";
                       or_Name := name; or_UID := UID (Meta u);
                       or_Controller := Some false;
                       or_BlockOwnerDeletion := Some true |}]
                   zeroMeta);
            ev_Spec := {| ev_Kind := "User"; ev_Identifier := name |} |}, e)
      :: match e with
         | None =>
             [(mailer_Send "user-email-verification"
                 {| cd_Site := label (ns_Meta (fst (result (Namespaces_Get_ env ns) cl)))
                                     "site-name";
                    cd_Username := name;
                    cd_Name := FirstName (Spec u) +:+ " " +:+ LastName (Spec u);
                    cd_Email := [Email (Spec u)];
                    cd_Code := code |}, None)]
         | Some _ => []
         end.
Proof.
  intros Hdup Hsite Hexp Hname Hex Hup.
  pose proof (ObjectCreated_fresh_calls env u cl Hdup Hsite Hexp) as Hcalls.
  cbv zeta in Hcalls.
  set (cl1 := after (CreateSecretByPassword env u) cl) in Hcalls.
  assert (Hex1 : Store.existsURR ns name cl1 = true).
  { unfold Store.existsURR, cl1. rewrite CreateSecretByPassword_keeps. exact Hex. }
  destruct (Update_stored env URRCopy cl1 Hexp Hname Hup Hex1) as [Hres _].
  change (Namespace (Meta URRCopy)) with ns in Hres.
  fold ns name URRCopy in Hcalls. rewrite Hres in Hcalls. cbn [fst snd] in Hcalls.
  set (e2 := snd (result (EmailVerifications_Create_ env _ _) _)) in Hcalls.
  exists e2. subst created. rewrite Hcalls, !spawned_app.
  rewrite (spawned_of_listings _ (listing_checkUsernameEmailAddress env u cl)).
  destruct (calls_resolveSite env u cl) as (e1 & s & e' & ->).
  destruct e2; reflexivity.
Qed.

End Verification.

Lemma verification_owned_by_and_mailed_to_request_witness :
  exists e,
    spawned (calls (ObjectCreated Fixture.env0 (PtrUserRegistrationRequest Fixture.alice))
                   Fixture.cluster0)
    = (EmailVerifications_Create "site-a"
         {| ev_Meta :=
              setName "bsabcdefghijklmnop"
                (setOwnerRefs [Fixture.ownerRef "UserRegistrationRequest" "alice" "r-1"]
                              zeroMeta);
            ev_Spec := {| ev_Kind := "User"; ev_Identifier := "alice" |} |}, e)
      :: match e with
         | None =>
             [(mailer_Send "user-email-verification"
                 {| cd_Site := "a";
                    cd_Username := "alice";
                    cd_Name := "Alice Liddell";
                    cd_Email := ["alice@a.org"];
                    cd_Code := "bsabcdefghijklmnop" |}, None)]
         | Some _ => []
         end.
Proof.
  apply (verification_owned_by_and_mailed_to_request Fixture.env0 Fixture.alice
           Fixture.cluster0); try reflexivity.
  intros H; discriminate H.
Defined.
